(** * Flex Living reviews backend: normalizer, repository, approval workflow,
      analytics and cache invalidation.

    A shallow embedding of the TypeScript services
    ([hostaway.service.ts], [reviews.repository.ts], [review.entity.ts],
    [reviews.service.ts], [reviews.controller.ts], [analytics.service.ts])
    and the properties the design document states about them.

    Modelling conventions.
    - A JavaScript [number] that carries a rating or an average is an exact
      rational ([Q]); identifiers, counts, page numbers and time stamps are
      integers ([Z], [nat]).  Binary floating point rounding of ratings and
      [NaN] are outside the model; [parseInt] rounds the number it reads to
      a double.
    - A string is a [string] of ASCII characters.
    - [undefined]/[null]/absent is [None].
    - [new Date()] is an explicit argument [now] (milliseconds); the
      [Date] constructor applied to a string and the regular expression
      matcher of the document store are operations of the runtime, collected
      in the class [Runtime].
    - The document store is the list of its documents in insertion order;
      an update operation stamps [updatedAt] as the schema option
      [timestamps] asks; a primary key is an [ObjectId] of twelve bytes,
      and a string handed to the store as a primary key is cast to one.
    - The cache is the finite map of the entries it holds.  When the cache
      store drops an entry (its time to live has run out, or it is evicted)
      is not modelled: a read finds what the map holds.
    - A method that can throw returns a [Result]. *)

From Stdlib Require Import Ascii String ZArith QArith Qround Qabs Lia Lqa.
From Stdlib Require Strings.Byte.
From Stdlib Require Import Sorting.Sorted.
From stdpp Require Import base option list sorting strings pretty gmap fin_maps.

Open Scope Q_scope.
Open Scope string_scope.
Open Scope list_scope.

(** ** JavaScript numbers and strings *)

Module Js.

(** [x || d] on strings: the empty string is falsy. *)
Definition str_or (s d : string) : string :=
  match s with
  | EmptyString => d
  | _ => s
  end.

(** [x || d] on an optional string: [undefined], [null] and [''] are
    falsy. *)
Definition opt_or (s : option string) (d : string) : string :=
  match s with
  | Some (String c r) => String c r
  | _ => d
  end.

(** [x || null]. *)
Definition opt_or_null (s : option string) : option string :=
  match s with
  | Some (String c r) => Some (String c r)
  | _ => None
  end.

(** Truthiness of an optional string. *)
Definition truthy (s : option string) : bool :=
  match s with
  | Some (String _ _) => true
  | _ => false
  end.

(** [/^\d+$/.test(s)] *)
Definition is_digit (c : ascii) : bool :=
  let n := nat_of_ascii c in (48 <=? n)%nat && (n <=? 57)%nat.

Fixpoint all_digits (s : string) : bool :=
  match s with
  | EmptyString => true
  | String c r => is_digit c && all_digits r
  end.

Definition is_numeric (s : string) : bool :=
  match s with
  | EmptyString => false
  | _ => all_digits s
  end.

(** The whole number that a string of digits writes. *)
Fixpoint parse_digits (acc : Z) (s : string) : Z :=
  match s with
  | EmptyString => acc
  | String c r =>
      parse_digits (10 * acc + (Z.of_nat (nat_of_ascii c) - 48))%Z r
  end.

(** The Number value of a whole number [n >= 0]: the double nearest to it,
    the one with the even significand when two are equally near.  Every
    whole number below [2^53] is a double; above, the doubles are the
    multiples of [2^e] with a significand of 53 bits.  What rounds to
    [2^1024] is [Infinity], written [None]. *)
Definition to_double (n : Z) : option Z :=
  (if n <? 2 ^ 53 then Some n
   else
     let e := Z.log2 n - 52 in
     let q := n / 2 ^ e in
     let r := n mod 2 ^ e in
     let half := 2 ^ (e - 1) in
     let m :=
       if r <? half then q
       else if half <? r then q + 1
       else if Z.even q then q else q + 1 in
     let d := m * 2 ^ e in
     if d <? 2 ^ 1024 then Some d else None)%Z.

(** [parseInt(s, 10)] on a string of digits. *)
Definition parseInt (s : string) : option Z := to_double (parse_digits 0%Z s).

(** A whole Number value in a template literal: its decimal digits, or
    [Infinity].  (From [1e21] on JavaScript prints exponent notation, which
    the text of the message here does not follow.) *)
Definition number_toString (n : option Z) : string :=
  match n with
  | Some n => pretty n
  | None => "Infinity"
  end.

(** [String.prototype.toLowerCase] on ASCII. *)
Definition lower_char (c : ascii) : ascii :=
  let n := nat_of_ascii c in
  if (65 <=? n)%nat && (n <=? 90)%nat then ascii_of_nat (n + 32) else c.

Fixpoint toLowerCase (s : string) : string :=
  match s with
  | EmptyString => EmptyString
  | String c r => String (lower_char c) (toLowerCase r)
  end.

(** The character class [\s] on ASCII: tab, line feed, vertical tab, form
    feed, carriage return and space. *)
Definition is_space (c : ascii) : bool :=
  let n := nat_of_ascii c in
  ((9 <=? n)%nat && (n <=? 13)%nat) || (n =? 32)%nat.

Definition is_lower_alnum (c : ascii) : bool :=
  let n := nat_of_ascii c in
  ((97 <=? n)%nat && (n <=? 122)%nat) || is_digit c.

(** [s.replace(/[^a-z0-9\s-]/g, '')] *)
Fixpoint strip_other (s : string) : string :=
  match s with
  | EmptyString => EmptyString
  | String c r =>
      if is_lower_alnum c || is_space c || (nat_of_ascii c =? 45)%nat
      then String c (strip_other r)
      else strip_other r
  end.

(** [s.replace(/\s+/g, '-')]: every maximal run of white space becomes one
    hyphen.  [in_run] tells whether the previous character was white
    space. *)
Fixpoint spaces_to_hyphen (in_run : bool) (s : string) : string :=
  match s with
  | EmptyString => EmptyString
  | String c r =>
      if is_space c
      then if in_run then spaces_to_hyphen true r
           else String "-"%char (spaces_to_hyphen true r)
      else String c (spaces_to_hyphen false r)
  end.

(** [s.substring(0, n)] *)
Fixpoint substring0 (n : nat) (s : string) : string :=
  match n, s with
  | O, _ => EmptyString
  | S _, EmptyString => EmptyString
  | S k, String c r => String c (substring0 k r)
  end.

(** [parseFloat(x.toFixed(digits))]: the number denoted by the decimal
    numeral that [toFixed] prints.  ECMAScript takes the sign off, picks
    the integer [n] with [n / 10^digits] closest to the magnitude, the
    larger one on a tie, and puts the sign back. *)
Definition pow10 (digits : nat) : Q := inject_Z (10 ^ Z.of_nat digits).

Definition toFixed (digits : nat) (x : Q) : Q :=
  if Qlt_le_dec x 0
  then - (inject_Z (Qfloor ((- x) * pow10 digits + (1 # 2))) / pow10 digits)
  else inject_Z (Qfloor (x * pow10 digits + (1 # 2))) / pow10 digits.

(** [xs.reduce((acc, x) => acc + f(x), 0)] *)
Definition sum_by {A} (f : A -> Q) (xs : list A) : Q :=
  fold_left (fun acc x => acc + f x) xs 0.




End Js.

(** ** The runtime *)

Class Runtime := {
  (** [new Date(s)] as milliseconds since the epoch. *)
  Date_parse : string -> Z;
  (** [{ $regex: pattern, $options: 'i' }] applied to a field value. *)
  regex_test_i : string -> string -> bool;
  (** [{ $dateToString: { format: '%Y-%m-%d', date: d } }] *)
  Date_dayString : Z -> string
}.

(** ** Data model *)

Module ReviewCategory.
Record t := mk { category : string; rating : Q }.
End ReviewCategory.

(** [HostawayReview] of [hostaway-response.interface.ts]. *)
Module HostawayReview.
Record t := mk {
  id : Z;
  type : string;
  status : string;
  rating : option Q;
  publicReview : string;
  privateReview : option string;
  reviewCategory : list ReviewCategory.t;
  submittedAt : string;
  guestName : string;
  listingName : string;
  listingId : option string;
  channelId : option Z
}.
End HostawayReview.

(** [NormalizedReview] of [hostaway-response.interface.ts]. *)
Module NormalizedReview.
Record t := mk {
  hostawayId : Z;
  type : string;
  status : string;
  rating : option Q;
  publicReview : string;
  privateReview : option string;
  reviewCategories : list ReviewCategory.t;
  submittedAt : Z;
  guestName : string;
  listingId : string;
  listingName : string;
  channel : string;
  averageCategoryRating : Q
}.
End NormalizedReview.

(** ** HostawayService *)

Module HostawayService.

(** The service owns a logger; a method is a function of the log written
    so far that returns its result and the log afterwards. *)
Record World := { logged : list string }.

Definition M (A : Type) : Type := World -> A * World.
Definition ret {A} (a : A) : M A := fun w => (a, w).
Definition bind {A B} (m : M A) (k : A -> M B) : M B :=
  fun w => let (a, w') := m w in k a w'.
Definition log (line : string) : M unit :=
  fun w => (tt, {| logged := logged w ++ [line] |}).

Fixpoint mapM {A B} (f : A -> M B) (xs : list A) : M (list B) :=
  match xs with
  | [] => ret []
  | x :: r => bind (f x) (fun y => bind (mapM f r) (fun ys => ret (y :: ys)))
  end.

Definition calculateAverageRating (categories : list ReviewCategory.t) : Q :=
  if (length categories =? 0)%nat then 0
  else
    let sum := Js.sum_by ReviewCategory.rating categories in
    Js.toFixed 2 (sum / inject_Z (Z.of_nat (length categories))).

Definition generateListingId (listingName : string) : string :=
  Js.substring0 50
    (Js.spaces_to_hyphen false (Js.strip_other (Js.toLowerCase listingName))).

Section WithRuntime.
Context {RT : Runtime}.

Definition normalizeReview (review : HostawayReview.t)
  : M NormalizedReview.t :=
  let avgRating :=
    calculateAverageRating (HostawayReview.reviewCategory review) in
  let listingId :=
    match Js.opt_or_null (HostawayReview.listingId review) with
    | Some l => l
    | None => generateListingId (HostawayReview.listingName review)
    end in
  ret {|
    NormalizedReview.hostawayId := HostawayReview.id review;
    NormalizedReview.type := HostawayReview.type review;
    NormalizedReview.status := HostawayReview.status review;
    NormalizedReview.rating := HostawayReview.rating review;
    NormalizedReview.publicReview :=
      Js.str_or (HostawayReview.publicReview review) "";
    NormalizedReview.privateReview :=
      Js.opt_or_null (HostawayReview.privateReview review);
    NormalizedReview.reviewCategories :=
      map (fun cat =>
             {| ReviewCategory.category := ReviewCategory.category cat;
                ReviewCategory.rating := ReviewCategory.rating cat |})
          (HostawayReview.reviewCategory review);
    NormalizedReview.submittedAt :=
      Date_parse (HostawayReview.submittedAt review);
    NormalizedReview.guestName := HostawayReview.guestName review;
    NormalizedReview.listingId := listingId;
    NormalizedReview.listingName := HostawayReview.listingName review;
    NormalizedReview.channel := "hostaway";
    NormalizedReview.averageCategoryRating := avgRating
  |}.

Definition normalizeReviews (hostawayReviews : list HostawayReview.t)
  : M (list NormalizedReview.t) :=
  mapM normalizeReview hostawayReviews.

End WithRuntime.

(** The literal fall-back data of [getHardcodedMockData]; the method logs
    before it returns. *)
Definition cat (category : string) (rating : Z) : ReviewCategory.t :=
  ReviewCategory.mk category (inject_Z rating).

Definition mock (id : Z) (type status : string) (rating : option Z)
    (publicReview : string) (reviewCategory : list ReviewCategory.t)
    (submittedAt guestName listingName : string) : HostawayReview.t :=
  {| HostawayReview.id := id;
     HostawayReview.type := type;
     HostawayReview.status := status;
     HostawayReview.rating := option_map inject_Z rating;
     HostawayReview.publicReview := publicReview;
     HostawayReview.privateReview := None;
     HostawayReview.reviewCategory := reviewCategory;
     HostawayReview.submittedAt := submittedAt;
     HostawayReview.guestName := guestName;
     HostawayReview.listingName := listingName;
     HostawayReview.listingId := None;
     HostawayReview.channelId := None |}.

Definition hardcodedMockData : list HostawayReview.t :=
  [
    mock 7453 "host-to-guest" "published" None
      "Shane and family are wonderful! Would definitely host again :)"
      [cat "cleanliness" 10; cat "communication" 10; cat "respect_house_rules" 10]
      "2020-08-21 22:45:14" "Shane Finkelstein"
      "2B N1 A - 29 Shoreditch Heights";
    mock 7454 "guest-to-host" "published" (Some 9)
      "Amazing property in a great location. The apartment was clean and well-maintained. Host was very responsive and helpful. Would definitely stay again!"
      [cat "cleanliness" 9; cat "communication" 10; cat "location" 10; cat "value" 8]
      "2024-09-15 14:30:22" "Emma Thompson"
      "Luxury Studio - Central London";
    mock 7455 "guest-to-host" "published" (Some 8)
      "Good stay overall. The place was as described. Minor issues with WiFi but host fixed it quickly."
      [cat "cleanliness" 8; cat "communication" 9; cat "amenities" 7]
      "2024-10-01 09:15:30" "Michael Chen"
      "Cozy 1BR Apartment - Shoreditch";
    mock 7456 "guest-to-host" "published" (Some 10)
      "Absolutely perfect! The property exceeded all expectations. Beautifully decorated, spotlessly clean, and in an unbeatable location. The host went above and beyond to make our stay comfortable."
      [cat "cleanliness" 10; cat "communication" 10; cat "location" 10; cat "value" 10; cat "amenities" 10]
      "2024-09-28 16:45:00" "Sarah Martinez"
      "Penthouse Suite - Tower Bridge View";
    mock 7457 "guest-to-host" "published" (Some 7)
      "Decent stay. Location was great but the apartment could use some updates. Heating was inconsistent."
      [cat "cleanliness" 7; cat "communication" 8; cat "location" 9; cat "value" 6; cat "amenities" 6]
      "2024-09-20 11:20:15" "David Wilson"
      "Studio Flat - Camden Town";
    mock 7458 "host-to-guest" "published" None
      "Great guests! Very respectful and left the place in excellent condition. Welcome back anytime!"
      [cat "cleanliness" 10; cat "communication" 9; cat "respect_house_rules" 10]
      "2024-09-18 09:30:00" "Jennifer Lee"
      "Modern Loft - Hackney";
    mock 7459 "guest-to-host" "published" (Some 9)
      "Wonderful experience! The apartment is exactly as shown in photos. Great coffee shops and restaurants nearby. Highly recommend!"
      [cat "cleanliness" 9; cat "communication" 10; cat "location" 10; cat "value" 8]
      "2024-09-25 14:15:30" "Robert Taylor"
      "Charming 2BR - Notting Hill";
    mock 7460 "guest-to-host" "published" (Some 6)
      "Average stay. The location was the main positive. However, noise from the street was an issue and some appliances weren't working properly."
      [cat "cleanliness" 7; cat "communication" 6; cat "location" 8; cat "value" 5; cat "amenities" 5]
      "2024-09-12 10:00:00" "Amanda Brown"
      "Compact Studio - Kings Cross";
    mock 7461 "guest-to-host" "published" (Some 10)
      "This place is a gem! Beautifully designed, comfortable bed, amazing shower pressure. The host was incredibly helpful with local recommendations. Can't wait to come back!"
      [cat "cleanliness" 10; cat "communication" 10; cat "location" 9; cat "value" 10; cat "amenities" 10]
      "2024-10-02 18:20:45" "Lisa Anderson"
      "Designer Apartment - Soho";
    mock 7462 "host-to-guest" "published" None
      "Lovely couple! Easy communication and very tidy. Would happily host them again."
      [cat "cleanliness" 9; cat "communication" 10; cat "respect_house_rules" 9]
      "2024-09-22 15:45:00" "James Wright"
      "2B N1 A - 29 Shoreditch Heights";
    mock 7463 "guest-to-host" "published" (Some 8)
      "Great stay! The apartment was clean and comfortable. Check-in was smooth. Only minor issue was the WiFi speed but overall very satisfied."
      [cat "cleanliness" 9; cat "communication" 8; cat "location" 8; cat "value" 8; cat "amenities" 7]
      "2024-09-30 12:30:00" "Maria Garcia"
      "Bright 1BR - Islington";
    mock 7464 "guest-to-host" "published" (Some 9)
      "Fantastic location and beautiful space. Everything was exactly as described. The host provided excellent local tips. Highly recommend for anyone visiting London!"
      [cat "cleanliness" 9; cat "communication" 10; cat "location" 10; cat "value" 8; cat "amenities" 9]
      "2024-09-27 16:00:00" "Thomas Mueller"
      "Luxury Studio - Central London";
    mock 7465 "guest-to-host" "published" (Some 7)
      "Nice place overall but had some issues with water pressure. Location is excellent and host was responsive when we reported problems."
      [cat "cleanliness" 8; cat "communication" 9; cat "location" 9; cat "value" 6; cat "amenities" 6]
      "2024-09-14 09:45:00" "Sophie Dubois"
      "Modern Flat - Chelsea";
    mock 7466 "host-to-guest" "published" None
      "Perfect guests! They treated the home with respect and followed all house rules. Communication was excellent throughout."
      [cat "cleanliness" 10; cat "communication" 10; cat "respect_house_rules" 10]
      "2024-09-19 13:15:00" "Oliver Smith"
      "Cozy 1BR Apartment - Shoreditch";
    mock 7467 "guest-to-host" "published" (Some 10)
      "One of the best places we've stayed! Immaculately clean, great amenities, and the host went out of their way to make us feel welcome. The location is perfect for exploring London."
      [cat "cleanliness" 10; cat "communication" 10; cat "location" 10; cat "value" 9; cat "amenities" 10]
      "2024-10-01 17:30:00" "Elena Popov"
      "Stylish Apartment - Mayfair";
    mock 7468 "guest-to-host" "published" (Some 8)
      "Very nice apartment in a great neighborhood. Everything was clean and well-maintained. Would definitely recommend to friends!"
      [cat "cleanliness" 9; cat "communication" 8; cat "location" 9; cat "value" 8; cat "amenities" 8]
      "2024-09-24 11:00:00" "Carlos Rodriguez"
      "Charming 2BR - Notting Hill";
    mock 7469 "guest-to-host" "published" (Some 9)
      "Excellent stay! The apartment is beautiful and the area is fantastic. Host was very helpful and responsive. Only small issue was parking but that's not the host's fault."
      [cat "cleanliness" 9; cat "communication" 10; cat "location" 9; cat "value" 9; cat "amenities" 9]
      "2024-09-26 14:45:00" "Yuki Tanaka"
      "Modern Loft - Hackney";
    mock 7470 "host-to-guest" "published" None
      "Wonderful family! Very respectful and communicative. Left the apartment in pristine condition. Highly recommend!"
      [cat "cleanliness" 10; cat "communication" 9; cat "respect_house_rules" 10]
      "2024-09-23 10:30:00" "Anna Schmidt"
      "Family-Friendly 3BR - Richmond";
    mock 7471 "guest-to-host" "published" (Some 7)
      "Good location and the host was nice. However, the apartment could be cleaner and some facilities need updating. Overall okay for the price."
      [cat "cleanliness" 6; cat "communication" 8; cat "location" 9; cat "value" 7; cat "amenities" 6]
      "2024-09-16 15:20:00" "Mohammed Ali"
      "Budget Studio - Bethnal Green";
    mock 7472 "guest-to-host" "published" (Some 10)
      "Absolutely loved this place! Everything was perfect - from the comfortable bed to the fully equipped kitchen. The host's attention to detail is impressive. Will definitely book again!"
      [cat "cleanliness" 10; cat "communication" 10; cat "location" 10; cat "value" 10; cat "amenities" 10]
      "2024-09-29 19:15:00" "Isabella Rossi"
      "Penthouse Suite - Tower Bridge View";
    mock 7473 "guest-to-host" "published" (Some 8)
      "Great experience overall. The apartment is lovely and well-located. Check-in was easy and the host provided clear instructions. Minor noise from neighbors but manageable."
      [cat "cleanliness" 8; cat "communication" 9; cat "location" 9; cat "value" 8; cat "amenities" 8]
      "2024-09-21 13:00:00" "Pierre Dubois"
      "Elegant 1BR - Kensington";
    mock 7474 "host-to-guest" "published" None
      "Great guest! Clean, respectful, and easy to communicate with. Would definitely host again."
      [cat "cleanliness" 9; cat "communication" 10; cat "respect_house_rules" 9]
      "2024-09-17 11:45:00" "Olivia Johnson"
      "Designer Apartment - Soho";
    mock 7475 "guest-to-host" "published" (Some 9)
      "Wonderful stay in London! The apartment exceeded our expectations. Clean, comfortable, and in a vibrant neighborhood. The host was extremely helpful with restaurant recommendations."
      [cat "cleanliness" 10; cat "communication" 10; cat "location" 9; cat "value" 9; cat "amenities" 9]
      "2024-09-28 16:30:00" "Lars Andersen"
      "Contemporary 2BR - Shoreditch";
    mock 7476 "guest-to-host" "published" (Some 6)
      "The apartment was okay but didn't quite meet expectations based on the photos. Location was good but the building was quite noisy. Host was responsive which was appreciated."
      [cat "cleanliness" 7; cat "communication" 8; cat "location" 7; cat "value" 5; cat "amenities" 6]
      "2024-09-13 10:15:00" "Nina Kowalski"
      "City View Studio - Canary Wharf";
    mock 7477 "guest-to-host" "published" (Some 10)
      "Perfect in every way! This is how all rentals should be. Spotless, comfortable, great location, and an amazing host. Thank you for a memorable stay!"
      [cat "cleanliness" 10; cat "communication" 10; cat "location" 10; cat "value" 10; cat "amenities" 10]
      "2024-10-02 20:00:00" "Hannah Cohen"
      "Luxury Studio - Central London"
  ]%Z.

Definition getHardcodedMockData : M (list HostawayReview.t) :=
  bind (log "Using hardcoded mock data (25 reviews)")
       (fun _ => ret hardcodedMockData).

End HostawayService.


(** ** Errors *)

Inductive Error :=
| NotFoundException (message : string)
| BadRequestException (message : string)
| DuplicateKeyError
| ValidationError
| CastError
| DivideByZeroError.

Definition Result (A : Type) : Type := Error + A.

Definition Ok {A} (a : A) : Result A := inr a.
Definition Throw {A} (e : Error) : Result A := inl e.

Definition rbind {A B} (m : Result A) (k : A -> Result B) : Result B :=
  match m with
  | inl e => inl e
  | inr a => k a
  end.

Fixpoint rmap {A B} (f : A -> Result B) (xs : list A) : Result (list B) :=
  match xs with
  | [] => Ok []
  | x :: r => rbind (f x) (fun y => rbind (rmap f r) (fun ys => Ok (y :: ys)))
  end.

(** ** The entity ([review.entity.ts]) *)

(** ** Primary keys ([Types.ObjectId])

    A primary key is twelve bytes.  Its string form is 24 hexadecimal
    digits in lower case; a string is cast to a key when it is 24
    hexadecimal digits, in either case, and to nothing otherwise. *)

Module ObjectId.

Inductive t :=
| mk (b0 b1 b2 b3 b4 b5 b6 b7 b8 b9 b10 b11 : Byte.byte).

#[global] Instance byte_eq_dec : EqDecision Byte.byte := Byte.byte_eq_dec.

#[global] Instance eq_dec : EqDecision t.
Proof. solve_decision. Defined.

Definition hex_digit (n : N) : ascii :=
  default "0"%char (list_ascii_of_string "0123456789abcdef" !! N.to_nat n).

Definition byte_hex (b : Byte.byte) : string :=
  let n := Byte.to_N b in
  String (hex_digit (n / 16)) (String (hex_digit (n mod 16)) EmptyString).

(** [toString()], [toHexString()] *)
Definition toString (k : t) : string :=
  let 'mk b0 b1 b2 b3 b4 b5 b6 b7 b8 b9 b10 b11 := k in
  byte_hex b0 ++ byte_hex b1 ++ byte_hex b2 ++ byte_hex b3 ++ byte_hex b4
  ++ byte_hex b5 ++ byte_hex b6 ++ byte_hex b7 ++ byte_hex b8 ++ byte_hex b9
  ++ byte_hex b10 ++ byte_hex b11.

Definition hex_value (c : ascii) : option N :=
  let n := N_of_ascii c in
  if (48 <=? n)%N && (n <=? 57)%N then Some (n - 48)%N
  else if (97 <=? n)%N && (n <=? 102)%N then Some (n - 87)%N
  else if (65 <=? n)%N && (n <=? 70)%N then Some (n - 55)%N
  else None.

Fixpoint from_hex (s : string) : option (list Byte.byte) :=
  match s with
  | EmptyString => Some []
  | String c1 (String c2 r) =>
      h ← hex_value c1; l ← hex_value c2; b ← Byte.of_N (16 * h + l);
      cons b <$> from_hex r
  | _ => None
  end.

(** The cast of a string to [ObjectId] that a query on [_id] performs:
    [None] is the [CastError]. *)
Definition cast (s : string) : option t :=
  match from_hex s with
  | Some [b0; b1; b2; b3; b4; b5; b6; b7; b8; b9; b10; b11] =>
      Some (mk b0 b1 b2 b3 b4 b5 b6 b7 b8 b9 b10 b11)
  | _ => None
  end.

End ObjectId.


Module Review.

(** A stored document: the fields of the schema and the primary key. *)
Record t := mk {
  _id : ObjectId.t;
  hostawayId : Z;
  type : string;
  status : string;
  rating : option Q;
  publicReview : string;
  privateReview : option string;
  reviewCategories : list ReviewCategory.t;
  submittedAt : Z;
  guestName : string;
  listingId : string;
  listingName : string;
  channel : string;
  isApprovedForPublic : bool;
  approvedBy : option string;
  approvedAt : option Z;
  managerNotes : option string;
  averageCategoryRating : option Q;
  (** the two fields of the schema option [timestamps: true] *)
  createdAt : Z;
  updatedAt : Z
}.

(** [this.averageCategoryRating = v] *)
Definition set_averageCategoryRating (v : option Q) (r : t) : t :=
  mk (_id r) (hostawayId r) (type r) (status r) (rating r) (publicReview r)
     (privateReview r) (reviewCategories r) (submittedAt r) (guestName r)
     (listingId r) (listingName r) (channel r) (isApprovedForPublic r)
     (approvedBy r) (approvedAt r) (managerNotes r) v
     (createdAt r) (updatedAt r).

(** [.select('-managerNotes -approvedBy')] *)
Definition without_manager_fields (r : t) : t :=
  mk (_id r) (hostawayId r) (type r) (status r) (rating r) (publicReview r)
     (privateReview r) (reviewCategories r) (submittedAt r) (guestName r)
     (listingId r) (listingName r) (channel r) (isApprovedForPublic r)
     None (approvedAt r) None (averageCategoryRating r)
     (createdAt r) (updatedAt r).

(** The time stamp an update operation leaves. *)
Definition set_updatedAt (v : Z) (r : t) : t :=
  mk (_id r) (hostawayId r) (type r) (status r) (rating r) (publicReview r)
     (privateReview r) (reviewCategories r) (submittedAt r) (guestName r)
     (listingId r) (listingName r) (channel r) (isApprovedForPublic r)
     (approvedBy r) (approvedAt r) (managerNotes r) (averageCategoryRating r)
     (createdAt r) v.

End Review.

(** [Partial<Review>]: every key may be absent ([None]); a key of a nullable
    field that is present holds [Some None] for [null]. *)
Module PartialReview.

Record t := mk {
  hostawayId : option Z;
  type : option string;
  status : option string;
  rating : option (option Q);
  publicReview : option string;
  privateReview : option (option string);
  reviewCategories : option (list ReviewCategory.t);
  submittedAt : option Z;
  guestName : option string;
  listingId : option string;
  listingName : option string;
  channel : option string;
  isApprovedForPublic : option bool;
  approvedBy : option (option string);
  approvedAt : option (option Z);
  managerNotes : option (option string);
  averageCategoryRating : option Q
}.

Definition empty : t :=
  mk None None None None None None None None None None None None None None
     None None None.

(** [data.approvedAt = v] *)
Definition set_approvedAt (v : option Z) (d : t) : t :=
  mk (hostawayId d) (type d) (status d) (rating d) (publicReview d)
     (privateReview d) (reviewCategories d) (submittedAt d) (guestName d)
     (listingId d) (listingName d) (channel d) (isApprovedForPublic d)
     (approvedBy d) (Some v) (managerNotes d) (averageCategoryRating d).

(** [data.approvedBy = v] *)
Definition set_approvedBy (v : option string) (d : t) : t :=
  mk (hostawayId d) (type d) (status d) (rating d) (publicReview d)
     (privateReview d) (reviewCategories d) (submittedAt d) (guestName d)
     (listingId d) (listingName d) (channel d) (isApprovedForPublic d)
     (Some v) (approvedAt d) (managerNotes d) (averageCategoryRating d).

(** [data.isApprovedForPublic = v] *)
Definition set_isApprovedForPublic (v : bool) (d : t) : t :=
  mk (hostawayId d) (type d) (status d) (rating d) (publicReview d)
     (privateReview d) (reviewCategories d) (submittedAt d) (guestName d)
     (listingId d) (listingName d) (channel d) (Some v)
     (approvedBy d) (approvedAt d) (managerNotes d) (averageCategoryRating d).

(** A normalized review seen as the partial entity it is passed as. *)
Definition of_normalized (n : NormalizedReview.t) : t :=
  {| hostawayId := Some (NormalizedReview.hostawayId n);
     type := Some (NormalizedReview.type n);
     status := Some (NormalizedReview.status n);
     rating := Some (NormalizedReview.rating n);
     publicReview := Some (NormalizedReview.publicReview n);
     privateReview := Some (NormalizedReview.privateReview n);
     reviewCategories := Some (NormalizedReview.reviewCategories n);
     submittedAt := Some (NormalizedReview.submittedAt n);
     guestName := Some (NormalizedReview.guestName n);
     listingId := Some (NormalizedReview.listingId n);
     listingName := Some (NormalizedReview.listingName n);
     channel := Some (NormalizedReview.channel n);
     isApprovedForPublic := None;
     approvedBy := None;
     approvedAt := None;
     managerNotes := None;
     averageCategoryRating := Some (NormalizedReview.averageCategoryRating n) |}.

End PartialReview.

(** ** The document store

    What the Mongoose model does with the calls the repository makes. *)

Module Model.

Record Store := {
  docs : list Review.t;
  (** number of primary keys handed out so far *)
  issued : nat
}.

(** The primary key of the n-th inserted document: eight fixed bytes and
    a counter of four. *)
Definition counter_byte (n : N) : Byte.byte :=
  default Byte.x00 (Byte.of_N (n mod 256)).

Definition ObjectId (n : nat) : ObjectId.t :=
  let c := N.of_nat n in
  ObjectId.mk Byte.x64 Byte.xb7 Byte.xf3 Byte.xc2 Byte.xa1 Byte.xd0 Byte.xe9
    Byte.xf8 (counter_byte (c / 16777216)) (counter_byte (c / 65536))
    (counter_byte (c / 256)) (counter_byte c).

(** [$set] with a plain object: the keys present are set, the others are
    left alone. *)
Definition apply_set (u : PartialReview.t) (r : Review.t) : Review.t :=
  {| Review._id := Review._id r;
     Review.hostawayId := default (Review.hostawayId r) (PartialReview.hostawayId u);
     Review.type := default (Review.type r) (PartialReview.type u);
     Review.status := default (Review.status r) (PartialReview.status u);
     Review.rating := default (Review.rating r) (PartialReview.rating u);
     Review.publicReview :=
       default (Review.publicReview r) (PartialReview.publicReview u);
     Review.privateReview :=
       default (Review.privateReview r) (PartialReview.privateReview u);
     Review.reviewCategories :=
       default (Review.reviewCategories r) (PartialReview.reviewCategories u);
     Review.submittedAt :=
       default (Review.submittedAt r) (PartialReview.submittedAt u);
     Review.guestName := default (Review.guestName r) (PartialReview.guestName u);
     Review.listingId := default (Review.listingId r) (PartialReview.listingId u);
     Review.listingName :=
       default (Review.listingName r) (PartialReview.listingName u);
     Review.channel := default (Review.channel r) (PartialReview.channel u);
     Review.isApprovedForPublic :=
       default (Review.isApprovedForPublic r) (PartialReview.isApprovedForPublic u);
     Review.approvedBy := default (Review.approvedBy r) (PartialReview.approvedBy u);
     Review.approvedAt := default (Review.approvedAt r) (PartialReview.approvedAt u);
     Review.managerNotes :=
       default (Review.managerNotes r) (PartialReview.managerNotes u);
     Review.averageCategoryRating :=
       match PartialReview.averageCategoryRating u with
       | Some a => Some a
       | None => Review.averageCategoryRating r
       end;
     Review.createdAt := Review.createdAt r;
     Review.updatedAt := Review.updatedAt r |}.

(** An update operation ([findByIdAndUpdate], [updateMany], [updateOne] of
    a bulk write) at time [now]: the [$set], to which the schema option
    [timestamps] adds [updatedAt].  No [save] middleware runs. *)
Definition apply_update (now : Z) (u : PartialReview.t) (r : Review.t)
  : Review.t :=
  Review.set_updatedAt now (apply_set u r).

(** A required string: an absent key and the empty string fail validation. *)
Definition required_string (s : option string) : Result string :=
  match s with
  | Some (String c r) => Ok (String c r)
  | _ => Throw ValidationError
  end.

Definition required {A} (x : option A) : Result A :=
  match x with
  | Some a => Ok a
  | None => Throw ValidationError
  end.

(** [new Model(data)], saved at time [now]: the schema defaults fill the
    absent keys and the required keys are checked. *)
Definition construct (oid : ObjectId.t) (now : Z) (d : PartialReview.t)
  : Result Review.t :=
  rbind (required (PartialReview.hostawayId d)) (fun hostawayId =>
  rbind (required_string (PartialReview.type d)) (fun type =>
  rbind (required_string (PartialReview.status d)) (fun status =>
  rbind (required_string (PartialReview.publicReview d)) (fun publicReview =>
  rbind (required (PartialReview.submittedAt d)) (fun submittedAt =>
  rbind (required_string (PartialReview.guestName d)) (fun guestName =>
  rbind (required_string (PartialReview.listingId d)) (fun listingId =>
  rbind (required_string (PartialReview.listingName d)) (fun listingName =>
  Ok {| Review._id := oid;
        Review.hostawayId := hostawayId;
        Review.type := type;
        Review.status := status;
        Review.rating := default None (PartialReview.rating d);
        Review.publicReview := publicReview;
        Review.privateReview := default None (PartialReview.privateReview d);
        Review.reviewCategories := default [] (PartialReview.reviewCategories d);
        Review.submittedAt := submittedAt;
        Review.guestName := guestName;
        Review.listingId := listingId;
        Review.listingName := listingName;
        Review.channel := default "hostaway" (PartialReview.channel d);
        Review.isApprovedForPublic :=
          default false (PartialReview.isApprovedForPublic d);
        Review.approvedBy := default None (PartialReview.approvedBy d);
        Review.approvedAt := default None (PartialReview.approvedAt d);
        Review.managerNotes := default None (PartialReview.managerNotes d);
        Review.averageCategoryRating := PartialReview.averageCategoryRating d;
        Review.createdAt := now;
        Review.updatedAt := now
     |})))))))).

End Model.

(** ** Values of the store's query language *)

Module Mongo.

(** Comparison of an optional number: an absent or [null] value sorts
    before every number. *)
Definition leb (a b : option Q) : bool :=
  match a, b with
  | None, _ => true
  | Some _, None => false
  | Some x, Some y => Qle_bool x y
  end.

Definition eqb (a b : option Q) : bool := leb a b && leb b a.

(** [{ $gte: [a, bound] }] *)
Definition gte (a : option Q) (bound : Q) : bool := leb (Some bound) a.

(** [.sort(...)] with a comparison that says when the first argument may
    come first. *)
Definition by_leb {A} (le : A -> A -> bool) : relation A :=
  fun a b => le a b = true.

#[global] Instance by_leb_dec {A} (le : A -> A -> bool) : RelDecision (by_leb le).
Proof. intros a b. unfold by_leb. apply _. Defined.

Definition sort_by {A} (le : A -> A -> bool) (xs : list A) : list A :=
  merge_sort (by_leb le) xs.

(** The numbers among the values of a field. *)
Definition numbers {A} (f : A -> option Q) (xs : list A) : list Q :=
  omap f xs.

(** [{ $sum: 1 }] *)
Definition count {A} (xs : list A) : nat := length xs.

(** [{ $sum: { $cond: [flag, 1, 0] } }] *)
Definition count_if {A} (flag : A -> bool) (xs : list A) : nat :=
  length (filter (fun x => flag x = true) xs).

Definition of_nat (n : nat) : Q := inject_Z (Z.of_nat n).

(** [{ $avg: field }]: the mean of the numeric values, [null] when there is
    none. *)
Definition avg {A} (f : A -> option Q) (xs : list A) : option Q :=
  match numbers f xs with
  | [] => None
  | q :: qs => Some (fold_left Qplus (q :: qs) 0 / of_nat (length (q :: qs)))
  end.

(** [{ $min: field }] and [{ $max: field }] over the numeric values. *)
Definition min {A} (f : A -> option Q) (xs : list A) : option Q :=
  match numbers f xs with
  | [] => None
  | q :: qs => Some (fold_left (fun m x => if Qle_bool x m then x else m) qs q)
  end.

Definition max {A} (f : A -> option Q) (xs : list A) : option Q :=
  match numbers f xs with
  | [] => None
  | q :: qs => Some (fold_left (fun m x => if Qle_bool m x then x else m) qs q)
  end.

(** [{ $round: [x, 2] }]: to the nearest hundredth, a tie to the even
    one; [null] stays [null]. *)
Definition round2_number (x : Q) : Q :=
  let y := x * 100 in
  let f := Qfloor y in
  let d := y - inject_Z f in
  let n :=
    if Qle_bool d (1 # 2)
    then if Qle_bool (1 # 2) d then (if Z.even f then f else f + 1)%Z else f
    else (f + 1)%Z in
  inject_Z n / 100.

Definition round2 (x : option Q) : option Q := option_map round2_number x.

(** [{ $divide: [a, b] }]: the pipeline fails on a zero divisor. *)
Definition divide (a b : Q) : Result Q :=
  if Qeq_bool b 0 then Throw DivideByZeroError else Ok (a / b).

(** [.limit(n)]: zero means no limit. *)
Definition limit {A} (n : Z) (xs : list A) : list A :=
  if (n =? 0)%Z then xs else take (Z.to_nat (Z.abs n)) xs.

(** [.skip(n)] *)
Definition skip {A} (n : Z) (xs : list A) : list A := drop (Z.to_nat n) xs.

(** [$group]: one group per distinct key, in the order of first
    appearance, with its documents in input order.  No input document, no
    group. *)
Fixpoint group_insert {K A} `{EqDecision K} (k : K) (a : A)
    (gs : list (K * list A)) : list (K * list A) :=
  match gs with
  | [] => [(k, [a])]
  | (k', xs) :: r =>
      if decide (k = k') then (k', xs ++ [a]) :: r
      else (k', xs) :: group_insert k a r
  end.

Definition group_by {K A} `{EqDecision K} (key : A -> K) (xs : list A)
  : list (K * list A) :=
  fold_left (fun gs x => group_insert (key x) x gs) xs [].

End Mongo.

(** ** Request objects ([dto/]) *)

Module FilterReviewDto.
Record t := mk {
  page : option Z;
  limit : option Z;
  listingId : option string;
  channel : option string;
  status : option string;
  minRating : option Q;
  isApprovedForPublic : option bool;
  startDate : option string;
  endDate : option string;
  guestName : option string;
  sortBy : option string;
  sortOrder : option string
}.
End FilterReviewDto.

Module UpdateReviewDto.
Record t := mk {
  isApprovedForPublic : option bool;
  managerNotes : option string;
  approvedBy : option string
}.
End UpdateReviewDto.

Module BulkApproveDto.
Record t := mk {
  reviewIds : list string;
  approvedBy : option string
}.
End BulkApproveDto.

Module CreateReviewDto.
Record t := mk {
  hostawayId : Z;
  type : string;
  status : string;
  rating : option Q;
  publicReview : string;
  privateReview : option string;
  reviewCategories : list ReviewCategory.t;
  submittedAt : string;
  guestName : string;
  listingId : string;
  listingName : string;
  channel : option string
}.
End CreateReviewDto.

(** ** ReviewsRepository ([reviews.repository.ts]) *)

Module ReviewsRepository.

Import Model.

(** The filter object that [buildFilterQuery] assembles. *)
Record FilterQuery := {
  q_listingId : option string;
  q_channel : option string;
  q_status : option string;
  q_averageCategoryRating_gte : option Q;
  q_isApprovedForPublic : option bool;
  q_submittedAt_gte : option Z;
  q_submittedAt_lte : option Z;
  q_guestName_regex : option string
}.

Record Pagination := {
  page : Z;
  limit : Z;
  total : Z;
  totalPages : Z;
  hasNextPage : bool;
  hasPrevPage : bool
}.

Record Page := {
  data : list Review.t;
  pagination : Pagination
}.

(** Equality of two documents as values: numbers are compared as numbers. *)
Definition same_number (a b : option Q) : bool :=
  match a, b with
  | None, None => true
  | Some x, Some y => Qeq_bool x y
  | _, _ => false
  end.

Definition same_category (a b : ReviewCategory.t) : bool :=
  bool_decide (ReviewCategory.category a = ReviewCategory.category b)
  && Qeq_bool (ReviewCategory.rating a) (ReviewCategory.rating b).

Fixpoint same_categories (a b : list ReviewCategory.t) : bool :=
  match a, b with
  | [], [] => true
  | x :: a', y :: b' => same_category x y && same_categories a' b'
  | _, _ => false
  end.

Definition same_document (a b : Review.t) : bool :=
  bool_decide (Review._id a = Review._id b)
  && bool_decide (Review.hostawayId a = Review.hostawayId b)
  && bool_decide (Review.type a = Review.type b)
  && bool_decide (Review.status a = Review.status b)
  && same_number (Review.rating a) (Review.rating b)
  && bool_decide (Review.publicReview a = Review.publicReview b)
  && bool_decide (Review.privateReview a = Review.privateReview b)
  && same_categories (Review.reviewCategories a) (Review.reviewCategories b)
  && bool_decide (Review.submittedAt a = Review.submittedAt b)
  && bool_decide (Review.guestName a = Review.guestName b)
  && bool_decide (Review.listingId a = Review.listingId b)
  && bool_decide (Review.listingName a = Review.listingName b)
  && bool_decide (Review.channel a = Review.channel b)
  && bool_decide (Review.isApprovedForPublic a = Review.isApprovedForPublic b)
  && bool_decide (Review.approvedBy a = Review.approvedBy b)
  && bool_decide (Review.approvedAt a = Review.approvedAt b)
  && bool_decide (Review.managerNotes a = Review.managerNotes b)
  && same_number (Review.averageCategoryRating a)
                 (Review.averageCategoryRating b)
  && bool_decide (Review.createdAt a = Review.createdAt b)
  && bool_decide (Review.updatedAt a = Review.updatedAt b).

(** Schema validation, the first of the [save] middleware. *)
Definition in_range (x : Q) : bool := Qle_bool 0 x && Qle_bool x 10.

Definition validate (r : Review.t) : bool :=
  (bool_decide (Review.type r = "host-to-guest")
   || bool_decide (Review.type r = "guest-to-host"))
  && (bool_decide (Review.status r = "published")
      || bool_decide (Review.status r = "pending")
      || bool_decide (Review.status r = "draft"))
  && match Review.rating r with Some x => in_range x | None => true end
  && forallb (fun c => in_range (ReviewCategory.rating c))
             (Review.reviewCategories r).

(** [ReviewSchema.pre('save', ...)] *)
Definition pre_save (r : Review.t) : Review.t :=
  if (0 <? length (Review.reviewCategories r))%nat then
    let sum := Js.sum_by ReviewCategory.rating (Review.reviewCategories r) in
    Review.set_averageCategoryRating
      (Some (sum / Mongo.of_nat (length (Review.reviewCategories r)))) r
  else r.

Definition findByHostawayId (hostawayId : Z) (s : Store) : option Review.t :=
  find (fun r => bool_decide (Review.hostawayId r = hostawayId)) (docs s).

(** [findById(id)]: the string is cast to a key first, and one that is no
    key makes the query throw. *)
Definition findById (id : string) (s : Store) : Result (option Review.t) :=
  match ObjectId.cast id with
  | Some key => Ok (find (fun r => bool_decide (Review._id r = key)) (docs s))
  | None => Throw CastError
  end.

(** [document.save()]: validation, the hook, then the insert, which the
    unique index on [hostawayId] can refuse. *)
Definition save (r : Review.t) (s : Store) : Result Review.t * Store :=
  if validate r then
    let r' := pre_save r in
    match findByHostawayId (Review.hostawayId r') s with
    | Some _ => (Throw DuplicateKeyError, s)
    | None => (Ok r', {| docs := docs s ++ [r']; issued := S (issued s) |})
    end
  else (Throw ValidationError, s).

Definition create (reviewData : PartialReview.t) (now : Z) (s : Store)
  : Result Review.t * Store :=
  match construct (ObjectId (issued s)) now reviewData with
  | inl e => (inl e, s)
  | inr review => save review s
  end.

(** The document an upsert inserts: the key of the filter, the fields of
    [$set] and the schema defaults.  No validation and no [save] middleware
    run on this path. *)
Definition upserted_document (oid : ObjectId.t) (now : Z)
    (n : NormalizedReview.t)
  : Review.t :=
  {| Review._id := oid;
     Review.hostawayId := NormalizedReview.hostawayId n;
     Review.type := NormalizedReview.type n;
     Review.status := NormalizedReview.status n;
     Review.rating := NormalizedReview.rating n;
     Review.publicReview := NormalizedReview.publicReview n;
     Review.privateReview := NormalizedReview.privateReview n;
     Review.reviewCategories := NormalizedReview.reviewCategories n;
     Review.submittedAt := NormalizedReview.submittedAt n;
     Review.guestName := NormalizedReview.guestName n;
     Review.listingId := NormalizedReview.listingId n;
     Review.listingName := NormalizedReview.listingName n;
     Review.channel := NormalizedReview.channel n;
     Review.isApprovedForPublic := false;
     Review.approvedBy := None;
     Review.approvedAt := None;
     Review.managerNotes := None;
     Review.averageCategoryRating :=
       Some (NormalizedReview.averageCategoryRating n);
     Review.createdAt := now;
     Review.updatedAt := now |}.

(** Replace the first document that satisfies [p] by its image under [f];
    the result holds the document before and after. *)
Fixpoint update_first (p : Review.t -> bool) (f : Review.t -> Review.t)
    (l : list Review.t) : option (Review.t * Review.t) * list Review.t :=
  match l with
  | [] => (None, [])
  | r :: rest =>
      if p r then (Some (r, f r), f r :: rest)
      else let (res, rest') := update_first p f rest in (res, r :: rest')
  end.

Record BulkWriteResult := { upsertedCount : nat; modifiedCount : nat }.

(** One [updateOne] operation with [upsert: true]. *)
Definition upsert_one (now : Z) (acc : BulkWriteResult * Store)
    (n : NormalizedReview.t) : BulkWriteResult * Store :=
  let (res, s) := acc in
  match update_first
          (fun r => bool_decide (Review.hostawayId r = NormalizedReview.hostawayId n))
          (apply_update now (PartialReview.of_normalized n)) (docs s) with
  | (Some (before, after), docs') =>
      ({| upsertedCount := upsertedCount res;
          modifiedCount :=
            if same_document before after then modifiedCount res
            else S (modifiedCount res) |},
       {| docs := docs'; issued := issued s |})
  | (None, _) =>
      ({| upsertedCount := S (upsertedCount res);
          modifiedCount := modifiedCount res |},
       {| docs := docs s ++ [upserted_document (ObjectId (issued s)) now n];
          issued := S (issued s) |})
  end.

Record UpsertCounts := { inserted : nat; updated : nat }.

Definition bulkUpsert (reviews : list NormalizedReview.t) (now : Z) (s : Store)
  : UpsertCounts * Store :=
  let (result, s') :=
    fold_left (upsert_one now) reviews
              ({| upsertedCount := 0; modifiedCount := 0 |}, s) in
  ({| inserted := upsertedCount result; updated := modifiedCount result |}, s').

(** [findByIdAndUpdate(id, updateData, { new: true })] *)
Definition update (id : string) (updateData : PartialReview.t) (now : Z)
    (s : Store) : Result (option Review.t) * Store :=
  match ObjectId.cast id with
  | Some key =>
      let (res, docs') :=
        update_first (fun r => bool_decide (Review._id r = key))
                     (apply_update now updateData) (docs s) in
      (Ok (option_map snd res), {| docs := docs'; issued := issued s |})
  | None => (Throw CastError, s)
  end.

(** The [$set] document of [bulkApprove]. *)
Definition bulkApprove_set (approvedBy : string) (now : Z) : PartialReview.t :=
  PartialReview.set_approvedAt (Some now)
    (PartialReview.set_approvedBy (Some approvedBy)
       (PartialReview.set_isApprovedForPublic true PartialReview.empty)).

(** [updateMany({ _id: { $in: reviewIds } }, { $set: ... })]: every string
    of the list is cast to a key, and one that is no key makes the call
    throw before anything is written; the result counts the matched
    documents that the update changed. *)
Definition bulkApprove (reviewIds : list string) (approvedBy : string)
    (now : Z) (s : Store) : Result nat * Store :=
  match mapM ObjectId.cast reviewIds with
  | Some keys =>
      let matched r := bool_decide (Review._id r ∈ keys) in
      let set := apply_update now (bulkApprove_set approvedBy now) in
      (Ok (length (filter (fun r => matched r = true
                                    /\ same_document r (set r) = false)
                          (docs s))),
       {| docs := map (fun r => if matched r then set r else r) (docs s);
          issued := issued s |})
  | None => (Throw CastError, s)
  end.

(** [findByIdAndDelete] *)
Fixpoint remove_first (p : Review.t -> bool) (l : list Review.t)
  : option Review.t * list Review.t :=
  match l with
  | [] => (None, [])
  | r :: rest =>
      if p r then (Some r, rest)
      else let (res, rest') := remove_first p rest in (res, r :: rest')
  end.

Definition delete (id : string) (s : Store)
  : Result (option Review.t) * Store :=
  match ObjectId.cast id with
  | Some key =>
      let (res, docs') :=
        remove_first (fun r => bool_decide (Review._id r = key)) (docs s) in
      (Ok res, {| docs := docs'; issued := issued s |})
  | None => (Throw CastError, s)
  end.

Section Queries.
Context {RT : Runtime}.

Definition buildFilterQuery (filters : FilterReviewDto.t) : FilterQuery :=
  {| q_listingId :=
       if Js.truthy (FilterReviewDto.listingId filters)
       then FilterReviewDto.listingId filters else None;
     q_channel :=
       if Js.truthy (FilterReviewDto.channel filters)
       then FilterReviewDto.channel filters else None;
     q_status :=
       if Js.truthy (FilterReviewDto.status filters)
       then FilterReviewDto.status filters else None;
     q_averageCategoryRating_gte := FilterReviewDto.minRating filters;
     q_isApprovedForPublic := FilterReviewDto.isApprovedForPublic filters;
     q_submittedAt_gte :=
       if Js.truthy (FilterReviewDto.startDate filters)
       then option_map Date_parse (FilterReviewDto.startDate filters) else None;
     q_submittedAt_lte :=
       if Js.truthy (FilterReviewDto.endDate filters)
       then option_map Date_parse (FilterReviewDto.endDate filters) else None;
     q_guestName_regex :=
       if Js.truthy (FilterReviewDto.guestName filters)
       then FilterReviewDto.guestName filters else None |}.

(** A condition that is absent holds of every document. *)
Definition holds {A} (c : option A) (test : A -> bool) : bool :=
  match c with
  | Some a => test a
  | None => true
  end.

Definition matches (q : FilterQuery) (r : Review.t) : bool :=
  holds (q_listingId q) (fun v => bool_decide (Review.listingId r = v))
  && holds (q_channel q) (fun v => bool_decide (Review.channel r = v))
  && holds (q_status q) (fun v => bool_decide (Review.status r = v))
  && holds (q_averageCategoryRating_gte q)
           (fun v => Mongo.gte (Review.averageCategoryRating r) v)
  && holds (q_isApprovedForPublic q)
           (fun v => bool_decide (Review.isApprovedForPublic r = v))
  && holds (q_submittedAt_gte q) (fun v => (v <=? Review.submittedAt r)%Z)
  && holds (q_submittedAt_lte q) (fun v => (Review.submittedAt r <=? v)%Z)
  && holds (q_guestName_regex q) (fun v => regex_test_i v (Review.guestName r)).

Definition find_query (q : FilterQuery) (s : Store) : list Review.t :=
  filter (fun r => matches q r = true) (docs s).

Definition count (q : FilterQuery) (s : Store) : Z :=
  Z.of_nat (length (find_query q s)).

(** The value a document is ordered by under [sortBy]; of the fields a
    request may name, the three the interface documents are modelled. *)
Definition sort_value (sortBy : string) (r : Review.t) : option Q :=
  if bool_decide (sortBy = "submittedAt")
  then Some (inject_Z (Review.submittedAt r))
  else if bool_decide (sortBy = "rating") then Review.rating r
  else if bool_decide (sortBy = "averageCategoryRating")
  then Review.averageCategoryRating r
  else None.

(** [Math.ceil(a / b)] on integers. *)
Definition ceil_div (a b : Z) : Z := Qceiling (inject_Z a / inject_Z b).

Definition findWithFilters (filters : FilterReviewDto.t) (s : Store) : Page :=
  let page := default 1%Z (FilterReviewDto.page filters) in
  let limit := default 20%Z (FilterReviewDto.limit filters) in
  let sortBy := default "submittedAt" (FilterReviewDto.sortBy filters) in
  let sortOrder := default "desc" (FilterReviewDto.sortOrder filters) in
  let query := buildFilterQuery filters in
  let skip := ((page - 1) * limit)%Z in
  let ascending := bool_decide (sortOrder = "asc") in
  let le a b :=
    if ascending then Mongo.leb (sort_value sortBy a) (sort_value sortBy b)
    else Mongo.leb (sort_value sortBy b) (sort_value sortBy a) in
  let data :=
    Mongo.limit limit (Mongo.skip skip (Mongo.sort_by le (find_query query s))) in
  let total := count query s in
  {| data := data;
     pagination :=
       {| page := page;
          limit := limit;
          total := total;
          totalPages := ceil_div total limit;
          hasNextPage := (page <? ceil_div total limit)%Z;
          hasPrevPage := (1 <? page)%Z |} |}.

Definition findApprovedReviews (listingId : option string) (limit : Z)
    (s : Store) : list Review.t :=
  let query r :=
    Review.isApprovedForPublic r
    && bool_decide (Review.status r = "published")
    && (if Js.truthy listingId
        then bool_decide (Some (Review.listingId r) = listingId) else true) in
  map Review.without_manager_fields
      (Mongo.limit limit
         (Mongo.sort_by (fun a b => (Review.submittedAt b <=? Review.submittedAt a)%Z)
            (filter (fun r => query r = true) (docs s)))).

End Queries.

(** *** Aggregations *)

Module OverviewGroup.
Record t := mk {
  totalReviews : nat;
  averageRating : option Q;
  approvedCount : nat;
  pendingCount : nat
}.
End OverviewGroup.

Module ChannelGroup.
Record t := mk { _id : string; count : nat; avgRating : option Q }.
End ChannelGroup.

Module PropertyGroup.
Record t := mk {
  listingId : string;
  listingName : string;
  count : nat;
  avgRating : option Q;
  approvedCount : nat
}.
End PropertyGroup.

Module Bucket.
(** [_id] is the lower boundary, or [None] for the default bucket
    ['Other']. *)
Record t := mk { _id : option Z; count : nat }.
End Bucket.

Module TrendGroup.
Record t := mk { _id : string; count : nat; avgRating : option Q }.
End TrendGroup.

Record Facets := {
  overview : list OverviewGroup.t;
  byChannel : list ChannelGroup.t;
  byProperty : list PropertyGroup.t;
  ratingDistribution : list Bucket.t
}.

(** [$bucket] with boundaries [0, 2, 4, 6, 8, 10]: a value in [[0, 10)]
    falls in the bucket of the boundary below it, any other in the default
    bucket. *)
Definition bucket_of (x : option Q) : option Z :=
  match x with
  | Some q =>
      if Qle_bool 0 q && negb (Qle_bool 10 q)
      then Some (2 * (Qfloor q / 2))%Z
      else None
  | None => None
  end.

Definition bucket_leb (a b : Bucket.t) : bool :=
  match Bucket._id a, Bucket._id b with
  | Some x, Some y => (x <=? y)%Z
  | Some _, None => true
  | None, Some _ => false
  | None, None => true
  end.

Definition getStatistics (s : Store) : Facets :=
  {| overview :=
       map (fun g : unit * list Review.t =>
              {| OverviewGroup.totalReviews := Mongo.count (snd g);
                 OverviewGroup.averageRating :=
                   Mongo.avg Review.averageCategoryRating (snd g);
                 OverviewGroup.approvedCount :=
                   Mongo.count_if Review.isApprovedForPublic (snd g);
                 OverviewGroup.pendingCount :=
                   Mongo.count_if (fun r => negb (Review.isApprovedForPublic r))
                                  (snd g) |})
           (Mongo.group_by (fun _ => tt) (docs s));
     byChannel :=
       map (fun g : string * list Review.t =>
              {| ChannelGroup._id := fst g;
                 ChannelGroup.count := Mongo.count (snd g);
                 ChannelGroup.avgRating :=
                   Mongo.avg Review.averageCategoryRating (snd g) |})
           (Mongo.group_by Review.channel (docs s));
     byProperty :=
       Mongo.limit 10
         (Mongo.sort_by
            (fun a b => (PropertyGroup.count b <=? PropertyGroup.count a)%nat)
            (map (fun g : (string * string) * list Review.t =>
                    {| PropertyGroup.listingId := fst (fst g);
                       PropertyGroup.listingName := snd (fst g);
                       PropertyGroup.count := Mongo.count (snd g);
                       PropertyGroup.avgRating :=
                         Mongo.avg Review.averageCategoryRating (snd g);
                       PropertyGroup.approvedCount :=
                         Mongo.count_if Review.isApprovedForPublic (snd g) |})
                 (Mongo.group_by
                    (fun r => (Review.listingId r, Review.listingName r))
                    (docs s))));
     ratingDistribution :=
       Mongo.sort_by bucket_leb
         (map (fun g : option Z * list Review.t =>
                 {| Bucket._id := fst g; Bucket.count := Mongo.count (snd g) |})
              (Mongo.group_by
                 (fun r => bucket_of (Review.averageCategoryRating r))
                 (docs s))) |}.

Section Trend.
Context {RT : Runtime}.

(** [startDate.setDate(startDate.getDate() - days)], a day being
    86 400 000 ms. *)
Definition days_before (now days : Z) : Z := (now - days * 86400000)%Z.

Definition getReviewsTrend (days : Z) (now : Z) (s : Store)
  : list TrendGroup.t :=
  let startDate := days_before now days in
  Mongo.sort_by
    (fun a b => String.leb (TrendGroup._id a) (TrendGroup._id b))
    (map (fun g : string * list Review.t =>
            {| TrendGroup._id := fst g;
               TrendGroup.count := Mongo.count (snd g);
               TrendGroup.avgRating :=
                 Mongo.avg Review.averageCategoryRating (snd g) |})
         (Mongo.group_by (fun r => Date_dayString (Review.submittedAt r))
            (filter (fun r => (startDate <= Review.submittedAt r)%Z) (docs s)))).

End Trend.

End ReviewsRepository.

(** ** ReviewsService ([reviews.service.ts]) *)

Module ReviewsService.

Import Model.

Module ChannelStat.
Record t := mk { channel : string; count : nat; avgRating : Q }.
End ChannelStat.

Module TopProperty.
Record t := mk {
  listingId : string;
  listingName : string;
  reviewCount : nat;
  avgRating : Q;
  approvedCount : nat;
  approvalRate : Q
}.
End TopProperty.

Module TrendPoint.
Record t := mk { date : string; count : nat; avgRating : Q }.
End TrendPoint.

Record Statistics := {
  overview : ReviewsRepository.OverviewGroup.t;
  byChannel : list ChannelStat.t;
  topProperties : list TopProperty.t;
  ratingDistribution : list ReviewsRepository.Bucket.t
}.

(** What the service puts in the cache. *)
Inductive Cached :=
| CachedReviews (reviews : list Review.t)
| CachedStatistics (statistics : Statistics)
| CachedTrend (trend : list TrendPoint.t).

(** An entry the cache holds, with the time to live it was stored with. *)
Record Entry := { value : Cached; ttl : Z }.

(** The service's collaborators: the repository's store and the cache
    manager's map. *)
Record State := {
  db : Store;
  cache : gmap string Entry
}.

(** An asynchronous method: it reads and writes the collaborators and
    either returns or throws. *)
Definition SM (A : Type) : Type := State -> Result A * State.

Definition sret {A} (a : A) : SM A := fun st => (Ok a, st).

Definition throw {A} (e : Error) : SM A := fun st => (Throw e, st).

Definition sbind {A B} (m : SM A) (k : A -> SM B) : SM B :=
  fun st =>
    match m st with
    | (inl e, st') => (inl e, st')
    | (inr a, st') => k a st'
    end.

Notation "x <- m ;; k" := (sbind m (fun x => k))
  (at level 100, m at next level, right associativity).
Notation "m ;;; k" := (sbind m (fun _ => k))
  (at level 100, right associativity).

(** A repository call that reads the store. *)
Definition query {A} (f : Store -> A) : SM A :=
  fun st => (Ok (f (db st)), st).

(** A repository call that reads the store and can throw. *)
Definition query_result {A} (f : Store -> Result A) : SM A :=
  fun st => (f (db st), st).

(** A repository call that writes the store. *)
Definition command {A} (f : Store -> A * Store) : SM A :=
  fun st =>
    let (a, db') := f (db st) in (Ok a, {| db := db'; cache := cache st |}).

(** A repository call that writes the store and can throw. *)
Definition command_result {A} (f : Store -> Result A * Store) : SM A :=
  fun st =>
    let (a, db') := f (db st) in (a, {| db := db'; cache := cache st |}).

(** [cacheManager.get], [cacheManager.set], [cacheManager.del]: each acts
    on the one key it is given.  [set] records the time to live it is
    given with the entry; the cache store drops the entry when that time
    has run out, a step of the store that no method here takes, so [get]
    returns what the map holds at the call. *)
Definition cache_get (key : string) : SM (option Cached) :=
  fun st => (Ok (value <$> cache st !! key), st).

Definition cache_set (key : string) (v : Cached) (ttl : Z) : SM unit :=
  fun st =>
    (Ok tt,
     {| db := db st; cache := <[key := {| value := v; ttl := ttl |}]> (cache st) |}).

Definition cache_del (key : string) : SM unit :=
  fun st => (Ok tt, {| db := db st; cache := base.delete key (cache st) |}).

Fixpoint for_each {A} (f : A -> SM unit) (xs : list A) : SM unit :=
  match xs with
  | [] => sret tt
  | x :: r => f x ;;; for_each f r
  end.

Definition STATISTICS : string := "reviews:statistics".
Definition APPROVED_REVIEWS : string := "reviews:approved".
Definition TREND : string := "reviews:trend".

(** [Object.values(this.CACHE_KEYS)] *)
Definition CACHE_KEYS : list string := [STATISTICS; APPROVED_REVIEWS; TREND].

Definition invalidateCache : SM unit :=
  for_each cache_del CACHE_KEYS ;;;
  cache_del (APPROVED_REVIEWS ++ ":*") ;;;
  cache_del (TREND ++ ":*").

Record SyncResult := {
  sync_message : string;
  sync_inserted : nat;
  sync_updated : nat;
  sync_total : nat
}.

Definition syncReviews (normalizedReviews : list NormalizedReview.t) (now : Z)
  : SM SyncResult :=
  if (length normalizedReviews =? 0)%nat
  then throw (BadRequestException "No reviews to sync")
  else
    result <- command (ReviewsRepository.bulkUpsert normalizedReviews now) ;;
    invalidateCache ;;;
    sret {| sync_message := "Reviews synced successfully";
            sync_inserted := ReviewsRepository.inserted result;
            sync_updated := ReviewsRepository.updated result;
            sync_total := length normalizedReviews |}.

Section WithRuntime.
Context {RT : Runtime}.

Definition transformCreateDtoToEntity (dto : CreateReviewDto.t)
  : PartialReview.t :=
  {| PartialReview.hostawayId := Some (CreateReviewDto.hostawayId dto);
     PartialReview.type := Some (CreateReviewDto.type dto);
     PartialReview.status := Some (CreateReviewDto.status dto);
     PartialReview.rating := option_map Some (CreateReviewDto.rating dto);
     PartialReview.publicReview := Some (CreateReviewDto.publicReview dto);
     PartialReview.privateReview :=
       option_map Some (CreateReviewDto.privateReview dto);
     PartialReview.reviewCategories := Some (CreateReviewDto.reviewCategories dto);
     PartialReview.submittedAt :=
       Some (Date_parse (CreateReviewDto.submittedAt dto));
     PartialReview.guestName := Some (CreateReviewDto.guestName dto);
     PartialReview.listingId := Some (CreateReviewDto.listingId dto);
     PartialReview.listingName := Some (CreateReviewDto.listingName dto);
     PartialReview.channel :=
       Some (Js.opt_or (CreateReviewDto.channel dto) "hostaway");
     PartialReview.isApprovedForPublic := None;
     PartialReview.approvedBy := None;
     PartialReview.approvedAt := None;
     PartialReview.managerNotes := None;
     PartialReview.averageCategoryRating := None |}.

Definition create (createReviewDto : CreateReviewDto.t) (now : Z)
  : SM Review.t :=
  existing <- query (ReviewsRepository.findByHostawayId
                       (CreateReviewDto.hostawayId createReviewDto)) ;;
  match existing with
  | Some _ =>
      throw (BadRequestException
               ("Review with Hostaway ID "
                ++ pretty (CreateReviewDto.hostawayId createReviewDto)
                ++ " already exists"))
  | None =>
      let reviewData := transformCreateDtoToEntity createReviewDto in
      review <- command_result (ReviewsRepository.create reviewData now) ;;
      invalidateCache ;;;
      sret review
  end.

Definition findAll (filters : FilterReviewDto.t) : SM ReviewsRepository.Page :=
  query (ReviewsRepository.findWithFilters filters).

End WithRuntime.

Definition findOne (id : string) : SM Review.t :=
  review <- query_result (ReviewsRepository.findById id) ;;
  match review with
  | None => throw (NotFoundException ("Review with ID " ++ id ++ " not found"))
  | Some review => sret review
  end.

(** [{ ...updateReviewDto }] *)
Definition spread (dto : UpdateReviewDto.t) : PartialReview.t :=
  {| PartialReview.hostawayId := None; PartialReview.type := None;
     PartialReview.status := None; PartialReview.rating := None;
     PartialReview.publicReview := None; PartialReview.privateReview := None;
     PartialReview.reviewCategories := None; PartialReview.submittedAt := None;
     PartialReview.guestName := None; PartialReview.listingId := None;
     PartialReview.listingName := None; PartialReview.channel := None;
     PartialReview.isApprovedForPublic := UpdateReviewDto.isApprovedForPublic dto;
     PartialReview.approvedBy := option_map Some (UpdateReviewDto.approvedBy dto);
     PartialReview.approvedAt := None;
     PartialReview.managerNotes :=
       option_map Some (UpdateReviewDto.managerNotes dto);
     PartialReview.averageCategoryRating := None |}.

(** The object [updateData] that [update] assembles for the review found. *)
Definition update_updateData (updateReviewDto : UpdateReviewDto.t)
    (review : Review.t) (now : Z) : PartialReview.t :=
  let updateData := spread updateReviewDto in
  (* If approving, set approval metadata *)
  let updateData :=
    if bool_decide (UpdateReviewDto.isApprovedForPublic updateReviewDto = Some true)
       && negb (Review.isApprovedForPublic review)
    then
      let updateData := PartialReview.set_approvedAt (Some now) updateData in
      if Js.truthy (UpdateReviewDto.approvedBy updateReviewDto)
      then PartialReview.set_approvedBy
             (UpdateReviewDto.approvedBy updateReviewDto) updateData
      else updateData
    else updateData in
  (* If unapproving, clear approval metadata *)
  if bool_decide (UpdateReviewDto.isApprovedForPublic updateReviewDto = Some false)
  then PartialReview.set_approvedBy None
         (PartialReview.set_approvedAt None updateData)
  else updateData.

Definition update (id : string) (updateReviewDto : UpdateReviewDto.t) (now : Z)
  : SM (option Review.t) :=
  review <- query_result (ReviewsRepository.findById id) ;;
  match review with
  | None => throw (NotFoundException ("Review with ID " ++ id ++ " not found"))
  | Some review =>
      let updateData := update_updateData updateReviewDto review now in
      updated <- command_result (ReviewsRepository.update id updateData now) ;;
      invalidateCache ;;;
      sret updated
  end.

Record ApproveResult := {
  approve_message : string;
  approve_review : option Review.t
}.

(** The object [updateData] of [approveReview]. *)
Definition approveReview_updateData (approvedBy : option string) (now : Z)
  : PartialReview.t :=
  PartialReview.set_approvedAt (Some now)
    (PartialReview.set_approvedBy (Some (Js.opt_or approvedBy "admin"))
       (PartialReview.set_isApprovedForPublic true PartialReview.empty)).

Definition approveReview (id : string) (approvedBy : option string) (now : Z)
  : SM ApproveResult :=
  review <-
    (if Js.is_numeric id then
       let hostawayId := Js.parseInt id in
       (* no stored Hostaway id is [Infinity] *)
       review <-
         query (fun s =>
                  hostawayId ≫= fun h => ReviewsRepository.findByHostawayId h s) ;;
       match review with
       | None =>
           throw (NotFoundException
                    ("Review with Hostaway ID " ++ Js.number_toString hostawayId
                     ++ " not found"))
       | Some review => sret review
       end
     else
       review <- query_result (ReviewsRepository.findById id) ;;
       match review with
       | None =>
           throw (NotFoundException ("Review with ID " ++ id ++ " not found"))
       | Some review => sret review
       end) ;;
  let updateData := approveReview_updateData approvedBy now in
  updated <-
    command_result
      (ReviewsRepository.update (ObjectId.toString (Review._id review))
         updateData now) ;;
  invalidateCache ;;;
  sret {| approve_message := "Review approved successfully";
          approve_review := updated |}.

Record BulkApproveResult := {
  bulk_message : string;
  approvedCount : nat
}.

Definition bulkApprove (bulkApproveDto : BulkApproveDto.t) (now : Z)
  : SM BulkApproveResult :=
  let reviewIds := BulkApproveDto.reviewIds bulkApproveDto in
  let approvedBy := default "admin" (BulkApproveDto.approvedBy bulkApproveDto) in
  if (length reviewIds =? 0)%nat
  then throw (BadRequestException "No review IDs provided")
  else
    count <-
      command_result (ReviewsRepository.bulkApprove reviewIds approvedBy now) ;;
    invalidateCache ;;;
    sret {| bulk_message := pretty count ++ " reviews approved successfully";
            approvedCount := count |}.

Record RemoveResult := {
  remove_message : string;
  deletedReview : Review.t
}.

Definition remove (id : string) : SM RemoveResult :=
  review <- command_result (ReviewsRepository.delete id) ;;
  match review with
  | None => throw (NotFoundException ("Review with ID " ++ id ++ " not found"))
  | Some review =>
      invalidateCache ;;;
      sret {| remove_message := "Review deleted successfully";
              deletedReview := review |}
  end.

Section CachedReads.
Context {RT : Runtime}.

(** The [cacheKey] of [getApprovedReviews]. *)
Definition getApprovedReviews_cacheKey (listingId : option string) (limit : Z)
  : string :=
  (APPROVED_REVIEWS ++ ":" ++ Js.opt_or listingId "all" ++ ":" ++ pretty limit)%string.

Definition getApprovedReviews (listingId : option string) (limit : Z)
  : SM Cached :=
  let cacheKey := getApprovedReviews_cacheKey listingId limit in
  cached <- cache_get cacheKey ;;
  match cached with
  | Some cached => sret cached
  | None =>
      reviews <- query (ReviewsRepository.findApprovedReviews listingId limit) ;;
      cache_set cacheKey (CachedReviews reviews) 600 ;;;
      sret (CachedReviews reviews)
  end.

(** [parseFloat(x?.toFixed(2) || '0')] *)
Definition fixed2_or_zero (x : option Q) : Q :=
  match x with
  | Some q => Js.toFixed 2 q
  | None => 0
  end.

Definition transform_statistics (stats : ReviewsRepository.Facets)
  : Statistics :=
  {| overview :=
       match ReviewsRepository.overview stats with
       | o :: _ => o
       | [] =>
           {| ReviewsRepository.OverviewGroup.totalReviews := 0;
              ReviewsRepository.OverviewGroup.averageRating := Some 0;
              ReviewsRepository.OverviewGroup.approvedCount := 0;
              ReviewsRepository.OverviewGroup.pendingCount := 0 |}
       end;
     byChannel :=
       map (fun item =>
              {| ChannelStat.channel := ReviewsRepository.ChannelGroup._id item;
                 ChannelStat.count := ReviewsRepository.ChannelGroup.count item;
                 ChannelStat.avgRating :=
                   fixed2_or_zero (ReviewsRepository.ChannelGroup.avgRating item) |})
           (ReviewsRepository.byChannel stats);
     topProperties :=
       map (fun item =>
              {| TopProperty.listingId :=
                   ReviewsRepository.PropertyGroup.listingId item;
                 TopProperty.listingName :=
                   ReviewsRepository.PropertyGroup.listingName item;
                 TopProperty.reviewCount :=
                   ReviewsRepository.PropertyGroup.count item;
                 TopProperty.avgRating :=
                   fixed2_or_zero (ReviewsRepository.PropertyGroup.avgRating item);
                 TopProperty.approvedCount :=
                   ReviewsRepository.PropertyGroup.approvedCount item;
                 TopProperty.approvalRate :=
                   Js.toFixed 2
                     (Mongo.of_nat (ReviewsRepository.PropertyGroup.approvedCount item)
                      / Mongo.of_nat (ReviewsRepository.PropertyGroup.count item)
                      * 100) |})
           (ReviewsRepository.byProperty stats);
     ratingDistribution := ReviewsRepository.ratingDistribution stats |}.

Definition getStatistics : SM Cached :=
  cached <- cache_get STATISTICS ;;
  match cached with
  | Some cached => sret cached
  | None =>
      stats <- query ReviewsRepository.getStatistics ;;
      let transformed := transform_statistics stats in
      cache_set STATISTICS (CachedStatistics transformed) 300 ;;;
      sret (CachedStatistics transformed)
  end.

(** The [cacheKey] of [getReviewsTrend]. *)
Definition getReviewsTrend_cacheKey (days : Z) : string :=
  (TREND ++ ":" ++ pretty days)%string.

Definition getReviewsTrend (days : Z) (now : Z) : SM Cached :=
  let cacheKey := getReviewsTrend_cacheKey days in
  cached <- cache_get cacheKey ;;
  match cached with
  | Some cached => sret cached
  | None =>
      trend <- query (ReviewsRepository.getReviewsTrend days now) ;;
      let transformed :=
        map (fun item =>
               {| TrendPoint.date := ReviewsRepository.TrendGroup._id item;
                  TrendPoint.count := ReviewsRepository.TrendGroup.count item;
                  TrendPoint.avgRating :=
                    fixed2_or_zero (ReviewsRepository.TrendGroup.avgRating item) |})
            trend in
      cache_set cacheKey (CachedTrend transformed) 600 ;;;
      sret (CachedTrend transformed)
  end.

End CachedReads.

End ReviewsService.

(** ** ReviewsController ([reviews.controller.ts])

    The handler of [PATCH /reviews/:id/approve]. *)

Module ReviewsController.

Definition approve (id : string) (approvedBy : option string) (now : Z)
  : ReviewsService.SM (option Review.t) :=
  ReviewsService.update id
    {| UpdateReviewDto.isApprovedForPublic := Some true;
       UpdateReviewDto.managerNotes := None;
       UpdateReviewDto.approvedBy := Some (Js.opt_or approvedBy "admin") |}
    now.

End ReviewsController.

(** ** AnalyticsService ([analytics.service.ts])

    The aggregation pipelines the report methods run on a cache miss. *)

Module AnalyticsFilterDto.
Record t := mk {
  startDate : option string;
  endDate : option string;
  listingId : option string;
  channel : option string;
  days : option Z
}.
End AnalyticsFilterDto.

Module AnalyticsService.

Import Model.

(** The document the [$group] stage of the property pipeline emits. *)
Module PropertyGroup.
Record t := mk {
  _id : string * string;
  totalReviews : nat;
  approvedReviews : nat;
  pendingReviews : nat;
  avgRating : option Q;
  minRating : option Q;
  maxRating : option Q;
  latestReviewDate : option Z;
  reviewCategories : list (list ReviewCategory.t)
}.
End PropertyGroup.

(** The document the [$project] stage of the property pipeline emits. *)
Module Property.
Record t := mk {
  _id : string * string;
  listingId : string;
  listingName : string;
  totalReviews : nat;
  approvedReviews : nat;
  pendingReviews : nat;
  avgRating : option Q;
  minRating : option Q;
  maxRating : option Q;
  approvalRate : Q;
  latestReviewDate : option Z;
  performance : string
}.
End Property.

Module ChannelGroup.
Record t := mk {
  _id : string;
  count : nat;
  avgRating : option Q;
  approvedCount : nat
}.
End ChannelGroup.

Module Channel.
Record t := mk {
  _id : string;
  channel : string;
  count : nat;
  avgRating : option Q;
  approvedCount : nat;
  approvalRate : Q
}.
End Channel.

Module OverviewGroup.
Record t := mk {
  totalReviews : nat;
  avgRating : option Q;
  approvedCount : nat;
  pendingCount : nat;
  uniqueProperties : list string
}.
End OverviewGroup.

Module Overview.
Record t := mk {
  totalReviews : nat;
  avgRating : option Q;
  approvedCount : nat;
  pendingCount : nat;
  uniquePropertiesCount : nat;
  approvalRate : Q
}.
End Overview.

Record PropertyBreakdown := {
  properties : list Property.t;
  totalProperties : nat;
  generatedAt : Z
}.

(** [{ $round: [{ $multiply: [{ $divide: [part, whole] }, 100] }, 2] }] *)
Definition percentage (part whole : nat) : Result Q :=
  rbind (Mongo.divide (Mongo.of_nat part) (Mongo.of_nat whole))
        (fun ratio => Ok (Mongo.round2_number (ratio * 100))).

(** [{ $max: '$submittedAt' }] *)
Definition latest (xs : list Review.t) : option Z :=
  match xs with
  | [] => None
  | r :: rest =>
      Some (fold_left (fun m x => Z.max m (Review.submittedAt x)) rest
                      (Review.submittedAt r))
  end.

Definition property_group (g : (string * string) * list Review.t)
  : PropertyGroup.t :=
  {| PropertyGroup._id := fst g;
     PropertyGroup.totalReviews := Mongo.count (snd g);
     PropertyGroup.approvedReviews :=
       Mongo.count_if Review.isApprovedForPublic (snd g);
     PropertyGroup.pendingReviews :=
       Mongo.count_if (fun r => negb (Review.isApprovedForPublic r)) (snd g);
     PropertyGroup.avgRating := Mongo.avg Review.averageCategoryRating (snd g);
     PropertyGroup.minRating := Mongo.min Review.averageCategoryRating (snd g);
     PropertyGroup.maxRating := Mongo.max Review.averageCategoryRating (snd g);
     PropertyGroup.latestReviewDate := latest (snd g);
     PropertyGroup.reviewCategories := map Review.reviewCategories (snd g) |}.

(** The nested [$cond] of the [$project] stage; ['$avgRating'] there is the
    field of the stage's input document, the group. *)
Definition performance_of (avgRating : option Q) : string :=
  if Mongo.gte avgRating (17 # 2) then "excellent"
  else if Mongo.gte avgRating 7 then "good"
  else if Mongo.gte avgRating 5 then "fair"
  else "needs_improvement".

Definition property_project (g : PropertyGroup.t) : Result Property.t :=
  rbind (percentage (PropertyGroup.approvedReviews g) (PropertyGroup.totalReviews g))
        (fun approvalRate =>
  Ok {| Property._id := PropertyGroup._id g;
        Property.listingId := fst (PropertyGroup._id g);
        Property.listingName := snd (PropertyGroup._id g);
        Property.totalReviews := PropertyGroup.totalReviews g;
        Property.approvedReviews := PropertyGroup.approvedReviews g;
        Property.pendingReviews := PropertyGroup.pendingReviews g;
        Property.avgRating := Mongo.round2 (PropertyGroup.avgRating g);
        Property.minRating := Mongo.round2 (PropertyGroup.minRating g);
        Property.maxRating := Mongo.round2 (PropertyGroup.maxRating g);
        Property.approvalRate := approvalRate;
        Property.latestReviewDate := PropertyGroup.latestReviewDate g;
        Property.performance := performance_of (PropertyGroup.avgRating g) |}).

(** [{ $sort: { avgRating: -1, totalReviews: -1 } }] *)
Definition property_before (a b : Property.t) : bool :=
  Mongo.leb (Property.avgRating b) (Property.avgRating a)
  && (negb (Mongo.leb (Property.avgRating a) (Property.avgRating b))
      || (Property.totalReviews b <=? Property.totalReviews a)%nat).

Section Pipelines.
Context {RT : Runtime}.

Definition buildDateFilter (filters : AnalyticsFilterDto.t)
  : ReviewsRepository.FilterQuery :=
  {| ReviewsRepository.q_listingId := None;
     ReviewsRepository.q_channel := None;
     ReviewsRepository.q_status := None;
     ReviewsRepository.q_averageCategoryRating_gte := None;
     ReviewsRepository.q_isApprovedForPublic := None;
     ReviewsRepository.q_submittedAt_gte :=
       if Js.truthy (AnalyticsFilterDto.startDate filters)
       then option_map Date_parse (AnalyticsFilterDto.startDate filters)
       else None;
     ReviewsRepository.q_submittedAt_lte :=
       if Js.truthy (AnalyticsFilterDto.endDate filters)
       then option_map Date_parse (AnalyticsFilterDto.endDate filters)
       else None;
     ReviewsRepository.q_guestName_regex := None |}.

(** The groups of the property pipeline, after [$match] and [$group]. *)
Definition property_groups (filters : AnalyticsFilterDto.t) (s : Store)
  : list PropertyGroup.t :=
  let dateFilter := buildDateFilter filters in
  let matchStage :=
    {| ReviewsRepository.q_listingId :=
         if Js.truthy (AnalyticsFilterDto.listingId filters)
         then AnalyticsFilterDto.listingId filters else None;
       ReviewsRepository.q_channel :=
         if Js.truthy (AnalyticsFilterDto.channel filters)
         then AnalyticsFilterDto.channel filters else None;
       ReviewsRepository.q_status := None;
       ReviewsRepository.q_averageCategoryRating_gte := None;
       ReviewsRepository.q_isApprovedForPublic := None;
       ReviewsRepository.q_submittedAt_gte :=
         ReviewsRepository.q_submittedAt_gte dateFilter;
       ReviewsRepository.q_submittedAt_lte :=
         ReviewsRepository.q_submittedAt_lte dateFilter;
       ReviewsRepository.q_guestName_regex := None |} in
  map property_group
      (Mongo.group_by (fun r => (Review.listingId r, Review.listingName r))
                      (ReviewsRepository.find_query matchStage s)).

Definition getPropertyBreakdown (filters : AnalyticsFilterDto.t) (now : Z)
    (s : Store) : Result PropertyBreakdown :=
  rbind (rmap property_project (property_groups filters s)) (fun projected =>
  let properties := Mongo.sort_by property_before projected in
  Ok {| properties := properties;
        totalProperties := length properties;
        generatedAt := now |}).

End Pipelines.

Section Helpers.
Context {RT : Runtime}.

Definition channel_group (g : string * list Review.t) : ChannelGroup.t :=
  {| ChannelGroup._id := fst g;
     ChannelGroup.count := Mongo.count (snd g);
     ChannelGroup.avgRating := Mongo.avg Review.averageCategoryRating (snd g);
     ChannelGroup.approvedCount :=
       Mongo.count_if Review.isApprovedForPublic (snd g) |}.

Definition channel_project (g : ChannelGroup.t) : Result Channel.t :=
  rbind (percentage (ChannelGroup.approvedCount g) (ChannelGroup.count g))
        (fun approvalRate =>
  Ok {| Channel._id := ChannelGroup._id g;
        Channel.channel := ChannelGroup._id g;
        Channel.count := ChannelGroup.count g;
        Channel.avgRating := Mongo.round2 (ChannelGroup.avgRating g);
        Channel.approvedCount := ChannelGroup.approvedCount g;
        Channel.approvalRate := approvalRate |}).

Definition channel_groups (dateFilter : ReviewsRepository.FilterQuery)
    (s : Store) : list ChannelGroup.t :=
  map channel_group
      (Mongo.group_by Review.channel (ReviewsRepository.find_query dateFilter s)).

Definition getChannelBreakdown (dateFilter : ReviewsRepository.FilterQuery)
    (s : Store) : Result (list Channel.t) :=
  rbind (rmap channel_project (channel_groups dateFilter s)) (fun projected =>
  Ok (Mongo.sort_by (fun a b => (Channel.count b <=? Channel.count a)%nat)
                    projected)).

Definition overview_group (g : unit * list Review.t) : OverviewGroup.t :=
  {| OverviewGroup.totalReviews := Mongo.count (snd g);
     OverviewGroup.avgRating := Mongo.avg Review.averageCategoryRating (snd g);
     OverviewGroup.approvedCount :=
       Mongo.count_if Review.isApprovedForPublic (snd g);
     OverviewGroup.pendingCount :=
       Mongo.count_if (fun r => negb (Review.isApprovedForPublic r)) (snd g);
     OverviewGroup.uniqueProperties :=
       remove_dups (map Review.listingId (snd g)) |}.

Definition overview_project (g : OverviewGroup.t) : Result Overview.t :=
  rbind (percentage (OverviewGroup.approvedCount g) (OverviewGroup.totalReviews g))
        (fun approvalRate =>
  Ok {| Overview.totalReviews := OverviewGroup.totalReviews g;
        Overview.avgRating := Mongo.round2 (OverviewGroup.avgRating g);
        Overview.approvedCount := OverviewGroup.approvedCount g;
        Overview.pendingCount := OverviewGroup.pendingCount g;
        Overview.uniquePropertiesCount :=
          length (OverviewGroup.uniqueProperties g);
        Overview.approvalRate := approvalRate |}).

Definition overview_groups (dateFilter : ReviewsRepository.FilterQuery)
    (s : Store) : list OverviewGroup.t :=
  map overview_group
      (Mongo.group_by (fun _ => tt) (ReviewsRepository.find_query dateFilter s)).

Definition overview_fallback : Overview.t :=
  {| Overview.totalReviews := 0;
     Overview.avgRating := Some 0;
     Overview.approvedCount := 0;
     Overview.pendingCount := 0;
     Overview.uniquePropertiesCount := 0;
     Overview.approvalRate := 0 |}.

Definition getOverviewStats (dateFilter : ReviewsRepository.FilterQuery)
    (s : Store) : Result Overview.t :=
  rbind (rmap overview_project (overview_groups dateFilter s)) (fun result =>
  Ok (match result with
      | first :: _ => first
      | [] => overview_fallback
      end)).

End Helpers.

(** *** The summary and the insights *)

(** The documents of the [find] queries, restricted by [.select(...)] to
    the key and the fields named. *)
Module Activity.
Record t := mk {
  _id : ObjectId.t;
  listingName : string;
  guestName : string;
  averageCategoryRating : option Q;
  submittedAt : Z;
  isApprovedForPublic : bool
}.
End Activity.

Module Pending.
Record t := mk {
  _id : ObjectId.t;
  listingName : string;
  guestName : string;
  averageCategoryRating : option Q;
  submittedAt : Z
}.
End Pending.

(** [reviewCategories] is selected for the low-rated reviews only. *)
Module Rated.
Record t := mk {
  _id : ObjectId.t;
  listingName : string;
  guestName : string;
  publicReview : string;
  averageCategoryRating : option Q;
  submittedAt : Z;
  reviewCategories : option (list ReviewCategory.t)
}.
End Rated.

Module ApprovalStats.
Record t := mk {
  pendingCount : nat;
  avgPendingRating : Q;
  pendingReviews : list Pending.t
}.
End ApprovalStats.

Module Summary.
Record t := mk {
  overview : Overview.t;
  recentActivity : list Activity.t;
  approvalStats : ApprovalStats.t;
  channelBreakdown : list Channel.t;
  generatedAt : Z
}.
End Summary.

Module CategoryInsight.
Record t := mk {
  _id : string;
  category : string;
  avgRating : option Q;
  count : nat
}.
End CategoryInsight.

Module PropertyInsight.
Record t := mk {
  _id : string;
  listingId : string;
  listingName : string;
  avgRating : option Q;
  count : nat
}.
End PropertyInsight.

Module Alert.
Record t := mk {
  type : string;
  title : string;
  message : string;
  priority : string
}.
End Alert.

Module Strength.
Record t := mk {
  title : string;
  message : string;
  impact : string
}.
End Strength.

(** A recommendation names a category or a property. *)
Module Recommendation.
Inductive t :=
| for_category (category : string) (currentRating : option Q)
    (recommendation expectedImpact : string)
| for_property (property : string) (currentRating : option Q)
    (recommendation expectedImpact : string).
End Recommendation.

Module Insights.
Record t := mk {
  alerts : list Alert.t;
  strengths : list Strength.t;
  recommendations : list Recommendation.t;
  lowRatedReviews : list Rated.t;
  highRatedReviews : list Rated.t
}.
End Insights.

(** [{ field: { $lt: bound } }]: a document without a number there does
    not match. *)
Definition field_lt (a : option Q) (bound : Q) : bool :=
  match a with
  | Some x => negb (Qle_bool bound x)
  | None => false
  end.

(** [a < bound] and [a >= bound] in JavaScript, [null] counting as 0. *)
Definition js_lt (a : option Q) (bound : Q) : bool :=
  negb (Qle_bool bound (default 0 a)).

Definition js_ge (a : option Q) (bound : Q) : bool :=
  Qle_bool bound (default 0 a).

(** [xs.join(', ')] *)
Definition join (sep : string) (xs : list string) : string :=
  String.concat sep xs.


(** [.sort({ averageCategoryRating: 1, submittedAt: -1 })] *)
Definition lowest_first (a b : Review.t) : bool :=
  Mongo.leb (Review.averageCategoryRating a) (Review.averageCategoryRating b)
  && (negb (Mongo.leb (Review.averageCategoryRating b)
                      (Review.averageCategoryRating a))
      || (Review.submittedAt b <=? Review.submittedAt a)%Z).

(** [.sort({ averageCategoryRating: -1, submittedAt: -1 })] *)
Definition highest_first (a b : Review.t) : bool :=
  Mongo.leb (Review.averageCategoryRating b) (Review.averageCategoryRating a)
  && (negb (Mongo.leb (Review.averageCategoryRating a)
                      (Review.averageCategoryRating b))
      || (Review.submittedAt b <=? Review.submittedAt a)%Z).

Section Insight.
Context {RT : Runtime}.






(** [{ averageCategoryRating: { $lt: 7 }, ...dateFilter }] *)
Definition getLowRatedReviews (dateFilter : ReviewsRepository.FilterQuery)
    (s : Store) : list Rated.t :=
  let query r :=
    match ReviewsRepository.q_averageCategoryRating_gte dateFilter with
    | Some _ => true
    | None => field_lt (Review.averageCategoryRating r) 7
    end
    && ReviewsRepository.matches dateFilter r in
  map (fun r =>
         {| Rated._id := Review._id r;
            Rated.listingName := Review.listingName r;
            Rated.guestName := Review.guestName r;
            Rated.publicReview := Review.publicReview r;
            Rated.averageCategoryRating := Review.averageCategoryRating r;
            Rated.submittedAt := Review.submittedAt r;
            Rated.reviewCategories := Some (Review.reviewCategories r) |})
      (Mongo.limit 10
         (Mongo.sort_by lowest_first
            (filter (fun r => query r = true) (docs s)))).

(** [{ averageCategoryRating: { $gte: 9 }, ...dateFilter }] *)
Definition high_query (dateFilter : ReviewsRepository.FilterQuery)
  : ReviewsRepository.FilterQuery :=
  {| ReviewsRepository.q_listingId := ReviewsRepository.q_listingId dateFilter;
     ReviewsRepository.q_channel := ReviewsRepository.q_channel dateFilter;
     ReviewsRepository.q_status := ReviewsRepository.q_status dateFilter;
     ReviewsRepository.q_averageCategoryRating_gte :=
       match ReviewsRepository.q_averageCategoryRating_gte dateFilter with
       | Some bound => Some bound
       | None => Some 9
       end;
     ReviewsRepository.q_isApprovedForPublic :=
       ReviewsRepository.q_isApprovedForPublic dateFilter;
     ReviewsRepository.q_submittedAt_gte :=
       ReviewsRepository.q_submittedAt_gte dateFilter;
     ReviewsRepository.q_submittedAt_lte :=
       ReviewsRepository.q_submittedAt_lte dateFilter;
     ReviewsRepository.q_guestName_regex :=
       ReviewsRepository.q_guestName_regex dateFilter |}.

Definition getHighRatedReviews (dateFilter : ReviewsRepository.FilterQuery)
    (s : Store) : list Rated.t :=
  map (fun r =>
         {| Rated._id := Review._id r;
            Rated.listingName := Review.listingName r;
            Rated.guestName := Review.guestName r;
            Rated.publicReview := Review.publicReview r;
            Rated.averageCategoryRating := Review.averageCategoryRating r;
            Rated.submittedAt := Review.submittedAt r;
            Rated.reviewCategories := None |})
      (Mongo.limit 10
         (Mongo.sort_by highest_first
            (ReviewsRepository.find_query (high_query dateFilter) s))).

(** [$match], [$unwind: '$reviewCategories'], [$group] by category,
    [$project], [$sort: { avgRating: 1 }] *)
Definition getCategoryInsights (dateFilter : ReviewsRepository.FilterQuery)
    (s : Store) : list CategoryInsight.t :=
  let unwound :=
    flat_map Review.reviewCategories (ReviewsRepository.find_query dateFilter s) in
  Mongo.sort_by
    (fun a b => Mongo.leb (CategoryInsight.avgRating a) (CategoryInsight.avgRating b))
    (map (fun g : string * list ReviewCategory.t =>
            {| CategoryInsight._id := fst g;
               CategoryInsight.category := fst g;
               CategoryInsight.avgRating :=
                 Mongo.round2
                   (Mongo.avg (fun c => Some (ReviewCategory.rating c)) (snd g));
               CategoryInsight.count := Mongo.count (snd g) |})
         (Mongo.group_by ReviewCategory.category unwound)).

(** [{ $first: '$listingName' }] *)
Definition first_listingName (xs : list Review.t) : string :=
  match xs with
  | r :: _ => Review.listingName r
  | [] => ""
  end.

(** [$match], [$group] by listing, [$project], [$sort: { avgRating: 1 }],
    [$limit: 5] *)
Definition getPropertyInsights (dateFilter : ReviewsRepository.FilterQuery)
    (s : Store) : list PropertyInsight.t :=
  Mongo.limit 5
    (Mongo.sort_by
       (fun a b => Mongo.leb (PropertyInsight.avgRating a)
                             (PropertyInsight.avgRating b))
       (map (fun g : string * list Review.t =>
               {| PropertyInsight._id := fst g;
                  PropertyInsight.listingId := fst g;
                  PropertyInsight.listingName := first_listingName (snd g);
                  PropertyInsight.avgRating :=
                    Mongo.round2 (Mongo.avg Review.averageCategoryRating (snd g));
                  PropertyInsight.count := Mongo.count (snd g) |})
            (Mongo.group_by Review.listingId
                            (ReviewsRepository.find_query dateFilter s)))).

Definition generateAlerts (lowRatedReviews : list Rated.t)
    (categoryInsights : list CategoryInsight.t) : list Alert.t :=
  let alerts := [] in
  (* Alert for low-rated reviews *)
  let alerts :=
    if (0 <? length lowRatedReviews)%nat then
      alerts ++
      [{| Alert.type := "warning";
          Alert.title := "Low-Rated Reviews Detected";
          Alert.message :=
            pretty (length lowRatedReviews)
            ++ " reviews with ratings below 7.0 require attention";
          Alert.priority := "high" |}]
    else alerts in
  (* Alert for consistently low category ratings *)
  let lowCategories :=
    List.filter (fun c => js_lt (CategoryInsight.avgRating c) 7) categoryInsights in
  if (0 <? length lowCategories)%nat then
    alerts ++
    [{| Alert.type := "warning";
        Alert.title := "Category Performance Issues";
        Alert.message :=
          join ", " (map CategoryInsight.category lowCategories)
          ++ " ratings are below 7.0";
        Alert.priority := "medium" |}]
  else alerts.

Definition generateStrengths (highRatedReviews : list Rated.t)
    (categoryInsights : list CategoryInsight.t) : list Strength.t :=
  let strengths := [] in
  (* Strength for high-rated reviews *)
  let strengths :=
    if (0 <? length highRatedReviews)%nat then
      strengths ++
      [{| Strength.title := "Excellent Guest Satisfaction";
          Strength.message :=
            pretty (length highRatedReviews) ++ " reviews with 9+ ratings";
          Strength.impact := "positive" |}]
    else strengths in
  (* Strength for high-performing categories *)
  let topCategories :=
    List.filter (fun c => js_ge (CategoryInsight.avgRating c) 9) categoryInsights in
  if (0 <? length topCategories)%nat then
    strengths ++
    [{| Strength.title := "Outstanding Category Performance";
        Strength.message :=
          join ", " (map CategoryInsight.category topCategories)
          ++ " exceed 9.0 average";
        Strength.impact := "positive" |}]
  else strengths.

Definition generateRecommendations (categoryInsights : list CategoryInsight.t)
    (propertyInsights : list PropertyInsight.t) : list Recommendation.t :=
  (* Recommendations based on low categories *)
  let lowCategories :=
    List.filter (fun c => js_lt (CategoryInsight.avgRating c) 7) categoryInsights in
  let recommendations :=
    map (fun cat =>
           Recommendation.for_category
             (CategoryInsight.category cat)
             (CategoryInsight.avgRating cat)
             ("Focus on improving " ++ CategoryInsight.category cat
              ++ " - consider guest feedback and implement action plan")
             "Could increase overall rating by 0.5-1.0 points")
        lowCategories in
  (* Recommendations for underperforming properties *)
  recommendations ++
  map (fun prop =>
         Recommendation.for_property
           (PropertyInsight.listingName prop)
           (PropertyInsight.avgRating prop)
           "Schedule property inspection and address common issues"
           "Improve property rating to 8+")
      (List.filter (fun prop => js_lt (PropertyInsight.avgRating prop) 7)
                   propertyInsights).

(** The insights that [getInsights] computes and stores when the cache has
    no entry for the filters. *)
Definition getInsights (filters : AnalyticsFilterDto.t) (s : Store)
  : Insights.t :=
  let dateFilter := buildDateFilter filters in
  let lowRatedReviews := getLowRatedReviews dateFilter s in
  let highRatedReviews := getHighRatedReviews dateFilter s in
  let categoryInsights := getCategoryInsights dateFilter s in
  let propertyInsights := getPropertyInsights dateFilter s in
  {| Insights.alerts := generateAlerts lowRatedReviews categoryInsights;
     Insights.strengths := generateStrengths highRatedReviews categoryInsights;
     Insights.recommendations :=
       generateRecommendations categoryInsights propertyInsights;
     Insights.lowRatedReviews := take 5 lowRatedReviews;
     Insights.highRatedReviews := take 5 highRatedReviews |}.

End Insight.

End AnalyticsService.

(** ** The vocabulary of the design document *)

Module Spec.

(** The arithmetic mean of a list of ratings. *)
Definition arithmetic_mean (ratings : list Q) : Q :=
  fold_right Qplus 0 ratings / inject_Z (Z.of_nat (length ratings)).

(** [r] is [x] rounded to two decimal places: a whole number of hundredths
    at most half a hundredth away from [x]. *)
Definition rounded_to_2_decimals (x r : Q) : Prop :=
  (exists n : Z, r == inject_Z n / 100) /\ Qabs (r - x) <= 1 # 200.

(** An optional average is the number [m]. *)
Definition is_number (a : option Q) (m : Q) : Prop :=
  match a with
  | Some x => x == m
  | None => False
  end.

(** Order on optional averages: an absent one is below every number. *)
Definition below (a b : option Q) : Prop :=
  match a, b with
  | None, Some _ => True
  | Some x, Some y => x < y
  | _, None => False
  end.

Definition level (a b : option Q) : Prop :=
  match a, b with
  | None, None => True
  | Some x, Some y => x == y
  | _, _ => False
  end.

(** Descending by [avgRating], ties broken by [totalReviews] descending. *)
Definition ranks_before (a b : AnalyticsService.Property.t) : Prop :=
  below (AnalyticsService.Property.avgRating b) (AnalyticsService.Property.avgRating a)
  \/ (level (AnalyticsService.Property.avgRating a) (AnalyticsService.Property.avgRating b)
      /\ (AnalyticsService.Property.totalReviews b
          <= AnalyticsService.Property.totalReviews a)%nat).

(** The four performance tiers as bands of an average. *)
Definition tier_of (avgRating : option Q) (tier : string) : Prop :=
  match avgRating with
  | Some a =>
      (tier = "excellent" <-> 17 # 2 <= a)
      /\ (tier = "good" <-> 7 <= a /\ a < 17 # 2)
      /\ (tier = "fair" <-> 5 <= a /\ a < 7)
      /\ (tier = "needs_improvement" <-> a < 5)
  | None => tier = "needs_improvement"
  end.





(** A string that writes a primary key: 24 hexadecimal digits; and the key
    it writes, whose own string form is the same digits in lower case. *)
Definition hex_digit (c : ascii) : Prop :=
  c ∈ list_ascii_of_string "0123456789abcdefABCDEF".

Definition ObjectId_string (s : string) : Prop :=
  String.length s = 24%nat /\ Forall hex_digit (list_ascii_of_string s).

Definition writes_key (s : string) (key : ObjectId.t) : Prop :=
  Js.toLowerCase s = ObjectId.toString key.

#[global] Instance writes_key_dec (s : string) (key : ObjectId.t)
  : Decision (writes_key s key).
Proof. unfold writes_key. apply _. Defined.


(** The review [r] approved by [name] at time [now]. *)
Definition approved (name : string) (now : Z) (r : Review.t) : Review.t :=
  {| Review._id := Review._id r;
     Review.hostawayId := Review.hostawayId r;
     Review.type := Review.type r;
     Review.status := Review.status r;
     Review.rating := Review.rating r;
     Review.publicReview := Review.publicReview r;
     Review.privateReview := Review.privateReview r;
     Review.reviewCategories := Review.reviewCategories r;
     Review.submittedAt := Review.submittedAt r;
     Review.guestName := Review.guestName r;
     Review.listingId := Review.listingId r;
     Review.listingName := Review.listingName r;
     Review.channel := Review.channel r;
     Review.isApprovedForPublic := true;
     Review.approvedBy := Some name;
     Review.approvedAt := Some now;
     Review.managerNotes := Review.managerNotes r;
     Review.averageCategoryRating := Review.averageCategoryRating r;
     Review.createdAt := Review.createdAt r;
     Review.updatedAt := now |}.

End Spec.

(** ** Concrete data for the examples *)

Module Sample.

(** A runtime in which a date is written as its epoch milliseconds and a
    pattern matches the names equal to it up to case. *)
Definition runtime : Runtime :=
  {| Date_parse := Js.parse_digits 0%Z;
     regex_test_i :=
       fun pattern s => bool_decide (Js.toLowerCase pattern = Js.toLowerCase s);
     Date_dayString := fun t => pretty (t / 86400000)%Z |}.

(** The n-th document of a store: a published, not yet approved review,
    stored at time 0. *)
Definition review (n : nat) (hostawayId : Z)
    (reviewCategories : list ReviewCategory.t)
    (averageCategoryRating : option Q) : Review.t :=
  {| Review._id := Model.ObjectId n;
     Review.hostawayId := hostawayId;
     Review.type := "guest-to-host";
     Review.status := "published";
     Review.rating := None;
     Review.publicReview := "Great stay";
     Review.privateReview := None;
     Review.reviewCategories := reviewCategories;
     Review.submittedAt := 1000;
     Review.guestName := "Ada";
     Review.listingId := "loft";
     Review.listingName := "Loft";
     Review.channel := "hostaway";
     Review.isApprovedForPublic := false;
     Review.approvedBy := None;
     Review.approvedAt := None;
     Review.managerNotes := None;
     Review.averageCategoryRating := averageCategoryRating;
     Review.createdAt := 0;
     Review.updatedAt := 0 |}.


Definition store (docs : list Review.t) : Model.Store :=
  {| Model.docs := docs; Model.issued := length docs |}.

Definition state (docs : list Review.t) : ReviewsService.State :=
  {| ReviewsService.db := store docs; ReviewsService.cache := ∅ |}.

(** One review, rated 10 and 8, as [create] stores it. *)
Definition one_review : list Review.t :=
  [review 0 7453
     [ReviewCategory.mk "cleanliness" 10; ReviewCategory.mk "communication" 8]
     (Some 9)].

(** A request to create a review with the given category ratings. *)
Definition create_dto (hostawayId : Z) (reviewCategories : list ReviewCategory.t)
  : CreateReviewDto.t :=
  {| CreateReviewDto.hostawayId := hostawayId;
     CreateReviewDto.type := "guest-to-host";
     CreateReviewDto.status := "published";
     CreateReviewDto.rating := None;
     CreateReviewDto.publicReview := "Great stay";
     CreateReviewDto.privateReview := None;
     CreateReviewDto.reviewCategories := reviewCategories;
     CreateReviewDto.submittedAt := "1000";
     CreateReviewDto.guestName := "Ada";
     CreateReviewDto.listingId := "loft";
     CreateReviewDto.listingName := "Loft";
     CreateReviewDto.channel := None |}.

(** A record as the sync endpoint receives it. *)
Definition normalized (hostawayId : Z) (reviewCategories : list ReviewCategory.t)
    (averageCategoryRating : Q) : NormalizedReview.t :=
  {| NormalizedReview.hostawayId := hostawayId;
     NormalizedReview.type := "guest-to-host";
     NormalizedReview.status := "published";
     NormalizedReview.rating := None;
     NormalizedReview.publicReview := "Great stay";
     NormalizedReview.privateReview := None;
     NormalizedReview.reviewCategories := reviewCategories;
     NormalizedReview.submittedAt := 1000;
     NormalizedReview.guestName := "Ada";
     NormalizedReview.listingId := "loft";
     NormalizedReview.listingName := "Loft";
     NormalizedReview.channel := "hostaway";
     NormalizedReview.averageCategoryRating := averageCategoryRating |}.

End Sample.

(** * Properties *)

(** ** Rounding *)




Lemma sum_by_acc {A} (f : A -> Q) (xs : list A) (acc : Q) :
  fold_left (fun a x => a + f x) xs acc == acc + fold_right Qplus 0 (map f xs).
Proof.
  revert acc. induction xs as [|x xs IH]; intros acc; simpl.
  - ring.
  - rewrite IH. ring.
Qed.

Lemma sum_by_map {A} (f : A -> Q) (xs : list A) :
  Js.sum_by f xs == fold_right Qplus 0 (map f xs).
Proof. unfold Js.sum_by. rewrite sum_by_acc. ring. Qed.

#[local] Instance rounded_to_2_decimals_proper :
  Proper (Qeq ==> Qeq ==> iff) Spec.rounded_to_2_decimals.
Proof.
  intros x x' Hx r r' Hr. unfold Spec.rounded_to_2_decimals.
  split; intros [[n Hn] Hc]; (split; [exists n|]).
  - now rewrite <- Hr.
  - now rewrite <- Hr, <- Hx.
  - now rewrite Hr.
  - now rewrite Hr, Hx.
Qed.

(** ** The normalizer *)

Lemma calculateAverageRating_nil : HostawayService.calculateAverageRating [] = 0.
Proof. reflexivity. Qed.





(** By contrast the fall-back data method does write to the log. *)
Lemma getHardcodedMockData_logs (w : HostawayService.World) :
  HostawayService.logged (snd (HostawayService.getHardcodedMockData w))
  = HostawayService.logged w ++ ["Using hardcoded mock data (25 reviews)"].
Proof. reflexivity. Qed.

(** ** Pagination *)

Lemma lt_ceil_div (p t l : Z) :
  (1 <= l)%Z -> (p <? ReviewsRepository.ceil_div t l)%Z = true <-> (p * l < t)%Z.
Proof.
  intros Hl. unfold ReviewsRepository.ceil_div.
  set (x := inject_Z t / inject_Z l).
  assert (Hlq : 0 < inject_Z l).
  { change 0 with (inject_Z 0). rewrite <- Zlt_Qlt. lia. }
  assert (Hx : x * inject_Z l == inject_Z t).
  { unfold x. field. lra. }
  rewrite Z.ltb_lt. split; intros H.
  - assert (Hp : inject_Z p < x).
    { apply Qle_lt_trans with (inject_Z (Qceiling x - 1)).
      - rewrite <- Zle_Qle. lia.
      - apply Qceiling_lt. }
    rewrite Zlt_Qlt, inject_Z_mult, <- Hx.
    apply Qmult_lt_r; assumption.
  - assert (Hp : inject_Z p < x).
    { apply Qmult_lt_r with (inject_Z l); [assumption|].
      rewrite Hx, <- inject_Z_mult, <- Zlt_Qlt. assumption. }
    rewrite Zlt_Qlt. apply Qlt_le_trans with x; [assumption|].
    apply Qle_ceiling.
Qed.

(** C6.  The pagination of [findWithFilters], for a page size of at least
    one: [total] is the number of documents that match the filter,
    [hasNextPage] holds exactly when [page * limit < total] and
    [hasPrevPage] exactly when [page > 1]. *)
Theorem findWithFilters_pagination `{RT : Runtime}
    (filters : FilterReviewDto.t) (s : Model.Store) :
  let page := default 1%Z (FilterReviewDto.page filters) in
  let limit := default 20%Z (FilterReviewDto.limit filters) in
  let p := ReviewsRepository.pagination
             (ReviewsRepository.findWithFilters filters s) in
  (1 <= limit)%Z ->
  ReviewsRepository.total p
  = Z.of_nat
      (length (filter (fun r => ReviewsRepository.matches
                                  (ReviewsRepository.buildFilterQuery filters) r
                                = true)
                      (Model.docs s)))
  /\ (ReviewsRepository.hasNextPage p = true
      <-> (page * limit < ReviewsRepository.total p)%Z)
  /\ (ReviewsRepository.hasPrevPage p = true <-> (1 < page)%Z).
Proof.
  intros page limit p Hlimit. subst p. cbn.
  fold page limit. split; [reflexivity|]. split.
  - apply lt_ceil_div. assumption.
  - apply Z.ltb_lt.
Qed.

(** The first of two pages of one review each, of the reviews rated 8 or
    more. *)
Lemma findWithFilters_pagination_witness :
  let filters :=
    FilterReviewDto.mk (Some 1%Z) (Some 1%Z) None None None (Some 8) None None
      None None None None in
  let s :=
    Sample.store
      [Sample.review 0 1 [] (Some 9); Sample.review 1 2 [] (Some 7);
       Sample.review 2 3 [] (Some 8)] in
  let p := ReviewsRepository.pagination
             (ReviewsRepository.findWithFilters (RT := Sample.runtime) filters s) in
  ReviewsRepository.total p = 2%Z
  /\ ReviewsRepository.hasNextPage p = true
  /\ ReviewsRepository.hasPrevPage p = false.
Proof.
  cbn zeta.
  destruct (findWithFilters_pagination (RT := Sample.runtime)
              (FilterReviewDto.mk (Some 1%Z) (Some 1%Z) None None None (Some 8)
                 None None None None None None)
              (Sample.store
                 [Sample.review 0 1 [] (Some 9); Sample.review 1 2 [] (Some 7);
                  Sample.review 2 3 [] (Some 8)]))
    as (Htotal & Hnext & Hprev).
  - cbn. lia.
  - split; [rewrite Htotal; reflexivity|]. split.
    + apply Hnext. rewrite Htotal. vm_compute. reflexivity.
    + apply not_true_iff_false. rewrite Hprev. cbn. lia.
Defined.

(** ** The store *)

Lemma update_first_find (p : Review.t -> bool) (f : Review.t -> Review.t)
    (l : list Review.t) :
  fst (ReviewsRepository.update_first p f l)
  = option_map (fun r => (r, f r)) (find p l).
Proof.
  induction l as [|r l IH]; cbn; [reflexivity|].
  destruct (p r); [reflexivity|].
  destruct (ReviewsRepository.update_first p f l) as [res rest]. exact IH.
Qed.

Lemma update_first_stored (p : Review.t -> bool) (f : Review.t -> Review.t)
    (l : list Review.t) (r : Review.t) :
  p (f r) = true ->
  find p l = Some r ->
  find p (snd (ReviewsRepository.update_first p f l)) = Some (f r).
Proof.
  intros Hp. induction l as [|x l IH]; cbn; [discriminate|].
  destruct (p x) eqn:E.
  - intros [= ->]. cbn. now rewrite Hp.
  - intros H. destruct (ReviewsRepository.update_first p f l) as [res rest].
    cbn in *. rewrite E. auto.
Qed.

Lemma find_holds {A} (p : A -> bool) (l : list A) (r : A) :
  find p l = Some r -> p r = true.
Proof.
  induction l as [|x l IH]; cbn; [discriminate|].
  destruct (p x) eqn:E; [intros [= <-]; exact E | exact IH].
Qed.

(** The string form of a key is cast back to the key. *)
Lemma from_hex_byte_hex (b : Byte.byte) (r : string) :
  ObjectId.from_hex (ObjectId.byte_hex b ++ r)
  = cons b <$> ObjectId.from_hex r.
Proof. destruct b; reflexivity. Qed.

Lemma cast_toString (key : ObjectId.t) :
  ObjectId.cast (ObjectId.toString key) = Some key.
Proof.
  destruct key as [b0 b1 b2 b3 b4 b5 b6 b7 b8 b9 b10 b11].
  unfold ObjectId.cast, ObjectId.toString.
  change (ObjectId.byte_hex b11) with (ObjectId.byte_hex b11 ++ "")%string.
  rewrite !from_hex_byte_hex. reflexivity.
Qed.

Lemma findById_cast (id : string) (s : Model.Store) (found : option Review.t) :
  ReviewsRepository.findById id s = Ok found ->
  exists key,
    ObjectId.cast id = Some key
    /\ find (fun r => bool_decide (Review._id r = key)) (Model.docs s) = found.
Proof.
  unfold ReviewsRepository.findById.
  destruct (ObjectId.cast id) as [key|]; [|discriminate].
  intros [= <-]. eauto.
Qed.

Lemma repository_update_found (id : string) (u : PartialReview.t) (now : Z)
    (s : Model.Store) (r : Review.t) :
  ReviewsRepository.findById id s = Ok (Some r) ->
  fst (ReviewsRepository.update id u now s)
  = Ok (Some (Model.apply_update now u r))
  /\ ReviewsRepository.findById id (snd (ReviewsRepository.update id u now s))
     = Ok (Some (Model.apply_update now u r)).
Proof.
  intros H. destruct (findById_cast _ _ _ H) as (key & Hkey & Hfind).
  unfold ReviewsRepository.findById, ReviewsRepository.update. rewrite Hkey.
  pose proof (update_first_find
                (fun r => bool_decide (Review._id r = key))
                (Model.apply_update now u) (Model.docs s)) as Hf.
  pose proof (update_first_stored
                (fun r => bool_decide (Review._id r = key))
                (Model.apply_update now u) (Model.docs s) r) as Hs.
  destruct (ReviewsRepository.update_first _ _ _) as [res rest]. cbn in *.
  rewrite Hf, Hfind. split; [reflexivity|]. f_equal. apply Hs; [|assumption].
  apply find_holds in Hfind. exact Hfind.
Qed.

Lemma repository_update_missing (id : string) (u : PartialReview.t) (now : Z)
    (s : Model.Store) :
  ReviewsRepository.findById id s = Ok None ->
  fst (ReviewsRepository.update id u now s) = Ok None.
Proof.
  intros H. destruct (findById_cast _ _ _ H) as (key & Hkey & Hfind).
  unfold ReviewsRepository.update. rewrite Hkey.
  pose proof (update_first_find
                (fun r => bool_decide (Review._id r = key))
                (Model.apply_update now u) (Model.docs s)) as Hf.
  destruct (ReviewsRepository.update_first _ _ _) as [res rest]. cbn in *.
  now rewrite Hf, Hfind.
Qed.

Lemma findById_id (id : string) (s : Model.Store) (r : Review.t) :
  ReviewsRepository.findById id s = Ok (Some r) ->
  ObjectId.cast id = Some (Review._id r).
Proof.
  intros H. destruct (findById_cast _ _ _ H) as (key & Hkey & Hfind).
  apply find_holds in Hfind. apply bool_decide_eq_true in Hfind.
  now rewrite Hfind.
Qed.

Lemma findById_own_id (s : Model.Store) (r : Review.t) :
  In r (Model.docs s) ->
  exists r',
    ReviewsRepository.findById (ObjectId.toString (Review._id r)) s
    = Ok (Some r').
Proof.
  unfold ReviewsRepository.findById. rewrite cast_toString.
  induction (Model.docs s) as [|x l IH]; cbn.
  - intros [].
  - intros [-> | Hin].
    + rewrite bool_decide_eq_true_2 by reflexivity. eauto.
    + destruct (bool_decide (Review._id x = Review._id r)); eauto.
Qed.

Lemma find_In {A} (p : A -> bool) (l : list A) (r : A) :
  find p l = Some r -> In r l.
Proof.
  induction l as [|x l IH]; cbn; [discriminate|].
  destruct (p x); [intros [= <-]; now left | right; auto].
Qed.

(** ** The service: cache invalidation leaves the store alone *)

Lemma invalidateCache_run (st : ReviewsService.State) :
  ReviewsService.invalidateCache st
  = (Ok tt,
     {| ReviewsService.db := ReviewsService.db st;
        ReviewsService.cache :=
          base.delete "reviews:trend:*"
            (base.delete "reviews:approved:*"
               (base.delete "reviews:trend"
                  (base.delete "reviews:approved"
                     (base.delete "reviews:statistics"
                        (ReviewsService.cache st))))) |}).
Proof. reflexivity. Qed.

(** ** Identifiers *)






(** ** Strings that write a primary key *)

Lemma hex_value_digit (c : ascii) :
  bool_decide (Spec.hex_digit c)
  = match ObjectId.hex_value c with Some _ => true | None => false end.
Proof. destruct c as [[] [] [] [] [] [] [] []]; vm_compute; reflexivity. Qed.

Lemma hex_value_lower (c : ascii) (h : N) :
  ObjectId.hex_value c = Some h ->
  (h < 16)%N /\ ObjectId.hex_digit h = Js.lower_char c.
Proof.
  destruct c as [[] [] [] [] [] [] [] []]; vm_compute;
    first [discriminate | intros [= <-]; split; reflexivity].
Qed.

Lemma byte_hex_of_N (h l : N) (b : Byte.byte) :
  (h < 16)%N -> (l < 16)%N ->
  Byte.of_N (16 * h + l) = Some b ->
  ObjectId.byte_hex b
  = String (ObjectId.hex_digit h) (String (ObjectId.hex_digit l) EmptyString).
Proof.
  intros Hh Hl Hb. apply Byte.to_of_N in Hb. unfold ObjectId.byte_hex.
  rewrite Hb. cbv zeta.
  replace ((16 * h + l) / 16)%N with h
    by (apply (N.div_unique _ 16 h l); [assumption | reflexivity]).
  replace ((16 * h + l) mod 16)%N with l
    by (apply (N.mod_unique _ 16 h l); [assumption | reflexivity]).
  reflexivity.
Qed.

Lemma from_hex_spec (s : string) (bs : list Byte.byte) :
  ObjectId.from_hex s = Some bs ->
  Forall Spec.hex_digit (list_ascii_of_string s)
  /\ String.length s = (2 * length bs)%nat
  /\ Js.toLowerCase s
     = fold_right (fun b acc => (ObjectId.byte_hex b ++ acc)%string) "" bs.
Proof.
  revert bs.
  enough (H : (forall bs,
                 ObjectId.from_hex s = Some bs ->
                 Forall Spec.hex_digit (list_ascii_of_string s)
                 /\ String.length s = (2 * length bs)%nat
                 /\ Js.toLowerCase s
                    = fold_right
                        (fun b acc => (ObjectId.byte_hex b ++ acc)%string) "" bs)
              /\ (forall c bs,
                    ObjectId.from_hex (String c s) = Some bs ->
                    Forall Spec.hex_digit (list_ascii_of_string (String c s))
                    /\ String.length (String c s) = (2 * length bs)%nat
                    /\ Js.toLowerCase (String c s)
                       = fold_right
                           (fun b acc => (ObjectId.byte_hex b ++ acc)%string) ""
                           bs))
    by exact (proj1 H).
  induction s as [|c2 s [IH1 IH2]].
  - split.
    + intros bs [= <-]. repeat split. constructor.
    + intros c bs H. discriminate H.
  - split; [exact (IH2 c2)|].
    intros c1 bs H. cbn [ObjectId.from_hex] in H.
    pose proof (hex_value_digit c1) as Hd1.
    pose proof (hex_value_digit c2) as Hd2.
    destruct (ObjectId.hex_value c1) as [h|] eqn:E1; [|discriminate H].
    destruct (ObjectId.hex_value c2) as [l|] eqn:E2; [|discriminate H].
    cbn [mbind option_bind] in H.
    destruct (Byte.of_N (16 * h + l)) as [b|] eqn:Eb; [|discriminate H].
    cbn [mbind option_bind] in H.
    destruct (ObjectId.from_hex s) as [rest|] eqn:Er; [|discriminate H].
    injection H as <-.
    destruct (IH1 rest eq_refl) as (Hall & Hlen & Hlow).
    destruct (hex_value_lower _ _ E1) as [Hh Hc1].
    destruct (hex_value_lower _ _ E2) as [Hl Hc2].
    apply bool_decide_eq_true in Hd1, Hd2.
    split; [|split].
    + cbn. apply Forall_cons. split; [exact Hd1|].
      apply Forall_cons. split; [exact Hd2 | exact Hall].
    + cbn [String.length length]. rewrite Hlen. lia.
    + cbn [Js.toLowerCase fold_right]. rewrite Hlow, <- Hc1, <- Hc2.
      rewrite (byte_hex_of_N h l b Hh Hl Eb). reflexivity.
Qed.

Lemma from_hex_total (n : nat) (s : string) :
  String.length s = (2 * n)%nat ->
  Forall Spec.hex_digit (list_ascii_of_string s) ->
  exists bs, ObjectId.from_hex s = Some bs /\ length bs = n.
Proof.
  revert s. induction n as [|n IH]; intros s Hlen Hall.
  - destruct s; [|discriminate Hlen]. exists []. split; reflexivity.
  - destruct s as [|c1 [|c2 s]]; cbn in Hlen; [lia | lia |].
    cbn in Hall. apply Forall_cons in Hall as [H1 Hall].
    apply Forall_cons in Hall as [H2 Hall].
    destruct (IH s) as (rest & Hrest & Hn); [lia | assumption |].
    pose proof (hex_value_digit c1) as Hd1.
    pose proof (hex_value_digit c2) as Hd2.
    rewrite bool_decide_eq_true_2 in Hd1 by assumption.
    rewrite bool_decide_eq_true_2 in Hd2 by assumption.
    cbn [ObjectId.from_hex].
    destruct (ObjectId.hex_value c1) as [h|] eqn:E1; [|discriminate Hd1].
    destruct (ObjectId.hex_value c2) as [l|] eqn:E2; [|discriminate Hd2].
    destruct (hex_value_lower _ _ E1) as [Hh _].
    destruct (hex_value_lower _ _ E2) as [Hl _].
    cbn [mbind option_bind].
    destruct (Byte.of_N (16 * h + l)) as [b|] eqn:Eb.
    + cbn [mbind option_bind]. rewrite Hrest. exists (b :: rest).
      split; [reflexivity | cbn; now rewrite Hn].
    + apply Byte.of_N_None_iff in Eb. lia.
Qed.

Lemma cast_spec (s : string) (key : ObjectId.t) :
  ObjectId.cast s = Some key ->
  Spec.ObjectId_string s /\ Spec.writes_key s key.
Proof.
  unfold ObjectId.cast. destruct (ObjectId.from_hex s) as [bs|] eqn:E;
    [|discriminate].
  destruct bs as [|b0 [|b1 [|b2 [|b3 [|b4 [|b5 [|b6 [|b7 [|b8 [|b9 [|b10
    [|b11 [|b12 bs]]]]]]]]]]]]]; try discriminate.
  intros [= <-]. destruct (from_hex_spec _ _ E) as (Hall & Hlen & Hlow).
  split; [split; assumption|]. exact Hlow.
Qed.

Lemma cast_total (s : string) :
  Spec.ObjectId_string s -> exists key, ObjectId.cast s = Some key.
Proof.
  intros [Hlen Hall].
  destruct (from_hex_total 12 s Hlen Hall) as (bs & Hbs & Hn).
  unfold ObjectId.cast. rewrite Hbs.
  destruct bs as [|b0 [|b1 [|b2 [|b3 [|b4 [|b5 [|b6 [|b7 [|b8 [|b9 [|b10
    [|b11 [|b12 bs]]]]]]]]]]]]]; try discriminate Hn.
  eauto.
Qed.

Lemma toString_inj (a b : ObjectId.t) :
  ObjectId.toString a = ObjectId.toString b -> a = b.
Proof.
  intros H. pose proof (cast_toString a) as Ha. rewrite H, cast_toString in Ha.
  now injection Ha.
Qed.



(** ** The approval workflow *)

Lemma find_first_with {A} (p : A -> bool) (l : list A) (r : A) :
  find p l = Some r ->
  exists before after,
    l = before ++ r :: after
    /\ p r = true
    /\ Forall (fun x => p x = false) before.
Proof.
  induction l as [|x l IH]; cbn; [discriminate|].
  destruct (p x) eqn:E.
  - intros [= <-]. exists [], l. repeat split; [assumption | constructor].
  - intros H. destruct (IH H) as (before & after & -> & Hr & Hb).
    exists (x :: before), after. repeat split; [assumption|].
    constructor; assumption.
Qed.

Lemma find_none_Forall {A} (p : A -> bool) (l : list A) :
  find p l = None <-> Forall (fun x => p x = false) l.
Proof.
  induction l as [|x l IH]; cbn.
  - split; [constructor | reflexivity].
  - rewrite Forall_cons. destruct (p x) eqn:E.
    + split; [discriminate | intros [H _]; discriminate H].
    + rewrite IH. tauto.
Qed.


Lemma update_first_app (p : Review.t -> bool) (f : Review.t -> Review.t)
    (before after : list Review.t) (r : Review.t) :
  p r = true ->
  Forall (fun x => p x = false) before ->
  ReviewsRepository.update_first p f (before ++ r :: after)
  = (Some (r, f r), before ++ f r :: after).
Proof.
  intros Hr Hb. induction Hb as [|x l Hx Hl IH]; cbn.
  - now rewrite Hr.
  - now rewrite Hx, IH.
Qed.

Lemma command_update_run (id : string) (u : PartialReview.t) (now : Z)
    (st : ReviewsService.State) (r : Review.t) :
  ReviewsRepository.findById id (ReviewsService.db st) = Ok (Some r) ->
  ReviewsService.command_result (ReviewsRepository.update id u now) st
  = (Ok (Some (Model.apply_update now u r)),
     {| ReviewsService.db :=
          snd (ReviewsRepository.update id u now (ReviewsService.db st));
        ReviewsService.cache := ReviewsService.cache st |}).
Proof.
  intros H. unfold ReviewsService.command_result.
  destruct (repository_update_found id u now _ _ H) as [Hu _].
  destruct (ReviewsRepository.update id u now (ReviewsService.db st)) as [res db'].
  cbn in *. now rewrite Hu.
Qed.

Lemma approveReview_updateData_approved (approvedBy : option string) (now : Z)
    (r : Review.t) :
  Model.apply_update now (ReviewsService.approveReview_updateData approvedBy now) r
  = Spec.approved (Js.opt_or approvedBy "admin") now r.
Proof. destruct r. reflexivity. Qed.

(** The second half of [approveReview], on a stored review: the first
    document with its primary key is the one written. *)
Lemma approve_resolved_run (review : Review.t) (approvedBy : option string)
    (now : Z) (st : ReviewsService.State) :
  In review (Model.docs (ReviewsService.db st)) ->
  exists before target after,
    Model.docs (ReviewsService.db st) = before ++ target :: after
    /\ Review._id target = Review._id review
    /\ Forall (fun x => Review._id x <> Review._id review) before
    /\ ReviewsService.sbind
         (ReviewsService.command_result
            (ReviewsRepository.update (ObjectId.toString (Review._id review))
               (ReviewsService.approveReview_updateData approvedBy now) now))
         (fun updated =>
            ReviewsService.sbind ReviewsService.invalidateCache (fun _ =>
            ReviewsService.sret
              {| ReviewsService.approve_message := "Review approved successfully";
                 ReviewsService.approve_review := updated |})) st
       = (Ok {| ReviewsService.approve_message := "Review approved successfully";
                ReviewsService.approve_review :=
                  Some (Spec.approved (Js.opt_or approvedBy "admin") now target) |},
          {| ReviewsService.db :=
               {| Model.docs :=
                    before
                    ++ Spec.approved (Js.opt_or approvedBy "admin") now target
                    :: after;
                  Model.issued := Model.issued (ReviewsService.db st) |};
             ReviewsService.cache :=
               base.delete "reviews:trend:*"
                 (base.delete "reviews:approved:*"
                    (base.delete "reviews:trend"
                       (base.delete "reviews:approved"
                          (base.delete "reviews:statistics"
                             (ReviewsService.cache st))))) |}).
Proof.
  intros Hin.
  set (p := fun r => bool_decide (Review._id r = Review._id review)).
  destruct (find p (Model.docs (ReviewsService.db st))) as [target|] eqn:E.
  - destruct (find_first_with _ _ _ E) as (before & after & Hdocs & Hp & Hb).
    exists before, target, after. split; [exact Hdocs|].
    split; [now apply bool_decide_eq_true in Hp|].
    split.
    { eapply Forall_impl; [exact Hb|]. intros x Hx.
      now apply bool_decide_eq_false in Hx. }
    unfold ReviewsService.sbind at 1. unfold ReviewsService.command_result.
    unfold ReviewsRepository.update. rewrite cast_toString. fold p.
    rewrite Hdocs, (update_first_app p _ before after target Hp Hb).
    cbn [option_map snd]. rewrite approveReview_updateData_approved.
    unfold Ok at 1. cbv beta iota.
    unfold ReviewsService.sbind. rewrite invalidateCache_run. reflexivity.
  - apply find_none_Forall in E. rewrite Forall_forall in E.
    apply list_elem_of_In in Hin. specialize (E review Hin). unfold p in E.
    now apply bool_decide_eq_false in E.
Qed.


Lemma approveReview_run (id : string) (approvedBy : option string) (now : Z)
    (st : ReviewsService.State) :
  let resolved :=
    if Js.is_numeric id
    then Ok (Js.parseInt id
             ≫= fun h => ReviewsRepository.findByHostawayId h (ReviewsService.db st))
    else ReviewsRepository.findById id (ReviewsService.db st) in
  match resolved with
  | inl e => ReviewsService.approveReview id approvedBy now st = (Throw e, st)
  | inr None =>
      exists message,
        ReviewsService.approveReview id approvedBy now st
        = (Throw (NotFoundException message), st)
  | inr (Some review) =>
      exists before target after st',
        Model.docs (ReviewsService.db st) = before ++ target :: after
        /\ Review._id target = Review._id review
        /\ Forall (fun x => Review._id x <> Review._id review) before
        /\ In review (Model.docs (ReviewsService.db st))
        /\ ReviewsService.approveReview id approvedBy now st
           = (Ok {| ReviewsService.approve_message := "Review approved successfully";
                    ReviewsService.approve_review :=
                      Some (Spec.approved (Js.opt_or approvedBy "admin") now
                              target) |}, st')
        /\ Model.docs (ReviewsService.db st')
           = before
             ++ Spec.approved (Js.opt_or approvedBy "admin") now target :: after
  end.
Proof.
  cbn zeta. unfold ReviewsService.approveReview.
  assert (Htail : forall review,
    In review (Model.docs (ReviewsService.db st)) ->
    exists before target after st',
      Model.docs (ReviewsService.db st) = before ++ target :: after
      /\ Review._id target = Review._id review
      /\ Forall (fun x => Review._id x <> Review._id review) before
      /\ In review (Model.docs (ReviewsService.db st))
      /\ ReviewsService.sbind
           (ReviewsService.command_result
              (ReviewsRepository.update (ObjectId.toString (Review._id review))
                 (ReviewsService.approveReview_updateData approvedBy now) now))
           (fun updated =>
              ReviewsService.sbind ReviewsService.invalidateCache (fun _ =>
              ReviewsService.sret
                {| ReviewsService.approve_message := "Review approved successfully";
                   ReviewsService.approve_review := updated |})) st
         = (Ok {| ReviewsService.approve_message := "Review approved successfully";
                  ReviewsService.approve_review :=
                    Some (Spec.approved (Js.opt_or approvedBy "admin") now
                            target) |}, st')
      /\ Model.docs (ReviewsService.db st')
         = before
           ++ Spec.approved (Js.opt_or approvedBy "admin") now target :: after).
  { intros review Hin.
    destruct (approve_resolved_run review approvedBy now st Hin)
      as (before & target & after & Hdocs & Hid & Hb & Hrun).
    eexists before, target, after, _.
    split; [exact Hdocs|]. split; [exact Hid|]. split; [exact Hb|].
    split; [exact Hin|]. split; [exact Hrun | reflexivity]. }
  destruct (Js.is_numeric id) eqn:Enum.
  - destruct (Js.parseInt id ≫= _) as [review|] eqn:E.
    + assert (Hin : In review (Model.docs (ReviewsService.db st))).
      { destruct (Js.parseInt id) as [h|]; [|discriminate E]. cbn in E.
        eapply find_In. exact E. }
      destruct (Htail review Hin)
        as (before & target & after & st' & Hdocs & Hid & Hb & _ & Hrun & Hst).
      exists before, target, after, st'.
      split; [exact Hdocs|]. split; [exact Hid|]. split; [exact Hb|].
      split; [exact Hin|]. split; [|exact Hst].
      rewrite <- Hrun. unfold ReviewsService.sbind at 1 2.
      unfold ReviewsService.query. rewrite E. reflexivity.
    + eexists. unfold ReviewsService.sbind, ReviewsService.query. rewrite E.
      reflexivity.
  - destruct (ReviewsRepository.findById id (ReviewsService.db st))
      as [e|[review|]] eqn:E.
    + unfold ReviewsService.sbind, ReviewsService.query_result. rewrite E.
      reflexivity.
    + assert (Hin : In review (Model.docs (ReviewsService.db st))).
      { destruct (findById_cast _ _ _ E) as (key & _ & Hfind).
        eapply find_In. exact Hfind. }
      destruct (Htail review Hin)
        as (before & target & after & st' & Hdocs & Hid & Hb & _ & Hrun & Hst).
      exists before, target, after, st'.
      split; [exact Hdocs|]. split; [exact Hid|]. split; [exact Hb|].
      split; [exact Hin|]. split; [|exact Hst].
      rewrite <- Hrun. unfold ReviewsService.sbind at 1 2.
      unfold ReviewsService.query_result. rewrite E. reflexivity.
    + eexists. unfold ReviewsService.sbind, ReviewsService.query_result.
      rewrite E. reflexivity.
Qed.




Lemma update_run (id : string) (dto : UpdateReviewDto.t) (now : Z)
    (st : ReviewsService.State) (review : Review.t) :
  ReviewsRepository.findById id (ReviewsService.db st) = Ok (Some review) ->
  let updated :=
    Model.apply_update now (ReviewsService.update_updateData dto review now)
      review in
  exists st',
    ReviewsService.update id dto now st = (Ok (Some updated), st')
    /\ ReviewsRepository.findById id (ReviewsService.db st')
       = Ok (Some updated).
Proof.
  intros H updated. unfold ReviewsService.update.
  destruct (repository_update_found
              id (ReviewsService.update_updateData dto review now) now _ _ H)
    as [_ Hs].
  eexists. split.
  - unfold ReviewsService.sbind at 1. unfold ReviewsService.query_result.
    rewrite H.
    unfold Ok at 1. cbv beta iota zeta. unfold ReviewsService.sbind at 1.
    rewrite (command_update_run _ _ _ _ _ H).
    unfold ReviewsService.sbind. rewrite invalidateCache_run. reflexivity.
  - exact Hs.
Qed.

(** C3, as the code has it.  Approving through [approveReview] stamps the
    review with the current time and with the given approver or ["admin"],
    and so does the approve endpoint on a review that is not approved.  A
    generic [update] that sets [isApprovedForPublic] to [true] on a review
    that is not approved stamps it with the current time and with the
    approver of the request when there is one, and otherwise leaves
    [approvedBy] as it was.  An [update] that sets the flag to [false]
    clears [approvedAt] and [approvedBy]. *)
Theorem approval_metadata_rule (now : Z) (st : ReviewsService.State) :
  (forall id approvedBy review,
      (if Js.is_numeric id
       then Ok (Js.parseInt id
                ≫= fun h =>
                     ReviewsRepository.findByHostawayId h (ReviewsService.db st))
       else ReviewsRepository.findById id (ReviewsService.db st))
      = Ok (Some review) ->
      exists updated st',
        ReviewsService.approveReview id approvedBy now st
        = (Ok {| ReviewsService.approve_message := "Review approved successfully";
                 ReviewsService.approve_review := Some updated |}, st')
        /\ Review._id updated = Review._id review
        /\ Review.isApprovedForPublic updated = true
        /\ Review.approvedAt updated = Some now
        /\ Review.approvedBy updated = Some (Js.opt_or approvedBy "admin"))
  /\ (forall id approvedBy review,
      ReviewsRepository.findById id (ReviewsService.db st) = Ok (Some review) ->
      Review.isApprovedForPublic review = false ->
      exists updated st',
        ReviewsController.approve id approvedBy now st = (Ok (Some updated), st')
        /\ Review.isApprovedForPublic updated = true
        /\ Review.approvedAt updated = Some now
        /\ Review.approvedBy updated = Some (Js.opt_or approvedBy "admin"))
  /\ (forall id dto review,
      ReviewsRepository.findById id (ReviewsService.db st) = Ok (Some review) ->
      exists updated st',
        ReviewsService.update id dto now st = (Ok (Some updated), st')
        /\ ReviewsRepository.findById id (ReviewsService.db st')
           = Ok (Some updated)
        /\ match UpdateReviewDto.isApprovedForPublic dto with
           | Some true =>
               Review.isApprovedForPublic updated = true
               /\ Review.approvedBy updated
                  = match UpdateReviewDto.approvedBy dto with
                    | Some name => Some name
                    | None => Review.approvedBy review
                    end
               /\ Review.approvedAt updated
                  = (if Review.isApprovedForPublic review
                     then Review.approvedAt review else Some now)
           | Some false =>
               Review.isApprovedForPublic updated = false
               /\ Review.approvedAt updated = None
               /\ Review.approvedBy updated = None
           | None =>
               Review.isApprovedForPublic updated
               = Review.isApprovedForPublic review
               /\ Review.approvedAt updated = Review.approvedAt review
           end).
Proof.
  split; [|split].
  - intros id approvedBy review H.
    pose proof (approveReview_run id approvedBy now st) as Hrun.
    cbn zeta in Hrun. rewrite H in Hrun.
    destruct Hrun as (before & target & after & st' & _ & Hid & _ & _ & Hr & _).
    eexists _, st'. split; [exact Hr|]. cbn. auto.
  - intros id approvedBy review H Hpending.
    unfold ReviewsController.approve.
    destruct (update_run id
                (UpdateReviewDto.mk (Some true) None
                   (Some (Js.opt_or approvedBy "admin")))
                now st review H) as (st' & Hr & _).
    eexists _, st'. split; [exact Hr|].
    unfold ReviewsService.update_updateData.
    destruct review; cbn in *; subst; cbn.
    destruct (Js.opt_or approvedBy "admin"); cbn; auto.
  - intros id dto review H.
    destruct (update_run id dto now st review H) as (st' & Hr & Hs).
    eexists _, st'. split; [exact Hr|]. split; [exact Hs|].
    unfold ReviewsService.update_updateData.
    destruct dto as [[[|]|] notes [[|c name]|]];
      destruct review; cbn; destruct isApprovedForPublic; cbn; auto.
Qed.

(** The rule at work: a generic update that approves and names the
    approver. *)
Lemma approval_metadata_rule_witness :
  exists updated st',
    ReviewsService.update (ObjectId.toString (Model.ObjectId 0))
      (UpdateReviewDto.mk (Some true) None (Some "kim")) 5
      (Sample.state Sample.one_review)
    = (Ok (Some updated), st')
    /\ Review.isApprovedForPublic updated = true
    /\ Review.approvedBy updated = Some "kim"
    /\ Review.approvedAt updated = Some 5%Z.
Proof.
  destruct (approval_metadata_rule 5 (Sample.state Sample.one_review))
    as (_ & _ & Hupdate).
  destruct (Hupdate (ObjectId.toString (Model.ObjectId 0))
              (UpdateReviewDto.mk (Some true) None (Some "kim"))
              (Sample.review 0 7453
                 [ReviewCategory.mk "cleanliness" 10;
                  ReviewCategory.mk "communication" 8] (Some 9)))
    as (updated & st' & Hrun & _ & Happroved & Hby & Hat).
  - reflexivity.
  - exists updated, st'. cbn in Hby, Hat. auto.
Defined.

(** C3 as stated fails: a generic update that approves a review without
    naming an approver leaves [approvedBy] absent instead of ["admin"]. *)
Lemma update_approves_without_admin :
  let before := Sample.review 0 7453 [] None in
  exists updated st',
    ReviewsService.update (ObjectId.toString (Model.ObjectId 0))
      (UpdateReviewDto.mk (Some true) None None) 5
      (Sample.state [before])
    = (Ok (Some updated), st')
    /\ Review.isApprovedForPublic before = false
    /\ Review.isApprovedForPublic updated = true
    /\ Review.approvedAt updated = Some 5%Z
    /\ Review.approvedBy updated = None
    /\ Review.approvedBy updated <> Some "admin".
Proof.
  cbn zeta. eexists _, _. split; [vm_compute; reflexivity|].
  cbn. repeat split; discriminate.
Qed.

(** ** Bulk approval *)

Lemma same_number_refl (a : option Q) : ReviewsRepository.same_number a a = true.
Proof. destruct a; cbn; [apply Qeq_bool_iff; reflexivity | reflexivity]. Qed.

Lemma same_categories_refl (l : list ReviewCategory.t) :
  ReviewsRepository.same_categories l l = true.
Proof.
  induction l as [|c l IH]; cbn; [reflexivity|].
  rewrite IH. unfold ReviewsRepository.same_category.
  rewrite bool_decide_eq_true_2 by reflexivity.
  cbn. rewrite andb_true_r. apply Qeq_bool_iff. reflexivity.
Qed.

Lemma bulkApprove_set_unchanged (approvedBy : string) (now : Z) (r : Review.t) :
  ReviewsRepository.same_document r
    (Model.apply_update now (ReviewsRepository.bulkApprove_set approvedBy now) r)
  = true
  <-> Review.isApprovedForPublic r = true
      /\ Review.approvedBy r = Some approvedBy
      /\ Review.approvedAt r = Some now
      /\ Review.updatedAt r = now.
Proof.
  unfold ReviewsRepository.same_document. cbn.
  rewrite !same_number_refl, same_categories_refl.
  rewrite !(bool_decide_eq_true_2 (_ = _)) by reflexivity. cbn.
  rewrite !andb_true_r, !andb_true_iff, !bool_decide_eq_true. tauto.
Qed.

Lemma bulkApprove_set_approved (approvedBy : string) (now : Z) (r : Review.t) :
  Model.apply_update now (ReviewsRepository.bulkApprove_set approvedBy now) r
  = Spec.approved approvedBy now r.
Proof. destruct r. reflexivity. Qed.

(** The keys that a list of strings is cast to are the keys that the
    strings write. *)
Lemma mapM_cast_named (reviewIds : list string) (keys : list ObjectId.t)
    (key : ObjectId.t) :
  mapM ObjectId.cast reviewIds = Some keys ->
  key ∈ keys <-> Exists (fun id => Spec.writes_key id key) reviewIds.
Proof.
  intros H. apply mapM_Some in H.
  induction H as [|id k ids ks Hk _ IH].
  - rewrite Exists_nil. split; [intros Hin; inversion Hin | tauto].
  - rewrite elem_of_cons, Exists_cons, IH.
    apply cast_spec in Hk as [Hs Hw]. unfold Spec.writes_key in *.
    split; (intros [H|H]; [left | right; exact H]).
    + congruence.
    + apply toString_inj. congruence.
Qed.

Lemma mapM_cast_total (reviewIds : list string) :
  is_Some (mapM ObjectId.cast reviewIds)
  <-> Forall Spec.ObjectId_string reviewIds.
Proof.
  rewrite mapM_is_Some. apply Forall_proper; [|reflexivity]. intros id.
  unfold compose. split.
  - intros [key Hk]. now apply cast_spec in Hk.
  - intros Hs. destruct (cast_total id Hs) as [key Hk]. rewrite Hk. eauto.
Qed.

Lemma repository_bulkApprove_keys (reviewIds : list string)
    (keys : list ObjectId.t) (approvedBy : string) (now : Z) (s : Model.Store) :
  mapM ObjectId.cast reviewIds = Some keys ->
  ReviewsRepository.bulkApprove reviewIds approvedBy now s
  = (Ok (length
           (filter
              (fun r =>
                 Review._id r ∈ keys
                 /\ (Review.isApprovedForPublic r = false
                     \/ Review.approvedBy r <> Some approvedBy
                     \/ Review.approvedAt r <> Some now
                     \/ Review.updatedAt r <> now))
              (Model.docs s))),
     {| Model.docs :=
          map (fun r =>
                 if bool_decide (Review._id r ∈ keys)
                 then Spec.approved approvedBy now r else r)
              (Model.docs s);
        Model.issued := Model.issued s |}).
Proof.
  intros Hkeys. unfold ReviewsRepository.bulkApprove. rewrite Hkeys.
  apply f_equal2; [apply (f_equal Ok), (f_equal length) | apply f_equal2; [|reflexivity]].
  - apply list_filter_iff. intros r.
    rewrite bool_decide_eq_true.
    pose proof (bulkApprove_set_unchanged approvedBy now r) as H.
    destruct (ReviewsRepository.same_document r _).
    + destruct H as [H _]. destruct (H eq_refl) as (Ha & Hb & Hc & Hd).
      split; [intros [_ ?]; discriminate|].
      intros [_ [Hf | [Hf | [Hf | Hf]]]]; congruence.
    + split; [|tauto]. intros [Hin _]. split; [assumption|].
      destruct (Review.isApprovedForPublic r) eqn:Ea; [|now left]. right.
      destruct (decide (Review.approvedBy r = Some approvedBy)) as [Eb|]; [|now left].
      right.
      destruct (decide (Review.approvedAt r = Some now)) as [Ec|]; [|now left].
      right. intros Ed. destruct H as [_ H]. discriminate H. auto.
  - apply map_ext. intros r. now rewrite bulkApprove_set_approved.
Qed.

(** Once the clock has moved past every stored [updatedAt], every matched
    review is counted, approved before or not. *)
Lemma repository_bulkApprove_later (reviewIds : list string)
    (keys : list ObjectId.t) (approvedBy : string) (now : Z) (s : Model.Store) :
  mapM ObjectId.cast reviewIds = Some keys ->
  Forall (fun r => (Review.updatedAt r < now)%Z) (Model.docs s) ->
  fst (ReviewsRepository.bulkApprove reviewIds approvedBy now s)
  = Ok (length (filter (fun r => Review._id r ∈ keys) (Model.docs s))).
Proof.
  intros Hkeys Hpast. rewrite (repository_bulkApprove_keys _ _ _ _ _ Hkeys).
  cbn [fst]. f_equal.
  induction Hpast as [|r l Hr Hl IH]; [reflexivity|].
  rewrite !filter_cons.
  destruct (decide (Review._id r ∈ keys)) as [Hin|Hout].
  - rewrite decide_True by (split; [assumption | right; right; right; lia]).
    cbn. now rewrite IH.
  - rewrite decide_False by tauto. exact IH.
Qed.

(** C2, as the code has it.  [bulkApprove] with at least one id throws the
    store's [CastError], and changes nothing, when one of the ids is not 24
    hexadecimal digits.  Otherwise it does not throw, whatever the ids
    match: every stored review whose primary key one of the ids writes is
    stored approved, stamped with the approver and the time of the call,
    and the count it returns is the number of those reviews that the update
    changes: the ones not yet approved, and the ones already approved whose
    approver, approval time or [updatedAt] differs from the new stamp. *)
Theorem bulkApprove_counts_changed_reviews (dto : BulkApproveDto.t) (now : Z)
    (st : ReviewsService.State) :
  BulkApproveDto.reviewIds dto <> [] ->
  let reviewIds := BulkApproveDto.reviewIds dto in
  let approvedBy := default "admin" (BulkApproveDto.approvedBy dto) in
  let named (r : Review.t) :=
    Exists (fun id => Spec.writes_key id (Review._id r)) reviewIds in
  (Forall Spec.ObjectId_string reviewIds ->
   exists result st',
     ReviewsService.bulkApprove dto now st = (Ok result, st')
     /\ ReviewsService.approvedCount result
        = length
            (filter
               (fun r =>
                  named r
                  /\ (Review.isApprovedForPublic r = false
                      \/ Review.approvedBy r <> Some approvedBy
                      \/ Review.approvedAt r <> Some now
                      \/ Review.updatedAt r <> now))
               (Model.docs (ReviewsService.db st)))
     /\ Model.docs (ReviewsService.db st')
        = map (fun r =>
                 if bool_decide (named r)
                 then Spec.approved approvedBy now r else r)
              (Model.docs (ReviewsService.db st)))
  /\ (~ Forall Spec.ObjectId_string reviewIds ->
      ReviewsService.bulkApprove dto now st = (Throw CastError, st)).
Proof.
  intros Hne reviewIds approvedBy named. unfold ReviewsService.bulkApprove.
  fold reviewIds approvedBy.
  assert (Hlen : (length reviewIds =? 0)%nat = false).
  { subst reviewIds.
    destruct (BulkApproveDto.reviewIds dto); [contradiction | reflexivity]. }
  rewrite Hlen.
  unfold ReviewsService.sbind at 1 3. unfold ReviewsService.command_result.
  split.
  - intros Hall. apply mapM_cast_total in Hall as [keys Hkeys].
    rewrite (repository_bulkApprove_keys _ _ approvedBy now _ Hkeys).
    unfold ReviewsService.sbind. rewrite invalidateCache_run.
    eexists _, _. split; [reflexivity|]. cbn [ReviewsService.approvedCount
      ReviewsService.db Model.docs]. split.
    + f_equal. apply list_filter_iff. intros r. unfold named.
      now rewrite (mapM_cast_named _ _ (Review._id r) Hkeys).
    + apply map_ext. intros r. unfold named.
      now rewrite (bool_decide_ext _ _ (mapM_cast_named _ _ (Review._id r) Hkeys)).
  - intros Hall.
    assert (Hnone : mapM ObjectId.cast reviewIds = None).
    { destruct (mapM ObjectId.cast reviewIds) as [keys|] eqn:Hk; [|reflexivity].
      destruct Hall. apply mapM_cast_total. eauto. }
    unfold ReviewsRepository.bulkApprove. rewrite Hnone.
    destruct st. reflexivity.
Qed.

Lemma bulkApprove_counts_changed_reviews_witness :
  exists result st',
    ReviewsService.bulkApprove
      (BulkApproveDto.mk
         [ObjectId.toString (Model.ObjectId 0);
          ObjectId.toString (Model.ObjectId 9)] None) 5
      (Sample.state Sample.one_review)
    = (Ok result, st')
    /\ ReviewsService.approvedCount result = 1%nat
    /\ Forall (fun r => Review.isApprovedForPublic r = true)
              (Model.docs (ReviewsService.db st')).
Proof.
  destruct (bulkApprove_counts_changed_reviews
              (BulkApproveDto.mk
                 [ObjectId.toString (Model.ObjectId 0);
                  ObjectId.toString (Model.ObjectId 9)] None) 5
              (Sample.state Sample.one_review))
    as [Hok _].
  - discriminate.
  - destruct Hok as (result & st' & Hrun & Hcount & Hdocs).
    + repeat constructor; apply (cast_spec _ _ (cast_toString _)).
    + exists result, st'. split; [exact Hrun|].
      split; [rewrite Hcount; reflexivity|].
      rewrite Hdocs. repeat constructor.
Defined.

(** C2 as stated fails: a second bulk approval of an already approved
    review, one millisecond later, counts it again; and an id that is no
    primary key is not skipped but ends the call in [CastError]. *)
Lemma bulkApprove_counts_approved_review_again :
  let dto := BulkApproveDto.mk [ObjectId.toString (Model.ObjectId 0)] None in
  (exists first st1 second st2,
     ReviewsService.bulkApprove dto 1 (Sample.state Sample.one_review)
     = (Ok first, st1)
     /\ ReviewsService.bulkApprove dto 2 st1 = (Ok second, st2)
     /\ ReviewsService.approvedCount first = 1%nat
     /\ Forall (fun r => Review.isApprovedForPublic r = true)
               (Model.docs (ReviewsService.db st1))
     /\ ReviewsService.approvedCount second = 1%nat
     /\ ReviewsService.approvedCount second <> 0%nat)
  /\ ReviewsService.bulkApprove
       (BulkApproveDto.mk [ObjectId.toString (Model.ObjectId 0); "id1"] None) 1
       (Sample.state Sample.one_review)
     = (Throw CastError, Sample.state Sample.one_review).
Proof.
  cbn zeta. split; [|vm_compute; reflexivity].
  eexists _, _, _, _.
  split; [vm_compute; reflexivity|].
  split; [vm_compute; reflexivity|].
  cbn. repeat split; auto.
Qed.

(** ** The computed average *)

Lemma construct_fields (oid : ObjectId.t) (now : Z) (d : PartialReview.t)
    (r : Review.t) :
  Model.construct oid now d = Ok r ->
  Review.reviewCategories r = default [] (PartialReview.reviewCategories d)
  /\ Review.averageCategoryRating r = PartialReview.averageCategoryRating d.
Proof.
  unfold Model.construct, rbind, Model.required, Model.required_string, Ok, Throw.
  repeat case_match; try discriminate. intros [= <-]. auto.
Qed.

Lemma pre_save_categories (r : Review.t) :
  Review.reviewCategories (ReviewsRepository.pre_save r)
  = Review.reviewCategories r.
Proof.
  unfold ReviewsRepository.pre_save. destruct (0 <? _)%nat; reflexivity.
Qed.

Lemma pre_save_average (r : Review.t) :
  match Review.reviewCategories r with
  | [] =>
      Review.averageCategoryRating (ReviewsRepository.pre_save r)
      = Review.averageCategoryRating r
  | _ :: _ =>
      Spec.is_number
        (Review.averageCategoryRating (ReviewsRepository.pre_save r))
        (Spec.arithmetic_mean
           (map ReviewCategory.rating (Review.reviewCategories r)))
  end.
Proof.
  unfold ReviewsRepository.pre_save.
  destruct (Review.reviewCategories r) as [|c cs] eqn:E.
  - reflexivity.
  - change (0 <? length (c :: cs))%nat with true. cbv iota.
    unfold Review.set_averageCategoryRating, Spec.is_number, Spec.arithmetic_mean.
    cbn [Review.averageCategoryRating].
    rewrite length_map, <- sum_by_map. reflexivity.
Qed.

Lemma repository_create_ok (data : PartialReview.t) (now : Z)
    (s s' : Model.Store) (review : Review.t) :
  ReviewsRepository.create data now s = (Ok review, s') ->
  Model.docs s' = Model.docs s ++ [review]
  /\ Review.reviewCategories review
     = default [] (PartialReview.reviewCategories data)
  /\ match Review.reviewCategories review with
     | [] =>
         Review.averageCategoryRating review
         = PartialReview.averageCategoryRating data
     | _ :: _ =>
         Spec.is_number
           (Review.averageCategoryRating review)
           (Spec.arithmetic_mean
              (map ReviewCategory.rating (Review.reviewCategories review)))
     end.
Proof.
  unfold ReviewsRepository.create.
  destruct (Model.construct _ now data) as [e|r0] eqn:Ec; [discriminate|].
  apply construct_fields in Ec. destruct Ec as [Hcats Havg].
  unfold ReviewsRepository.save.
  destruct (ReviewsRepository.validate r0); [|discriminate].
  destruct (ReviewsRepository.findByHostawayId _ s); [discriminate|].
  intros [= <- <-]. cbn [Model.docs].
  pose proof (pre_save_average r0) as Hp.
  rewrite pre_save_categories, Hcats in *.
  split; [reflexivity|]. split; [reflexivity|].
  destruct (default [] (PartialReview.reviewCategories data)); [congruence|exact Hp].
Qed.

Lemma find_append {A} (p : A -> bool) (l l' : list A) :
  find p (l ++ l')
  = match find p l with
    | Some x => Some x
    | None => find p l'
    end.
Proof.
  induction l as [|x l IH]; cbn; [reflexivity|]. destruct (p x); auto.
Qed.

Lemma upsert_one_stores (now : Z)
    (acc : ReviewsRepository.BulkWriteResult * Model.Store)
    (n : NormalizedReview.t) :
  exists d,
    ReviewsRepository.findByHostawayId (NormalizedReview.hostawayId n)
      (snd (ReviewsRepository.upsert_one now acc n)) = Some d
    /\ Review.reviewCategories d = NormalizedReview.reviewCategories n
    /\ Review.averageCategoryRating d
       = Some (NormalizedReview.averageCategoryRating n).
Proof.
  destruct acc as [res s]. unfold ReviewsRepository.upsert_one.
  set (p := fun r => bool_decide (Review.hostawayId r = NormalizedReview.hostawayId n)).
  set (f := Model.apply_update now (PartialReview.of_normalized n)).
  pose proof (update_first_find p f (Model.docs s)) as Hf.
  pose proof (update_first_stored p f (Model.docs s)) as Hs.
  destruct (ReviewsRepository.update_first p f (Model.docs s)) as [[[before after]|] docs'].
  - cbn in Hf. destruct (find p (Model.docs s)) as [r|] eqn:Efind; [|discriminate].
    injection Hf as -> ->.
    exists (f r). cbn. split; [|split; reflexivity].
    apply (Hs r); [|reflexivity].
    unfold p, f. cbn. apply bool_decide_eq_true_2. reflexivity.
  - cbn in Hf. destruct (find p (Model.docs s)) as [r|] eqn:Efind; [discriminate|].
    eexists. cbn. unfold ReviewsRepository.findByHostawayId. cbn.
    rewrite find_append. fold p. rewrite Efind. unfold p. cbn.
    rewrite bool_decide_eq_true_2 by reflexivity.
    split; [reflexivity|]. split; reflexivity.
Qed.

(** C1, as the code has it.  The average is recomputed inside the entity on
    the [save] path only.  A review that [create] stores with a non-empty
    category list carries the arithmetic mean of its category ratings,
    whatever average the caller supplied; with an empty list it carries what
    the caller supplied.  A record written by bulk upsert carries the
    average supplied in the record. *)
Theorem average_recomputed_on_save_only :
  (forall data now s s' review,
      ReviewsRepository.create data now s = (Ok review, s') ->
      Model.docs s' = Model.docs s ++ [review]
      /\ match Review.reviewCategories review with
         | [] =>
             Review.averageCategoryRating review
             = PartialReview.averageCategoryRating data
         | _ :: _ =>
             Spec.is_number
               (Review.averageCategoryRating review)
               (Spec.arithmetic_mean
                  (map ReviewCategory.rating (Review.reviewCategories review)))
         end)
  /\ (forall now acc n,
      exists d,
        ReviewsRepository.findByHostawayId (NormalizedReview.hostawayId n)
          (snd (ReviewsRepository.upsert_one now acc n)) = Some d
        /\ Review.reviewCategories d = NormalizedReview.reviewCategories n
        /\ Review.averageCategoryRating d
           = Some (NormalizedReview.averageCategoryRating n)).
Proof.
  split.
  - intros data now s s' review H.
    destruct (repository_create_ok data now s s' review H) as (Hd & _ & Hm). auto.
  - apply upsert_one_stores.
Qed.

Lemma average_recomputed_on_save_only_witness :
  let data :=
    ReviewsService.transformCreateDtoToEntity (RT := Sample.runtime)
      (Sample.create_dto 7453
         [ReviewCategory.mk "cleanliness" 10; ReviewCategory.mk "communication" 8]) in
  let review :=
    Sample.review 0 7453
      [ReviewCategory.mk "cleanliness" 10; ReviewCategory.mk "communication" 8]
      (Some (18 # 2)) in
  ReviewsRepository.create data 0 (Sample.store [])
  = (Ok review, Sample.store [review])
  /\ Spec.is_number (Review.averageCategoryRating review)
       (Spec.arithmetic_mean [10; 8]).
Proof.
  cbn zeta.
  assert (E : ReviewsRepository.create
                (ReviewsService.transformCreateDtoToEntity (RT := Sample.runtime)
                   (Sample.create_dto 7453
                      [ReviewCategory.mk "cleanliness" 10;
                       ReviewCategory.mk "communication" 8]))
                0 (Sample.store [])
              = (Ok (Sample.review 0 7453
                       [ReviewCategory.mk "cleanliness" 10;
                        ReviewCategory.mk "communication" 8] (Some (18 # 2))),
                 Sample.store
                   [Sample.review 0 7453
                      [ReviewCategory.mk "cleanliness" 10;
                       ReviewCategory.mk "communication" 8] (Some (18 # 2))]))
    by (vm_compute; reflexivity).
  split; [exact E|].
  destruct average_recomputed_on_save_only as [Hcreate _].
  destruct (Hcreate _ _ _ _ _ E) as [_ Hmean]. exact Hmean.
Defined.

(** C1 as stated fails: a sync that replaces the categories of a stored
    review keeps the average the record supplies; nothing recomputes it. *)
Lemma sync_keeps_supplied_average :
  let record :=
    Sample.normalized 7453 [ReviewCategory.mk "cleanliness" 4] 9 in
  exists result st' stored,
    ReviewsService.syncReviews [record] 5 (Sample.state Sample.one_review)
    = (Ok result, st')
    /\ ReviewsRepository.findByHostawayId 7453 (ReviewsService.db st')
       = Some stored
    /\ Review.reviewCategories stored = [ReviewCategory.mk "cleanliness" 4]
    /\ Review.averageCategoryRating stored = Some 9
    /\ ~ Spec.is_number (Review.averageCategoryRating stored)
           (Spec.arithmetic_mean [4]).
Proof.
  cbn zeta. eexists _, _, _.
  split; [vm_compute; reflexivity|].
  split; [vm_compute; reflexivity|].
  split; [reflexivity|]. split; [reflexivity|].
  cbn. intros H. vm_compute in H. discriminate.
Qed.

(** ** Cache invalidation *)

Lemma invalidateCache_spares (st : ReviewsService.State) (key : string) :
  key ∉ ["reviews:statistics"; "reviews:approved"; "reviews:trend";
         "reviews:approved:*"; "reviews:trend:*"] ->
  ReviewsService.cache (snd (ReviewsService.invalidateCache st)) !! key
  = ReviewsService.cache st !! key.
Proof.
  intros Hkey. rewrite invalidateCache_run. cbn [snd ReviewsService.cache].
  rewrite !lookup_delete_ne; [reflexivity|..];
    intros <-; apply Hkey; set_solver.
Qed.

Lemma invalidateCache_removes (st : ReviewsService.State) (key : string) :
  key ∈ ["reviews:statistics"; "reviews:approved"; "reviews:trend";
         "reviews:approved:*"; "reviews:trend:*"] ->
  ReviewsService.cache (snd (ReviewsService.invalidateCache st)) !! key = None.
Proof.
  intros Hkey. rewrite invalidateCache_run. cbn [snd ReviewsService.cache].
  repeat (apply elem_of_cons in Hkey; destruct Hkey as [-> | Hkey]);
    [..|now apply elem_of_nil in Hkey];
    rewrite ?lookup_delete_eq;
    repeat (rewrite lookup_delete_ne by discriminate; rewrite ?lookup_delete_eq);
    reflexivity.
Qed.

Lemma append_colon_nonempty (r t : string) : (r ++ String ":" t)%string <> "".
Proof. destruct r; discriminate. Qed.

Lemma listing_key_not_named (listingId : option string) (limit : Z) :
  ReviewsService.getApprovedReviews_cacheKey listingId limit
  ∉ ["reviews:statistics"; "reviews:approved"; "reviews:trend";
     "reviews:approved:*"; "reviews:trend:*"].
Proof.
  unfold ReviewsService.getApprovedReviews_cacheKey.
  assert (Hx : exists c r, Js.opt_or listingId "all" = String c r).
  { destruct listingId as [[|c r]|]; cbn; eauto. }
  destruct Hx as (c & r & ->).
  cbn. rewrite !elem_of_cons, elem_of_nil.
  intros [H | [H | [H | [H | [H | []]]]]]; try discriminate.
  injection H as _ H. revert H. apply append_colon_nonempty.
Qed.


(** The cache after a mutating method that returns is the cache after
    [invalidateCache]. *)
Ltac run_service :=
  unfold ReviewsService.sbind, ReviewsService.query,
    ReviewsService.query_result, ReviewsService.command,
    ReviewsService.command_result, ReviewsService.throw, ReviewsService.sret,
    Ok, Throw;
  cbv beta iota.

Ltac invalidated :=
  cbv beta iota; rewrite ?invalidateCache_run; unfold Ok; cbv beta iota;
  let H := fresh in
  intros H; inversion H; subst; cbn; reflexivity.

Section Invalidation.
Context {RT : Runtime}.

Lemma syncReviews_invalidates reviews now st result st' :
  ReviewsService.syncReviews reviews now st = (Ok result, st') ->
  ReviewsService.cache st'
  = ReviewsService.cache (snd (ReviewsService.invalidateCache st)).
Proof.
  unfold ReviewsService.syncReviews. destruct (_ =? _)%nat; [discriminate|].
  run_service. destruct (ReviewsRepository.bulkUpsert _ _ _) as [n db'].
  invalidated.
Qed.

Lemma create_invalidates dto now st result st' :
  ReviewsService.create dto now st = (Ok result, st') ->
  ReviewsService.cache st'
  = ReviewsService.cache (snd (ReviewsService.invalidateCache st)).
Proof.
  unfold ReviewsService.create. run_service.
  destruct (ReviewsRepository.findByHostawayId _ _); [discriminate|].
  destruct (ReviewsRepository.create _ _ _) as [[e|review] db']; [discriminate|].
  invalidated.
Qed.

Lemma update_invalidates id dto now st result st' :
  ReviewsService.update id dto now st = (Ok result, st') ->
  ReviewsService.cache st'
  = ReviewsService.cache (snd (ReviewsService.invalidateCache st)).
Proof.
  unfold ReviewsService.update. run_service.
  destruct (ReviewsRepository.findById _ _) as [e|[review|]];
    [discriminate | | discriminate].
  destruct (ReviewsRepository.update _ _ _ _) as [[e|res] db'];
    [discriminate|].
  invalidated.
Qed.

Lemma approveReview_invalidates id approvedBy now st result st' :
  ReviewsService.approveReview id approvedBy now st = (Ok result, st') ->
  ReviewsService.cache st'
  = ReviewsService.cache (snd (ReviewsService.invalidateCache st)).
Proof.
  unfold ReviewsService.approveReview. run_service.
  destruct (Js.is_numeric id).
  - destruct (Js.parseInt id ≫= _) as [review|]; [|discriminate].
    cbn. destruct (ReviewsRepository.update _ _ _ _) as [[e|res] db'];
      [discriminate|].
    invalidated.
  - destruct (ReviewsRepository.findById _ _) as [e|[review|]];
      [discriminate | | discriminate].
    cbn. destruct (ReviewsRepository.update _ _ _ _) as [[e|res] db'];
      [discriminate|].
    invalidated.
Qed.

Lemma bulkApprove_invalidates dto now st result st' :
  ReviewsService.bulkApprove dto now st = (Ok result, st') ->
  ReviewsService.cache st'
  = ReviewsService.cache (snd (ReviewsService.invalidateCache st)).
Proof.
  unfold ReviewsService.bulkApprove. destruct (_ =? _)%nat; [discriminate|].
  run_service.
  destruct (ReviewsRepository.bulkApprove _ _ _ _) as [[e|n] db'];
    [discriminate|].
  invalidated.
Qed.

Lemma remove_invalidates id st result st' :
  ReviewsService.remove id st = (Ok result, st') ->
  ReviewsService.cache st'
  = ReviewsService.cache (snd (ReviewsService.invalidateCache st)).
Proof.
  unfold ReviewsService.remove. run_service.
  destruct (ReviewsRepository.delete _ _) as [[e|[review|]] db'];
    [discriminate | | discriminate].
  invalidated.
Qed.

End Invalidation.

(** Every entry that [getApprovedReviews] writes is out of reach of
    [invalidateCache], whatever the mutation. *)
Lemma invalidateCache_spares_listing (st : ReviewsService.State)
    (listingId : option string) (limit : Z) :
  ReviewsService.cache (snd (ReviewsService.invalidateCache st))
    !! ReviewsService.getApprovedReviews_cacheKey listingId limit
  = ReviewsService.cache st
      !! ReviewsService.getApprovedReviews_cacheKey listingId limit.
Proof. apply invalidateCache_spares, listing_key_not_named. Qed.

(** So is the trend of the default window. *)
Lemma invalidateCache_spares_trend_30 (st : ReviewsService.State) :
  ReviewsService.cache (snd (ReviewsService.invalidateCache st))
    !! ReviewsService.getReviewsTrend_cacheKey 30
  = ReviewsService.cache st !! ReviewsService.getReviewsTrend_cacheKey 30.
Proof.
  apply invalidateCache_spares.
  replace (ReviewsService.getReviewsTrend_cacheKey 30)
    with "reviews:trend:30" by (vm_compute; reflexivity).
  rewrite !elem_of_cons, elem_of_nil.
  intros [H | [H | [H | [H | [H | []]]]]]; discriminate.
Qed.

(** C5 on the code: the listing that [getApprovedReviews] caches under
    ["reviews:approved:all:10"] is still in the cache after [approveReview]
    has run and invalidated, and the next read returns it although the
    store now holds an approved, published review. *)
Theorem approved_listing_survives_invalidation :
  let st0 := Sample.state Sample.one_review in
  let st1 := snd (ReviewsService.getApprovedReviews None 10 st0) in
  let st2 := snd (ReviewsService.approveReview "7453" None 5 st1) in
  ReviewsService.cache st1 !! "reviews:approved:all:10"
  = Some {| ReviewsService.value := ReviewsService.CachedReviews [];
            ReviewsService.ttl := 600 |}
  /\ fst (ReviewsService.approveReview "7453" None 5 st1)
     = Ok {| ReviewsService.approve_message := "Review approved successfully";
             ReviewsService.approve_review :=
               Some (Model.apply_update 5
                       (ReviewsService.approveReview_updateData None 5)
                       (Sample.review 0 7453
                          [ReviewCategory.mk "cleanliness" 10;
                           ReviewCategory.mk "communication" 8] (Some 9))) |}
  /\ ReviewsService.cache st2 !! "reviews:approved:all:10"
     = Some {| ReviewsService.value := ReviewsService.CachedReviews [];
               ReviewsService.ttl := 600 |}
  /\ fst (ReviewsService.getApprovedReviews None 10 st2)
     = Ok (ReviewsService.CachedReviews [])
  /\ length (ReviewsRepository.findApprovedReviews None 10 (ReviewsService.db st2))
     = 1%nat.
Proof. cbn zeta. repeat split; vm_compute; reflexivity. Qed.

(** ** Aggregation groups *)

Lemma group_insert_nonempty {K A} `{EqDecision K} (k : K) (a : A)
    (gs : list (K * list A)) :
  Forall (fun g => snd g <> []) gs ->
  Forall (fun g => snd g <> []) (Mongo.group_insert k a gs).
Proof.
  induction 1 as [|[k' xs] gs Hx Hgs IH]; cbn.
  - constructor; [discriminate | constructor].
  - destruct (decide (k = k')).
    + constructor; [|assumption]. cbn. destruct xs; discriminate.
    + constructor; assumption.
Qed.

Lemma group_by_nonempty {K A} `{EqDecision K} (key : A -> K) (xs : list A) :
  Forall (fun g => snd g <> []) (Mongo.group_by key xs).
Proof.
  unfold Mongo.group_by.
  assert (G : forall gs, Forall (fun g : K * list A => snd g <> []) gs ->
              Forall (fun g => snd g <> [])
                     (fold_left (fun gs x => Mongo.group_insert (key x) x gs) xs gs)).
  { induction xs as [|x xs IH]; intros gs Hgs; cbn; [assumption|].
    apply IH, group_insert_nonempty, Hgs. }
  apply G. constructor.
Qed.

Lemma group_insert_cons {K A} `{EqDecision K} (k : K) (a : A)
    (gs : list (K * list A)) :
  Mongo.group_insert k a gs <> [].
Proof. destruct gs as [|[k' xs] gs]; cbn; [|destruct (decide (k = k'))]; discriminate. Qed.

Lemma group_by_cons {K A} `{EqDecision K} (key : A -> K) (x : A) (xs : list A) :
  Mongo.group_by key (x :: xs) <> [].
Proof.
  unfold Mongo.group_by. cbn. generalize [(key x, [x])], (@nil_cons _ (key x, [x]) []).
  induction xs as [|y ys IH]; intros acc Hacc; cbn.
  - congruence.
  - apply IH. intros Hnil. symmetry in Hnil. revert Hnil. apply group_insert_cons.
Qed.

Lemma count_positive {A} (xs : list A) : xs <> [] -> (1 <= Mongo.count xs)%nat.
Proof. destruct xs; [congruence | cbn; lia]. Qed.

Lemma groups_counted {K A B} `{EqDecision K} (key : A -> K) (xs : list A)
    (summary : K * list A -> B) (size : B -> nat) :
  (forall g, size (summary g) = Mongo.count (snd g)) ->
  Forall (fun b => (1 <= size b)%nat) (map summary (Mongo.group_by key xs)).
Proof.
  intros Hsize. apply Forall_map.
  eapply Forall_impl; [apply group_by_nonempty|].
  intros g Hg. cbn. rewrite Hsize. now apply count_positive.
Qed.

Lemma sort_by_Forall {A} (le : A -> A -> bool) (P : A -> Prop) (xs : list A) :
  Forall P xs -> Forall P (Mongo.sort_by le xs).
Proof.
  intros H. unfold Mongo.sort_by.
  eapply Permutation_Forall; [|exact H].
  symmetry. apply merge_sort_Permutation.
Qed.

Lemma limit_Forall {A} (n : Z) (P : A -> Prop) (xs : list A) :
  Forall P xs -> Forall P (Mongo.limit n xs).
Proof.
  intros H. unfold Mongo.limit. destruct (n =? 0)%Z; [assumption|].
  now apply Forall_take.
Qed.

(** ** Percentages *)

Lemma percentage_defined (part whole : nat) :
  (1 <= whole)%nat ->
  exists rate, AnalyticsService.percentage part whole = Ok rate.
Proof.
  intros Hw. unfold AnalyticsService.percentage, Mongo.divide.
  assert (E : Qeq_bool (Mongo.of_nat whole) 0 = false).
  { apply not_true_iff_false. intros H. apply Qeq_bool_iff in H.
    unfold Mongo.of_nat in H. change 0 with (inject_Z 0) in H.
    rewrite inject_Z_injective in H. lia. }
  rewrite E. cbn. eauto.
Qed.

Lemma rmap_defined {A B} (f : A -> Result B) (xs : list A) :
  Forall (fun x => exists y, f x = Ok y) xs ->
  exists ys, rmap f xs = Ok ys /\ Forall2 (fun x y => f x = Ok y) xs ys.
Proof.
  induction 1 as [|x xs [y Hy] Hxs (ys & Hr & Hf)]; cbn.
  - exists []. split; [reflexivity | constructor].
  - exists (y :: ys). rewrite Hy, Hr. cbn. split; [reflexivity|].
    constructor; assumption.
Qed.

Section Divisors.
Context {RT : Runtime}.

Lemma property_groups_counted (filters : AnalyticsFilterDto.t) (s : Model.Store) :
  Forall (fun g => (1 <= AnalyticsService.PropertyGroup.totalReviews g)%nat)
         (AnalyticsService.property_groups filters s).
Proof.
  unfold AnalyticsService.property_groups.
  apply (groups_counted _ _ AnalyticsService.property_group
           AnalyticsService.PropertyGroup.totalReviews).
  reflexivity.
Qed.

Lemma channel_groups_counted (q : ReviewsRepository.FilterQuery) (s : Model.Store) :
  Forall (fun g => (1 <= AnalyticsService.ChannelGroup.count g)%nat)
         (AnalyticsService.channel_groups q s).
Proof.
  unfold AnalyticsService.channel_groups.
  apply (groups_counted _ _ AnalyticsService.channel_group
           AnalyticsService.ChannelGroup.count).
  reflexivity.
Qed.

Lemma overview_groups_counted (q : ReviewsRepository.FilterQuery) (s : Model.Store) :
  Forall (fun g => (1 <= AnalyticsService.OverviewGroup.totalReviews g)%nat)
         (AnalyticsService.overview_groups q s).
Proof.
  unfold AnalyticsService.overview_groups.
  apply (groups_counted _ _ AnalyticsService.overview_group
           AnalyticsService.OverviewGroup.totalReviews).
  reflexivity.
Qed.

Lemma property_projects (filters : AnalyticsFilterDto.t) (s : Model.Store) :
  exists projected,
    rmap AnalyticsService.property_project
         (AnalyticsService.property_groups filters s) = Ok projected
    /\ Forall2 (fun g e => AnalyticsService.property_project g = Ok e)
               (AnalyticsService.property_groups filters s) projected.
Proof.
  apply rmap_defined.
  eapply Forall_impl; [apply property_groups_counted|].
  intros g Hg. unfold AnalyticsService.property_project.
  destruct (percentage_defined (AnalyticsService.PropertyGroup.approvedReviews g)
              _ Hg) as [rate ->].
  cbn. eauto.
Qed.

Lemma getPropertyBreakdown_run (filters : AnalyticsFilterDto.t) (now : Z)
    (s : Model.Store) :
  exists projected,
    Forall2 (fun g e => AnalyticsService.property_project g = Ok e)
            (AnalyticsService.property_groups filters s) projected
    /\ AnalyticsService.getPropertyBreakdown filters now s
       = Ok {| AnalyticsService.properties :=
                 Mongo.sort_by AnalyticsService.property_before projected;
               AnalyticsService.totalProperties :=
                 length (Mongo.sort_by AnalyticsService.property_before projected);
               AnalyticsService.generatedAt := now |}.
Proof.
  destruct (property_projects filters s) as (projected & Hr & Hf).
  exists projected. split; [exact Hf|].
  unfold AnalyticsService.getPropertyBreakdown. rewrite Hr. reflexivity.
Qed.

Lemma getChannelBreakdown_defined (q : ReviewsRepository.FilterQuery)
    (s : Model.Store) :
  exists channels, AnalyticsService.getChannelBreakdown q s = Ok channels.
Proof.
  unfold AnalyticsService.getChannelBreakdown.
  destruct (rmap_defined AnalyticsService.channel_project
              (AnalyticsService.channel_groups q s)) as (projected & -> & _).
  - eapply Forall_impl; [apply channel_groups_counted|].
    intros g Hg. unfold AnalyticsService.channel_project.
    destruct (percentage_defined (AnalyticsService.ChannelGroup.approvedCount g)
                _ Hg) as [rate ->].
    cbn. eauto.
  - cbn. eauto.
Qed.

Lemma getOverviewStats_run (q : ReviewsRepository.FilterQuery) (s : Model.Store) :
  match ReviewsRepository.find_query q s with
  | [] =>
      AnalyticsService.getOverviewStats q s
      = Ok AnalyticsService.overview_fallback
  | _ :: _ =>
      exists overview,
        AnalyticsService.getOverviewStats q s = Ok overview
        /\ (1 <= AnalyticsService.Overview.totalReviews overview)%nat
  end.
Proof.
  unfold AnalyticsService.getOverviewStats.
  pose proof (overview_groups_counted q s) as Hc.
  unfold AnalyticsService.overview_groups in *.
  destruct (ReviewsRepository.find_query q s) as [|r rs] eqn:E.
  - reflexivity.
  - destruct (rmap_defined AnalyticsService.overview_project
                (map AnalyticsService.overview_group
                     (Mongo.group_by (fun _ => tt) (r :: rs))))
      as (projected & Hr & Hf).
    + eapply Forall_impl; [exact Hc|].
      intros g Hg. unfold AnalyticsService.overview_project.
      destruct (percentage_defined
                  (AnalyticsService.OverviewGroup.approvedCount g) _ Hg)
        as [rate ->].
      cbn. eauto.
    + rewrite Hr. cbn.
      pose proof (group_by_cons (fun _ : Review.t => tt) r rs) as Hne.
      destruct (Mongo.group_by (fun _ : Review.t => tt) (r :: rs)) as [|g0 gs0];
        [congruence|].
      cbn [map] in Hf, Hc.
      inversion Hf as [|? o ? os Hgo Hrest]; subst.
      exists o. split; [reflexivity|].
      apply Forall_cons in Hc. destruct Hc as [Hg _].
      unfold AnalyticsService.overview_project in Hgo.
      destruct (AnalyticsService.percentage _ _); [discriminate|].
      cbn in Hgo. injection Hgo as <-. exact Hg.
Qed.

End Divisors.

(** C10.  Wherever an approval rate is computed, the divisor is at least
    one: every group of an aggregation holds at least one document, and
    with no document at all the overview is the constant fall-back object.
    So the overview, the channel breakdown and the property breakdown never
    fail on a division by zero, and every top property of the statistics
    has a positive review count. *)
Theorem approvalRate_divisor_is_positive `{RT : Runtime}
    (filters : AnalyticsFilterDto.t) (dateFilter : ReviewsRepository.FilterQuery)
    (now : Z) (s : Model.Store) :
  Forall (fun g => (1 <= AnalyticsService.OverviewGroup.totalReviews g)%nat)
         (AnalyticsService.overview_groups dateFilter s)
  /\ match ReviewsRepository.find_query dateFilter s with
     | [] =>
         AnalyticsService.getOverviewStats dateFilter s
         = Ok AnalyticsService.overview_fallback
     | _ :: _ =>
         exists overview,
           AnalyticsService.getOverviewStats dateFilter s = Ok overview
           /\ (1 <= AnalyticsService.Overview.totalReviews overview)%nat
     end
  /\ Forall (fun g => (1 <= AnalyticsService.ChannelGroup.count g)%nat)
            (AnalyticsService.channel_groups dateFilter s)
  /\ (exists channels,
         AnalyticsService.getChannelBreakdown dateFilter s = Ok channels)
  /\ Forall (fun g => (1 <= AnalyticsService.PropertyGroup.totalReviews g)%nat)
            (AnalyticsService.property_groups filters s)
  /\ (exists breakdown,
         AnalyticsService.getPropertyBreakdown filters now s = Ok breakdown)
  /\ Forall (fun item => (1 <= ReviewsRepository.PropertyGroup.count item)%nat)
            (ReviewsRepository.byProperty (ReviewsRepository.getStatistics s))
  /\ Forall (fun item => (1 <= ReviewsService.TopProperty.reviewCount item)%nat)
            (ReviewsService.topProperties
               (ReviewsService.transform_statistics
                  (ReviewsRepository.getStatistics s))).
Proof.
  assert (Htop :
    Forall (fun item => (1 <= ReviewsRepository.PropertyGroup.count item)%nat)
           (ReviewsRepository.byProperty (ReviewsRepository.getStatistics s))).
  { unfold ReviewsRepository.getStatistics. cbn [ReviewsRepository.byProperty].
    apply limit_Forall, sort_by_Forall.
    apply (groups_counted _ _ _ ReviewsRepository.PropertyGroup.count).
    reflexivity. }
  split; [apply overview_groups_counted|].
  split; [apply getOverviewStats_run|].
  split; [apply channel_groups_counted|].
  split; [apply getChannelBreakdown_defined|].
  split; [apply property_groups_counted|].
  split.
  { destruct (getPropertyBreakdown_run filters now s) as (projected & _ & Hrun).
    eauto. }
  split; [exact Htop|].
  unfold ReviewsService.transform_statistics. cbn [ReviewsService.topProperties].
  apply Forall_map. eapply Forall_impl; [exact Htop|]. auto.
Qed.

(** ** Performance tiers and order *)

Lemma leb_true (a b : option Q) :
  Mongo.leb a b = true <-> Spec.below a b \/ Spec.level a b.
Proof.
  destruct a as [x|], b as [y|]; cbn.
  - rewrite Qle_bool_iff. split; [intros H | intros [H | H]]; lra.
  - split; [discriminate | tauto].
  - split; auto.
  - split; auto.
Qed.

Lemma leb_false (a b : option Q) : Mongo.leb a b = false <-> Spec.below b a.
Proof.
  destruct a as [x|], b as [y|]; cbn.
  - rewrite <- not_true_iff_false, Qle_bool_iff. split; intros H; lra.
  - split; auto.
  - split; [discriminate | tauto].
  - split; [discriminate | tauto].
Qed.

Lemma level_sym (a b : option Q) : Spec.level a b <-> Spec.level b a.
Proof. destruct a, b; cbn; try tauto. split; intros H; now symmetry. Qed.

Lemma property_before_ranks (a b : AnalyticsService.Property.t) :
  Mongo.by_leb AnalyticsService.property_before a b <-> Spec.ranks_before a b.
Proof.
  unfold Mongo.by_leb, AnalyticsService.property_before, Spec.ranks_before.
  rewrite andb_true_iff, orb_true_iff, negb_true_iff, Nat.leb_le.
  rewrite leb_true, leb_false.
  rewrite (level_sym (AnalyticsService.Property.avgRating b)). tauto.
Qed.

#[local] Instance property_before_total :
  Total (Mongo.by_leb AnalyticsService.property_before).
Proof.
  intros a b. rewrite !property_before_ranks. unfold Spec.ranks_before.
  destruct (AnalyticsService.Property.avgRating a) as [x|],
           (AnalyticsService.Property.avgRating b) as [y|]; cbn; try tauto.
  - destruct (Qlt_le_dec x y); [tauto|]. destruct (Qlt_le_dec y x); [tauto|].
    assert (x == y) by lra. assert (y == x) by lra.
    destruct (Nat.le_ge_cases (AnalyticsService.Property.totalReviews a)
                (AnalyticsService.Property.totalReviews b)); tauto.
  - destruct (Nat.le_ge_cases (AnalyticsService.Property.totalReviews a)
                (AnalyticsService.Property.totalReviews b)); tauto.
Qed.

#[local] Instance property_before_transitive :
  Transitive (Mongo.by_leb AnalyticsService.property_before).
Proof.
  intros a b c. rewrite !property_before_ranks. unfold Spec.ranks_before.
  destruct (AnalyticsService.Property.avgRating a) as [x|],
           (AnalyticsService.Property.avgRating b) as [y|],
           (AnalyticsService.Property.avgRating c) as [z|]; cbn;
    intros [H | [H H']] [G | [G G']]; try tauto;
    try (left; lra); try (right; split; [lra | lia]); try (right; split; [tauto | lia]).
Qed.

Lemma performance_of_tier (avgRating : option Q) :
  Spec.tier_of avgRating (AnalyticsService.performance_of avgRating).
Proof.
  unfold AnalyticsService.performance_of, Mongo.gte, Spec.tier_of.
  destruct avgRating as [a|]; cbn; [|reflexivity].
  destruct (Qle_bool (17 # 2) a) eqn:E1;
    [apply Qle_bool_iff in E1 | apply not_true_iff_false in E1;
                                rewrite Qle_bool_iff in E1];
    [repeat split; intros; try discriminate; try lra; auto|].
  destruct (Qle_bool 7 a) eqn:E2;
    [apply Qle_bool_iff in E2 | apply not_true_iff_false in E2;
                                rewrite Qle_bool_iff in E2];
    [repeat split; intros; try discriminate; try lra; auto|].
  destruct (Qle_bool 5 a) eqn:E3;
    [apply Qle_bool_iff in E3 | apply not_true_iff_false in E3;
                                rewrite Qle_bool_iff in E3];
    repeat split; intros; try discriminate; try lra; auto.
Qed.

Lemma StronglySorted_weaken {A} (R R' : relation A) (l : list A) :
  (forall a b, R a b -> R' a b) -> StronglySorted R l -> StronglySorted R' l.
Proof.
  intros HR. induction 1 as [|a l Hl IH Ha]; constructor; [assumption|].
  eapply Forall_impl; [exact Ha|]. auto.
Qed.

Lemma Forall2_sources {A B} (Q : A -> B -> Prop) (xs : list A) (ys : list B) :
  Forall2 Q xs ys -> Forall (fun y => exists x, In x xs /\ Q x y) ys.
Proof.
  induction 1 as [|x y xs ys Hxy Hrest IH]; constructor.
  - exists x. split; [now left | assumption].
  - eapply Forall_impl; [exact IH|].
    intros y' (x' & Hin & Hq). exists x'. split; [now right | assumption].
Qed.

Lemma property_project_fields (g : AnalyticsService.PropertyGroup.t)
    (e : AnalyticsService.Property.t) :
  AnalyticsService.property_project g = Ok e ->
  AnalyticsService.Property._id e = AnalyticsService.PropertyGroup._id g
  /\ AnalyticsService.Property.totalReviews e
     = AnalyticsService.PropertyGroup.totalReviews g
  /\ AnalyticsService.Property.avgRating e
     = Mongo.round2 (AnalyticsService.PropertyGroup.avgRating g)
  /\ AnalyticsService.Property.performance e
     = AnalyticsService.performance_of (AnalyticsService.PropertyGroup.avgRating g).
Proof.
  unfold AnalyticsService.property_project.
  destruct (AnalyticsService.percentage _ _); [discriminate|].
  cbn. intros [= <-]. auto.
Qed.

(** C8, as the code has it.  The performance tier of an entry is the band
    of the group's average before rounding ("excellent" from 8.5, "good"
    from 7, "fair" from 5, "needs_improvement" below 5 or without an
    average), while the entry's [avgRating] is that average rounded to two
    decimals; the entries are sorted by [avgRating] descending, ties by
    [totalReviews] descending. *)
Theorem propertyBreakdown_tiers_and_order `{RT : Runtime}
    (filters : AnalyticsFilterDto.t) (now : Z) (s : Model.Store) :
  exists breakdown,
    AnalyticsService.getPropertyBreakdown filters now s = Ok breakdown
    /\ Forall
         (fun e =>
            exists g,
              In g (AnalyticsService.property_groups filters s)
              /\ AnalyticsService.Property._id e
                 = AnalyticsService.PropertyGroup._id g
              /\ AnalyticsService.Property.avgRating e
                 = Mongo.round2 (AnalyticsService.PropertyGroup.avgRating g)
              /\ Spec.tier_of (AnalyticsService.PropertyGroup.avgRating g)
                              (AnalyticsService.Property.performance e))
         (AnalyticsService.properties breakdown)
    /\ StronglySorted Spec.ranks_before (AnalyticsService.properties breakdown).
Proof.
  destruct (getPropertyBreakdown_run filters now s) as (projected & Hf & Hrun).
  eexists. split; [exact Hrun|]. cbn [AnalyticsService.properties]. split.
  - apply sort_by_Forall. apply Forall2_sources in Hf.
    eapply Forall_impl; [exact Hf|].
    intros e (g & Hin & Hp). exists g.
    destruct (property_project_fields g e Hp) as (Hid & _ & Havg & Hperf).
    split; [assumption|]. split; [assumption|]. split; [assumption|].
    rewrite Hperf. apply performance_of_tier.
  - apply StronglySorted_weaken
      with (R := Mongo.by_leb AnalyticsService.property_before).
    + intros a b. apply property_before_ranks.
    + unfold Mongo.sort_by. apply StronglySorted_merge_sort; apply _.
Qed.

(** C8 as stated fails: a property whose reviews average 8.497 is reported
    with [avgRating] 8.5 and the tier "good". *)
Lemma rounded_average_at_threshold_is_good :
  let created :=
    ReviewsRepository.create
      (ReviewsService.transformCreateDtoToEntity (RT := Sample.runtime)
         (Sample.create_dto 1 [ReviewCategory.mk "cleanliness" (8497 # 1000)]))
      0 (Sample.store []) in
  exists stored e,
    fst created = Ok stored
    /\ AnalyticsService.getPropertyBreakdown (RT := Sample.runtime)
         (AnalyticsFilterDto.mk None None None None None) 0 (snd created)
       = Ok {| AnalyticsService.properties := [e];
               AnalyticsService.totalProperties := 1;
               AnalyticsService.generatedAt := 0 |}
    /\ Spec.is_number (AnalyticsService.Property.avgRating e) (17 # 2)
    /\ AnalyticsService.Property.performance e = "good"
    /\ AnalyticsService.Property.performance e <> "excellent".
Proof.
  cbn zeta. eexists _, _.
  split; [vm_compute; reflexivity|].
  split; [vm_compute; reflexivity|].
  cbn. split; [reflexivity|]. split; [reflexivity | discriminate].
Qed.

(** * Further properties *)

(** ** Listing identifiers *)

Lemma slug_char_fixed (c : ascii) :
  Js.is_lower_alnum c || (nat_of_ascii c =? 45)%nat = true ->
  Js.lower_char c = c /\ Js.is_space c = false.
Proof.
  destruct c as [[] [] [] [] [] [] [] []]; vm_compute; intros H;
    try discriminate H; split; reflexivity.
Qed.

Lemma strip_other_chars (s : string) :
  Forall (fun c => Js.is_lower_alnum c || (nat_of_ascii c =? 45)%nat = true
                   \/ Js.is_space c = true)
         (list_ascii_of_string (Js.strip_other s)).
Proof.
  induction s as [|c s IH]; cbn; [constructor|].
  destruct (Js.is_lower_alnum c) eqn:Ea; cbn.
  - constructor; [left; now rewrite Ea | exact IH].
  - destruct (Js.is_space c) eqn:Es; cbn.
    + constructor; [now right | exact IH].
    + destruct (nat_of_ascii c =? 45)%nat eqn:Eh; [|exact IH].
      constructor; [left; now rewrite Ea, Eh | exact IH].
Qed.

Lemma spaces_to_hyphen_chars (in_run : bool) (s : string) :
  Forall (fun c => Js.is_lower_alnum c || (nat_of_ascii c =? 45)%nat = true
                   \/ Js.is_space c = true)
         (list_ascii_of_string s) ->
  Forall (fun c => Js.is_lower_alnum c || (nat_of_ascii c =? 45)%nat = true)
         (list_ascii_of_string (Js.spaces_to_hyphen in_run s)).
Proof.
  revert in_run. induction s as [|c s IH]; intros in_run H; cbn; [constructor|].
  cbn in H. apply Forall_cons in H. destruct H as [Hc Hs].
  destruct (Js.is_space c) eqn:Es.
  - destruct in_run; [now apply IH|]. cbn. constructor; [reflexivity | now apply IH].
  - cbn. constructor; [|now apply IH].
    destruct Hc as [Hc | Hc]; [exact Hc | congruence].
Qed.

Lemma substring0_chars (P : ascii -> Prop) (n : nat) (s : string) :
  Forall P (list_ascii_of_string s) ->
  Forall P (list_ascii_of_string (Js.substring0 n s)).
Proof.
  revert s. induction n as [|n IH]; intros [|c s] H; cbn; try constructor.
  - cbn in H. apply Forall_cons in H. tauto.
  - cbn in H. apply Forall_cons in H. apply IH. tauto.
Qed.

Lemma substring0_length (n : nat) (s : string) :
  (String.length (Js.substring0 n s) <= n)%nat.
Proof.
  revert s. induction n as [|n IH]; intros [|c s]; cbn; try lia.
  specialize (IH s). lia.
Qed.

Lemma substring0_short (n : nat) (s : string) :
  (String.length s <= n)%nat -> Js.substring0 n s = s.
Proof.
  revert s. induction n as [|n IH]; intros [|c s]; cbn; intros H;
    try reflexivity; try lia.
  rewrite IH by lia. reflexivity.
Qed.

Lemma slug_fixed (s : string) :
  Forall (fun c => Js.is_lower_alnum c || (nat_of_ascii c =? 45)%nat = true)
         (list_ascii_of_string s) ->
  Js.toLowerCase s = s /\ Js.strip_other s = s
  /\ forall in_run, Js.spaces_to_hyphen in_run s = s.
Proof.
  induction s as [|c s IH]; cbn; intros H; [auto|].
  apply Forall_cons in H. destruct H as [Hc Hs].
  destruct (IH Hs) as (Hl & Hst & Hsp).
  destruct (slug_char_fixed c Hc) as [Hlc Hspace].
  rewrite Hlc, Hl, Hst, Hspace.
  apply orb_true_iff in Hc. split; [reflexivity|]. split.
  - destruct Hc as [-> | ->]; cbn; [reflexivity|].
    now rewrite orb_true_r.
  - intros in_run. now rewrite Hsp.
Qed.

(** A generated listing id holds at most 50 characters, each a lower-case
    letter, a digit or a hyphen. *)
Theorem generateListingId_shape (listingName : string) :
  (String.length (HostawayService.generateListingId listingName) <= 50)%nat
  /\ Forall (fun c => Js.is_lower_alnum c = true \/ c = "-"%char)
            (list_ascii_of_string (HostawayService.generateListingId listingName)).
Proof.
  unfold HostawayService.generateListingId. split; [apply substring0_length|].
  eapply Forall_impl.
  - apply substring0_chars, (spaces_to_hyphen_chars false), strip_other_chars.
  - intros c Hc. cbn in Hc. apply orb_true_iff in Hc.
    destruct Hc as [Hc | Hc]; [now left | right].
    apply Nat.eqb_eq in Hc. rewrite <- (ascii_nat_embedding c), Hc. reflexivity.
Qed.

(** Generating a listing id from a generated listing id changes nothing. *)
Theorem generateListingId_idempotent (listingName : string) :
  HostawayService.generateListingId
    (HostawayService.generateListingId listingName)
  = HostawayService.generateListingId listingName.
Proof.
  set (slugged := HostawayService.generateListingId listingName).
  assert (Hchars :
    Forall (fun c => Js.is_lower_alnum c || (nat_of_ascii c =? 45)%nat = true)
           (list_ascii_of_string slugged)).
  { unfold slugged, HostawayService.generateListingId.
    apply substring0_chars, (spaces_to_hyphen_chars false), strip_other_chars. }
  assert (Hlen : (String.length slugged <= 50)%nat)
    by apply substring0_length.
  destruct (slug_fixed slugged Hchars) as (Hl & Hst & Hsp).
  unfold HostawayService.generateListingId at 1.
  rewrite Hl, Hst, Hsp. now apply substring0_short.
Qed.

(** ** Averages stay on the rating scale *)

Lemma sum_bounds {A} (f : A -> Q) (xs : list A) (lo hi : Q) :
  Forall (fun x => lo <= f x /\ f x <= hi) xs ->
  lo * inject_Z (Z.of_nat (length xs)) <= fold_right Qplus 0 (map f xs)
  /\ fold_right Qplus 0 (map f xs) <= hi * inject_Z (Z.of_nat (length xs)).
Proof.
  induction 1 as [|x xs [Hlo Hhi] Hxs [IHlo IHhi]].
  - cbn [length map fold_right]. change (inject_Z (Z.of_nat 0)) with 0. lra.
  - cbn [length map fold_right]. rewrite Nat2Z.inj_succ, <- Z.add_1_r.
    rewrite inject_Z_plus. change (inject_Z 1) with 1. lra.
Qed.

Lemma mean_bounds {A} (f : A -> Q) (xs : list A) (lo hi : Q) :
  xs <> [] ->
  Forall (fun x => lo <= f x /\ f x <= hi) xs ->
  lo <= fold_right Qplus 0 (map f xs) / inject_Z (Z.of_nat (length xs))
  /\ fold_right Qplus 0 (map f xs) / inject_Z (Z.of_nat (length xs)) <= hi.
Proof.
  intros Hne H. destruct (sum_bounds f xs lo hi H) as [Hlo Hhi].
  assert (Hn : 0 < inject_Z (Z.of_nat (length xs))).
  { change 0 with (inject_Z 0). rewrite <- Zlt_Qlt.
    destruct xs; [congruence | cbn; lia]. }
  split.
  - apply Qle_shift_div_l; assumption.
  - apply Qle_shift_div_r; assumption.
Qed.

Lemma toFixed_2_scale (x : Q) : 0 <= x -> x <= 10 ->
  0 <= Js.toFixed 2 x /\ Js.toFixed 2 x <= 10.
Proof.
  intros H0 H10. unfold Js.toFixed. change (Js.pow10 2) with 100.
  destruct (Qlt_le_dec x 0) as [Hneg|_]; [lra|].
  assert (Hlo : (0 <= Qfloor (x * 100 + (1 # 2)))%Z).
  { change 0%Z with (Qfloor 0). apply Qfloor_resp_le. lra. }
  assert (Hhi : (Qfloor (x * 100 + (1 # 2)) <= 1000)%Z).
  { change 1000%Z with (Qfloor (2001 # 2)). apply Qfloor_resp_le. lra. }
  rewrite Zle_Qle in Hlo, Hhi.
  change (inject_Z 0) with 0 in Hlo. change (inject_Z 1000) with 1000 in Hhi.
  split.
  - apply Qle_shift_div_l; lra.
  - apply Qle_shift_div_r; lra.
Qed.

(** When every category rating lies between 0 and 10, so does the average
    that the normalizer computes. *)
Theorem calculateAverageRating_on_scale (categories : list ReviewCategory.t) :
  Forall (fun c => 0 <= ReviewCategory.rating c /\ ReviewCategory.rating c <= 10)
         categories ->
  0 <= HostawayService.calculateAverageRating categories
  /\ HostawayService.calculateAverageRating categories <= 10.
Proof.
  intros H. unfold HostawayService.calculateAverageRating.
  destruct (length categories =? 0)%nat eqn:El; [lra|].
  assert (Hne : categories <> []) by (intros ->; discriminate).
  destruct (mean_bounds ReviewCategory.rating categories 0 10 Hne H) as [Hlo Hhi].
  apply toFixed_2_scale; rewrite sum_by_map; assumption.
Qed.

Lemma calculateAverageRating_on_scale_witness :
  0 <= HostawayService.calculateAverageRating
         [ReviewCategory.mk "cleanliness" 10; ReviewCategory.mk "value" 9;
          ReviewCategory.mk "location" 10]
  /\ HostawayService.calculateAverageRating
       [ReviewCategory.mk "cleanliness" 10; ReviewCategory.mk "value" 9;
        ReviewCategory.mk "location" 10] <= 10.
Proof.
  apply calculateAverageRating_on_scale.
  repeat constructor; cbn; lra.
Defined.

(** ** What normalization keeps *)

Lemma category_copy (cats : list ReviewCategory.t) :
  map (fun cat =>
         {| ReviewCategory.category := ReviewCategory.category cat;
            ReviewCategory.rating := ReviewCategory.rating cat |}) cats
  = cats.
Proof.
  induction cats as [|[c r] cats IH]; cbn; [reflexivity|]. now rewrite IH.
Qed.

Lemma mapM_normalize `{RT : Runtime} (reviews : list HostawayReview.t)
    (w : HostawayService.World) :
  HostawayService.normalizeReviews reviews w
  = (map (fun r => fst (HostawayService.normalizeReview r w)) reviews, w).
Proof.
  unfold HostawayService.normalizeReviews.
  induction reviews as [|r rs IH]; [reflexivity|].
  cbn [HostawayService.mapM map].
  unfold HostawayService.bind, HostawayService.ret,
    HostawayService.normalizeReview in *. cbn in *.
  rewrite IH. reflexivity.
Qed.

(** Normalizing a batch returns one record per raw review, in the same
    order; each keeps the raw id and the category list as they are, is
    tagged with the channel "hostaway", carries the raw listing id when there
    is a non-empty one, and never carries an empty private review. *)
Theorem normalizeReviews_keeps `{RT : Runtime}
    (reviews : list HostawayReview.t) (w : HostawayService.World) :
  Forall2
    (fun raw normalized =>
       NormalizedReview.hostawayId normalized = HostawayReview.id raw
       /\ NormalizedReview.reviewCategories normalized
          = HostawayReview.reviewCategory raw
       /\ NormalizedReview.channel normalized = "hostaway"
       /\ NormalizedReview.privateReview normalized <> Some ""
       /\ match HostawayReview.listingId raw with
          | Some (String c r) =>
              NormalizedReview.listingId normalized = String c r
          | _ =>
              NormalizedReview.listingId normalized
              = HostawayService.generateListingId (HostawayReview.listingName raw)
          end)
    reviews (fst (HostawayService.normalizeReviews reviews w)).
Proof.
  rewrite mapM_normalize. cbn [fst].
  induction reviews as [|r rs IH]; cbn [map]; constructor; [|exact IH].
  cbn. rewrite category_copy.
  repeat split.
  - destruct (HostawayReview.privateReview r) as [[|c p]|]; cbn; discriminate.
  - destruct (HostawayReview.listingId r) as [[|c p]|]; reflexivity.
Qed.

(** ** The store after each service method *)

Lemma store_eta (s : Model.Store) :
  {| Model.docs := Model.docs s; Model.issued := Model.issued s |} = s.
Proof. now destruct s. Qed.

Lemma state_eta (st : ReviewsService.State) :
  {| ReviewsService.db := ReviewsService.db st;
     ReviewsService.cache := ReviewsService.cache st |} = st.
Proof. now destruct st. Qed.

Lemma update_first_map {B} (g : Review.t -> B) (p : Review.t -> bool)
    (f : Review.t -> Review.t) (l : list Review.t) :
  (forall r, p r = true -> g (f r) = g r) ->
  map g (snd (ReviewsRepository.update_first p f l)) = map g l.
Proof.
  intros Hg. induction l as [|r l IH]; cbn; [reflexivity|].
  destruct (p r) eqn:E; cbn.
  - now rewrite Hg.
  - destruct (ReviewsRepository.update_first p f l) as [res rest]. cbn in *.
    now rewrite IH.
Qed.

Lemma update_first_none (p : Review.t -> bool) (f : Review.t -> Review.t)
    (l : list Review.t) :
  fst (ReviewsRepository.update_first p f l) = None ->
  snd (ReviewsRepository.update_first p f l) = l.
Proof.
  induction l as [|r l IH]; cbn; [reflexivity|].
  destruct (p r); [discriminate|].
  destruct (ReviewsRepository.update_first p f l) as [res rest]. cbn in *.
  intros H. now rewrite IH.
Qed.

Lemma remove_first_find (p : Review.t -> bool) (l : list Review.t) :
  fst (ReviewsRepository.remove_first p l) = find p l.
Proof.
  induction l as [|r l IH]; cbn; [reflexivity|].
  destruct (p r); [reflexivity|].
  destruct (ReviewsRepository.remove_first p l) as [res rest]. exact IH.
Qed.

Lemma remove_first_split (p : Review.t -> bool) (l : list Review.t) :
  match find p l with
  | Some r =>
      exists before after,
        l = before ++ r :: after
        /\ snd (ReviewsRepository.remove_first p l) = before ++ after
        /\ Forall (fun x => p x = false) before
  | None => snd (ReviewsRepository.remove_first p l) = l
  end.
Proof.
  induction l as [|x l IH]; cbn; [reflexivity|].
  destruct (p x) eqn:E; cbn.
  - exists [], l. repeat split. constructor.
  - destruct (ReviewsRepository.remove_first p l) as [res rest]. cbn in *.
    destruct (find p l) as [r|].
    + destruct IH as (before & after & -> & -> & Hb).
      exists (x :: before), after. repeat split. constructor; assumption.
    + now rewrite IH.
Qed.

Section StoreAfter.
Context {RT : Runtime}.

Lemma syncReviews_db reviews now st :
  ReviewsService.db (snd (ReviewsService.syncReviews reviews now st))
  = if (length reviews =? 0)%nat then ReviewsService.db st
    else snd (ReviewsRepository.bulkUpsert reviews now (ReviewsService.db st)).
Proof.
  unfold ReviewsService.syncReviews. destruct (_ =? _)%nat; [reflexivity|].
  run_service. destruct (ReviewsRepository.bulkUpsert _ _ _) as [n db'].
  cbv beta iota. rewrite invalidateCache_run. reflexivity.
Qed.

Lemma create_db dto now st :
  ReviewsService.db (snd (ReviewsService.create dto now st))
  = match ReviewsRepository.findByHostawayId (CreateReviewDto.hostawayId dto)
            (ReviewsService.db st) with
    | Some _ => ReviewsService.db st
    | None =>
        snd (ReviewsRepository.create
               (ReviewsService.transformCreateDtoToEntity dto) now
               (ReviewsService.db st))
    end.
Proof.
  unfold ReviewsService.create. run_service.
  destruct (ReviewsRepository.findByHostawayId _ _); [reflexivity|].
  destruct (ReviewsRepository.create _ _ _) as [[e|review] db']; [reflexivity|].
  cbv beta iota. rewrite invalidateCache_run. reflexivity.
Qed.

Lemma update_db id dto now st :
  ReviewsService.db (snd (ReviewsService.update id dto now st))
  = match ReviewsRepository.findById id (ReviewsService.db st) with
    | inr (Some review) =>
        snd (ReviewsRepository.update id
               (ReviewsService.update_updateData dto review now) now
               (ReviewsService.db st))
    | _ => ReviewsService.db st
    end.
Proof.
  unfold ReviewsService.update. run_service.
  destruct (ReviewsRepository.findById _ _) as [e|[review|]];
    [reflexivity | | reflexivity].
  destruct (ReviewsRepository.update _ _ _ _) as [[e|res] db'];
    [reflexivity|].
  cbv beta iota. rewrite invalidateCache_run. reflexivity.
Qed.

Lemma approveReview_db id approvedBy now st :
  ReviewsService.db (snd (ReviewsService.approveReview id approvedBy now st))
  = match (if Js.is_numeric id
           then Ok (Js.parseInt id
                    ≫= fun h =>
                         ReviewsRepository.findByHostawayId h
                           (ReviewsService.db st))
           else ReviewsRepository.findById id (ReviewsService.db st)) with
    | inr (Some review) =>
        snd (ReviewsRepository.update (ObjectId.toString (Review._id review))
               (ReviewsService.approveReview_updateData approvedBy now) now
               (ReviewsService.db st))
    | _ => ReviewsService.db st
    end.
Proof.
  unfold ReviewsService.approveReview. run_service.
  destruct (Js.is_numeric id).
  - destruct (Js.parseInt id ≫= _) as [review|]; [|reflexivity].
    cbn. destruct (ReviewsRepository.update _ _ _ _) as [[e|res] db'];
      [reflexivity|].
    cbv beta iota. rewrite ?invalidateCache_run. reflexivity.
  - destruct (ReviewsRepository.findById _ _) as [e|[review|]];
      [reflexivity | | reflexivity].
    cbn. destruct (ReviewsRepository.update _ _ _ _) as [[e|res] db'];
      [reflexivity|].
    cbv beta iota. rewrite ?invalidateCache_run. reflexivity.
Qed.

Lemma bulkApprove_db dto now st :
  ReviewsService.db (snd (ReviewsService.bulkApprove dto now st))
  = if (length (BulkApproveDto.reviewIds dto) =? 0)%nat
    then ReviewsService.db st
    else snd (ReviewsRepository.bulkApprove (BulkApproveDto.reviewIds dto)
                (default "admin" (BulkApproveDto.approvedBy dto)) now
                (ReviewsService.db st)).
Proof.
  unfold ReviewsService.bulkApprove. destruct (_ =? _)%nat; [reflexivity|].
  run_service.
  destruct (ReviewsRepository.bulkApprove _ _ _ _) as [[e|n] db'];
    [reflexivity|].
  cbv beta iota. rewrite invalidateCache_run. reflexivity.
Qed.

Lemma remove_db id st :
  ReviewsService.db (snd (ReviewsService.remove id st))
  = snd (ReviewsRepository.delete id (ReviewsService.db st)).
Proof.
  unfold ReviewsService.remove. run_service.
  destruct (ReviewsRepository.delete _ _) as [[e|[review|]] db'];
    [reflexivity | | reflexivity].
  cbv beta iota. rewrite invalidateCache_run. reflexivity.
Qed.

End StoreAfter.

(** ** The external identifier stays unique *)

Lemma find_none_not_in (h : Z) (l : list Review.t) :
  find (fun r => bool_decide (Review.hostawayId r = h)) l = None ->
  ~ In h (map Review.hostawayId l).
Proof.
  induction l as [|r l IH]; cbn; [tauto|].
  destruct (bool_decide (Review.hostawayId r = h)) eqn:E; [discriminate|].
  apply bool_decide_eq_false in E. intros Hn [H | H]; [congruence | now apply IH].
Qed.

Lemma NoDup_snoc {A} (l : list A) (x : A) :
  List.NoDup l -> ~ In x l -> List.NoDup (l ++ [x]).
Proof.
  induction 1 as [|y l Hy Hl IH]; cbn; intros Hx.
  - constructor; [intros [] | constructor].
  - constructor.
    + rewrite in_app_iff. cbn. intros [H | [H | []]]; [contradiction|].
      apply Hx. now left.
    + apply IH. intros H. apply Hx. now right.
Qed.

Lemma upsert_one_hostawayIds now acc n :
  List.NoDup (map Review.hostawayId (Model.docs (snd acc))) ->
  List.NoDup (map Review.hostawayId
                (Model.docs (snd (ReviewsRepository.upsert_one now acc n)))).
Proof.
  destruct acc as [res s]. cbn [snd]. intros Hs.
  unfold ReviewsRepository.upsert_one.
  set (p := fun r => bool_decide (Review.hostawayId r = NormalizedReview.hostawayId n)).
  set (f := Model.apply_update now (PartialReview.of_normalized n)).
  pose proof (update_first_find p f (Model.docs s)) as Hf.
  pose proof (update_first_map Review.hostawayId p f (Model.docs s)) as Hm.
  destruct (ReviewsRepository.update_first p f (Model.docs s))
    as [[[before after]|] docs'].
  - cbn in *. rewrite Hm; [assumption|].
    intros r Hr. unfold p in Hr. apply bool_decide_eq_true in Hr.
    unfold f. cbn. now rewrite Hr.
  - cbn in *. rewrite map_app. apply NoDup_snoc; [assumption|].
    cbn. apply find_none_not_in.
    destruct (find p (Model.docs s)) eqn:E; [discriminate | exact E].
Qed.

Lemma bulkUpsert_fold_hostawayIds now reviews acc :
  List.NoDup (map Review.hostawayId (Model.docs (snd acc))) ->
  List.NoDup (map Review.hostawayId
                (Model.docs
                   (snd (fold_left (ReviewsRepository.upsert_one now) reviews acc)))).
Proof.
  revert acc. induction reviews as [|n ns IH]; intros acc H; cbn; [assumption|].
  apply IH, upsert_one_hostawayIds, H.
Qed.

Lemma bulkUpsert_hostawayIds reviews now s :
  List.NoDup (map Review.hostawayId (Model.docs s)) ->
  List.NoDup (map Review.hostawayId
                (Model.docs (snd (ReviewsRepository.bulkUpsert reviews now s)))).
Proof.
  intros H. unfold ReviewsRepository.bulkUpsert.
  pose proof (bulkUpsert_fold_hostawayIds now reviews
                ({| ReviewsRepository.upsertedCount := 0;
                    ReviewsRepository.modifiedCount := 0 |}, s) H) as Hf.
  destruct (fold_left _ _ _) as [result s']. exact Hf.
Qed.

Lemma pre_save_hostawayId (r : Review.t) :
  Review.hostawayId (ReviewsRepository.pre_save r) = Review.hostawayId r.
Proof. unfold ReviewsRepository.pre_save. destruct (0 <? _)%nat; reflexivity. Qed.

Lemma repository_create_hostawayIds data now s :
  List.NoDup (map Review.hostawayId (Model.docs s)) ->
  List.NoDup (map Review.hostawayId
                (Model.docs (snd (ReviewsRepository.create data now s)))).
Proof.
  intros H. unfold ReviewsRepository.create.
  destruct (Model.construct _ now data) as [e|r0]; [assumption|].
  unfold ReviewsRepository.save.
  destruct (ReviewsRepository.validate r0); [|assumption].
  destruct (ReviewsRepository.findByHostawayId _ s) eqn:E; [assumption|].
  cbn. rewrite map_app. apply NoDup_snoc; [assumption|].
  cbn. apply find_none_not_in. exact E.
Qed.

Lemma repository_update_map {B} (g : Review.t -> B) id u now s :
  (forall r, g (Model.apply_update now u r) = g r) ->
  map g (Model.docs (snd (ReviewsRepository.update id u now s)))
  = map g (Model.docs s).
Proof.
  intros Hg. unfold ReviewsRepository.update.
  destruct (ObjectId.cast id) as [key|]; [|reflexivity].
  pose proof (update_first_map g (fun r => bool_decide (Review._id r = key))
                (Model.apply_update now u) (Model.docs s)) as Hm.
  destruct (ReviewsRepository.update_first _ _ _) as [res docs'].
  cbn in *. apply Hm. auto.
Qed.

Lemma repository_bulkApprove_map {B} (g : Review.t -> B) ids approver now s :
  (forall r, g (Model.apply_update now
                  (ReviewsRepository.bulkApprove_set approver now) r) = g r) ->
  map g (Model.docs (snd (ReviewsRepository.bulkApprove ids approver now s)))
  = map g (Model.docs s).
Proof.
  intros Hg. unfold ReviewsRepository.bulkApprove.
  destruct (mapM ObjectId.cast ids) as [keys|]; [|reflexivity]. cbn.
  rewrite map_map. apply map_ext. intros r.
  destruct (bool_decide _); [apply Hg | reflexivity].
Qed.

Lemma delete_NoDup {B} (g : Review.t -> B) id s :
  List.NoDup (map g (Model.docs s)) ->
  List.NoDup (map g (Model.docs (snd (ReviewsRepository.delete id s)))).
Proof.
  intros H. unfold ReviewsRepository.delete.
  destruct (ObjectId.cast id) as [key|]; [|assumption].
  pose proof (remove_first_split (fun r => bool_decide (Review._id r = key))
                (Model.docs s)) as Hsplit.
  destruct (ReviewsRepository.remove_first _ _) as [res docs']. cbn in *.
  destruct (find _ _) as [r|].
  - destruct Hsplit as (before & after & Hl & -> & _).
    rewrite Hl, map_app in H. cbn in H. apply List.NoDup_remove_1 in H.
    now rewrite map_app.
  - now rewrite Hsplit.
Qed.

Lemma update_updateData_content dto review now :
  let u := ReviewsService.update_updateData dto review now in
  PartialReview.hostawayId u = None
  /\ PartialReview.type u = None
  /\ PartialReview.status u = None
  /\ PartialReview.rating u = None
  /\ PartialReview.publicReview u = None
  /\ PartialReview.privateReview u = None
  /\ PartialReview.reviewCategories u = None
  /\ PartialReview.submittedAt u = None
  /\ PartialReview.guestName u = None
  /\ PartialReview.listingId u = None
  /\ PartialReview.listingName u = None
  /\ PartialReview.channel u = None
  /\ PartialReview.averageCategoryRating u = None.
Proof.
  unfold ReviewsService.update_updateData.
  destruct dto as [[[|]|] notes [[|c name]|]];
    destruct (Review.isApprovedForPublic review); cbn; repeat split.
Qed.

(** No method of the service breaks the uniqueness of the external
    identifier: when the stored reviews have pairwise distinct
    [hostawayId]s, they still have after a sync, a create, an update, an
    approval, a bulk approval or a removal, whether the method returns or
    throws. *)
Theorem hostawayId_stays_unique `{RT : Runtime} (st : ReviewsService.State)
    (now : Z) :
  List.NoDup (map Review.hostawayId (Model.docs (ReviewsService.db st))) ->
  let unique st' :=
    List.NoDup (map Review.hostawayId (Model.docs (ReviewsService.db st'))) in
  (forall reviews, unique (snd (ReviewsService.syncReviews reviews now st)))
  /\ (forall dto, unique (snd (ReviewsService.create dto now st)))
  /\ (forall id dto, unique (snd (ReviewsService.update id dto now st)))
  /\ (forall id approvedBy,
         unique (snd (ReviewsService.approveReview id approvedBy now st)))
  /\ (forall dto, unique (snd (ReviewsService.bulkApprove dto now st)))
  /\ (forall id, unique (snd (ReviewsService.remove id st))).
Proof.
  intros H unique. unfold unique. repeat split.
  - intros reviews. rewrite syncReviews_db.
    destruct (_ =? _)%nat; [assumption | now apply bulkUpsert_hostawayIds].
  - intros dto. rewrite create_db.
    destruct (ReviewsRepository.findByHostawayId _ _); [assumption|].
    now apply repository_create_hostawayIds.
  - intros id dto. rewrite update_db.
    destruct (ReviewsRepository.findById _ _) as [e|[review|]];
      [assumption | | assumption].
    rewrite repository_update_map; [assumption|].
    intros r. cbn.
    destruct (update_updateData_content dto review now) as (-> & _). reflexivity.
  - intros id approvedBy. rewrite approveReview_db.
    destruct (if Js.is_numeric id then _ else _) as [e|[review|]];
      [assumption | | assumption].
    rewrite repository_update_map; [assumption | reflexivity].
  - intros dto. rewrite bulkApprove_db.
    destruct (_ =? _)%nat; [assumption|].
    rewrite repository_bulkApprove_map; [assumption | reflexivity].
  - intros id. rewrite remove_db. now apply delete_NoDup.
Qed.

Lemma hostawayId_stays_unique_witness :
  List.NoDup
    (map Review.hostawayId
       (Model.docs
          (ReviewsService.db
             (snd (ReviewsService.syncReviews
                     [Sample.normalized 7453 [] 0; Sample.normalized 7454 [] 0;
                      Sample.normalized 7454 [] 0]
                     5 (Sample.state Sample.one_review)))))).
Proof.
  destruct (hostawayId_stays_unique (RT := Sample.runtime)
              (Sample.state Sample.one_review) 5) as (Hsync & _).
  - cbn. repeat constructor. intros [].
  - apply Hsync.
Defined.

(** ** What a sync leaves alone *)

(** The primary key and the approval metadata of a document. *)
Lemma upsert_one_keeps now acc n :
  let kept r :=
    (Review._id r, Review.isApprovedForPublic r, Review.approvedBy r,
     Review.approvedAt r, Review.managerNotes r) in
  let before := snd acc in
  let after := snd (ReviewsRepository.upsert_one now acc n) in
  let inserted :=
    (ReviewsRepository.upsertedCount (fst (ReviewsRepository.upsert_one now acc n))
     - ReviewsRepository.upsertedCount (fst acc))%nat in
  exists added,
    map kept (Model.docs after) = map kept (Model.docs before) ++ map kept added
    /\ length added = inserted
    /\ (ReviewsRepository.upsertedCount (fst acc)
        <= ReviewsRepository.upsertedCount
             (fst (ReviewsRepository.upsert_one now acc n)))%nat
    /\ Forall (fun r => Review.isApprovedForPublic r = false
                        /\ Review.approvedBy r = None
                        /\ Review.approvedAt r = None
                        /\ Review.managerNotes r = None) added.
Proof.
  destruct acc as [res s]. cbn zeta. cbn [fst snd].
  unfold ReviewsRepository.upsert_one.
  set (p := fun r => bool_decide (Review.hostawayId r = NormalizedReview.hostawayId n)).
  set (f := Model.apply_update now (PartialReview.of_normalized n)).
  pose proof (update_first_map
                (fun r => (Review._id r, Review.isApprovedForPublic r,
                           Review.approvedBy r, Review.approvedAt r,
                           Review.managerNotes r)) p f (Model.docs s)) as Hm.
  destruct (ReviewsRepository.update_first p f (Model.docs s))
    as [[[before after]|] docs'].
  - exists []. cbn in *. rewrite app_nil_r.
    split; [apply Hm; reflexivity|]. split; [lia|]. split; [lia | constructor].
  - eexists [_]. cbn. rewrite map_app. split; [reflexivity|].
    split; [lia|]. split; [lia|]. repeat constructor.
Qed.

(** A sync never changes the primary key, the approval flag, the approver,
    the approval time or the manager notes of a stored review, in place or in
    order; the reviews it inserts come after them, as many as it reports, and
    are not approved. *)
Theorem bulkUpsert_keeps_approval (reviews : list NormalizedReview.t) (now : Z)
    (s : Model.Store) :
  let kept r :=
    (Review._id r, Review.isApprovedForPublic r, Review.approvedBy r,
     Review.approvedAt r, Review.managerNotes r) in
  let result := ReviewsRepository.bulkUpsert reviews now s in
  exists added,
    map kept (Model.docs (snd result)) = map kept (Model.docs s) ++ map kept added
    /\ length added = ReviewsRepository.inserted (fst result)
    /\ Forall (fun r => Review.isApprovedForPublic r = false
                        /\ Review.approvedBy r = None
                        /\ Review.approvedAt r = None
                        /\ Review.managerNotes r = None) added.
Proof.
  cbn zeta. unfold ReviewsRepository.bulkUpsert.
  set (kept := fun r => (Review._id r, Review.isApprovedForPublic r,
                         Review.approvedBy r, Review.approvedAt r,
                         Review.managerNotes r)).
  assert (G : forall reviews acc,
    let final := fold_left (ReviewsRepository.upsert_one now) reviews acc in
    exists added,
      map kept (Model.docs (snd final))
      = map kept (Model.docs (snd acc)) ++ map kept added
      /\ (ReviewsRepository.upsertedCount (fst final)
          = ReviewsRepository.upsertedCount (fst acc) + length added)%nat
      /\ Forall (fun r => Review.isApprovedForPublic r = false
                          /\ Review.approvedBy r = None
                          /\ Review.approvedAt r = None
                          /\ Review.managerNotes r = None) added).
  { clear reviews. induction reviews as [|n ns IH]; intros acc; cbn zeta.
    - exists []. cbn. rewrite app_nil_r. repeat split; [lia | constructor].
    - cbn [fold_left].
      destruct (upsert_one_keeps now acc n) as (a1 & Hk1 & Hl1 & Hle & Hf1).
      destruct (IH (ReviewsRepository.upsert_one now acc n))
        as (a2 & Hk2 & Hl2 & Hf2).
      exists (a1 ++ a2). fold kept in Hk1. rewrite Hk2, Hk1.
      rewrite map_app, app_assoc, length_app.
      split; [reflexivity|]. split; [lia|]. apply Forall_app. auto. }
  destruct (G reviews ({| ReviewsRepository.upsertedCount := 0;
                          ReviewsRepository.modifiedCount := 0 |}, s))
    as (added & Hk & Hl & Hf).
  destruct (fold_left _ _ _) as [result s']. cbn in *.
  exists added. auto.
Qed.

(** ** A method that throws changes nothing *)

Lemma repository_create_throws data now s e :
  fst (ReviewsRepository.create data now s) = Throw e ->
  snd (ReviewsRepository.create data now s) = s.
Proof.
  unfold ReviewsRepository.create.
  destruct (Model.construct _ now data); [reflexivity|].
  unfold ReviewsRepository.save.
  destruct (ReviewsRepository.validate _); [|reflexivity].
  destruct (ReviewsRepository.findByHostawayId _ _); [reflexivity|].
  discriminate.
Qed.

Lemma delete_missing id s :
  fst (ReviewsRepository.delete id s) = Ok None ->
  snd (ReviewsRepository.delete id s) = s.
Proof.
  unfold ReviewsRepository.delete.
  destruct (ObjectId.cast id) as [key|]; [|discriminate].
  pose proof (remove_first_find (fun r => bool_decide (Review._id r = key))
                (Model.docs s)) as Hf.
  pose proof (remove_first_split (fun r => bool_decide (Review._id r = key))
                (Model.docs s)) as Hs.
  destruct (ReviewsRepository.remove_first _ _) as [res docs']. cbn in *.
  intros [= ->]. rewrite <- Hf in Hs. rewrite Hs. apply store_eta.
Qed.

Lemma repository_delete_throws id s e :
  fst (ReviewsRepository.delete id s) = Throw e ->
  snd (ReviewsRepository.delete id s) = s.
Proof.
  unfold ReviewsRepository.delete.
  destruct (ObjectId.cast id) as [key|]; [|reflexivity].
  destruct (ReviewsRepository.remove_first _ _) as [res docs']. discriminate.
Qed.

Lemma repository_update_throws id u now s e :
  fst (ReviewsRepository.update id u now s) = Throw e ->
  snd (ReviewsRepository.update id u now s) = s.
Proof.
  unfold ReviewsRepository.update.
  destruct (ObjectId.cast id) as [key|]; [|reflexivity].
  destruct (ReviewsRepository.update_first _ _ _) as [res docs']. discriminate.
Qed.

Lemma repository_bulkApprove_throws ids approver now s e :
  fst (ReviewsRepository.bulkApprove ids approver now s) = Throw e ->
  snd (ReviewsRepository.bulkApprove ids approver now s) = s.
Proof.
  unfold ReviewsRepository.bulkApprove.
  destruct (mapM ObjectId.cast ids) as [keys|]; [discriminate | reflexivity].
Qed.

(** Whenever a mutating method of the service throws, the store and the
    cache are exactly as before the call. *)
Theorem throwing_method_changes_nothing `{RT : Runtime}
    (st : ReviewsService.State) (now : Z) (e : Error) :
  (forall reviews,
      fst (ReviewsService.syncReviews reviews now st) = Throw e ->
      snd (ReviewsService.syncReviews reviews now st) = st)
  /\ (forall dto,
      fst (ReviewsService.create dto now st) = Throw e ->
      snd (ReviewsService.create dto now st) = st)
  /\ (forall id dto,
      fst (ReviewsService.update id dto now st) = Throw e ->
      snd (ReviewsService.update id dto now st) = st)
  /\ (forall id approvedBy,
      fst (ReviewsService.approveReview id approvedBy now st) = Throw e ->
      snd (ReviewsService.approveReview id approvedBy now st) = st)
  /\ (forall dto,
      fst (ReviewsService.bulkApprove dto now st) = Throw e ->
      snd (ReviewsService.bulkApprove dto now st) = st)
  /\ (forall id,
      fst (ReviewsService.remove id st) = Throw e ->
      snd (ReviewsService.remove id st) = st).
Proof.
  repeat split.
  - intros reviews. unfold ReviewsService.syncReviews.
    destruct (_ =? _)%nat; [reflexivity|]. run_service.
    destruct (ReviewsRepository.bulkUpsert _ _ _) as [n db'].
    cbv beta iota. rewrite invalidateCache_run. discriminate.
  - intros dto. unfold ReviewsService.create. run_service.
    destruct (ReviewsRepository.findByHostawayId _ _); [reflexivity|].
    pose proof (repository_create_throws
                  (ReviewsService.transformCreateDtoToEntity dto) now
                  (ReviewsService.db st)) as Hc.
    destruct (ReviewsRepository.create _ _ _) as [[e'|review] db'].
    + cbn in *. intros _. rewrite (Hc e' eq_refl). apply state_eta.
    + cbv beta iota. rewrite invalidateCache_run. discriminate.
  - intros id dto. unfold ReviewsService.update. run_service.
    destruct (ReviewsRepository.findById _ _) as [e'|[review|]];
      [reflexivity | | reflexivity].
    pose proof (repository_update_throws id
                  (ReviewsService.update_updateData dto review now) now
                  (ReviewsService.db st)) as Hu.
    destruct (ReviewsRepository.update _ _ _ _) as [[e'|res] db'].
    + cbn in *. intros _. rewrite (Hu e' eq_refl). apply state_eta.
    + cbv beta iota. rewrite invalidateCache_run. discriminate.
  - intros id approvedBy. unfold ReviewsService.approveReview. run_service.
    destruct (Js.is_numeric id).
    + destruct (Js.parseInt id ≫= _) as [review|]; [|reflexivity].
      cbn.
      pose proof (repository_update_throws
                    (ObjectId.toString (Review._id review))
                    (ReviewsService.approveReview_updateData approvedBy now) now
                    (ReviewsService.db st)) as Hu.
      destruct (ReviewsRepository.update _ _ _ _) as [[e'|res] db'].
      * cbn in *. intros _. rewrite (Hu e' eq_refl). apply state_eta.
      * cbv beta iota. rewrite ?invalidateCache_run. discriminate.
    + destruct (ReviewsRepository.findById _ _) as [e'|[review|]];
        [reflexivity | | reflexivity].
      cbn.
      pose proof (repository_update_throws
                    (ObjectId.toString (Review._id review))
                    (ReviewsService.approveReview_updateData approvedBy now) now
                    (ReviewsService.db st)) as Hu.
      destruct (ReviewsRepository.update _ _ _ _) as [[e'|res] db'].
      * cbn in *. intros _. rewrite (Hu e' eq_refl). apply state_eta.
      * cbv beta iota. rewrite ?invalidateCache_run. discriminate.
  - intros dto. unfold ReviewsService.bulkApprove.
    destruct (_ =? _)%nat; [reflexivity|]. run_service.
    pose proof (repository_bulkApprove_throws (BulkApproveDto.reviewIds dto)
                  (default "admin" (BulkApproveDto.approvedBy dto)) now
                  (ReviewsService.db st)) as Hb.
    destruct (ReviewsRepository.bulkApprove _ _ _ _) as [[e'|n] db'].
    + cbn in *. intros _. rewrite (Hb e' eq_refl). apply state_eta.
    + cbv beta iota. rewrite invalidateCache_run. discriminate.
  - intros id. unfold ReviewsService.remove. run_service.
    pose proof (delete_missing id (ReviewsService.db st)) as Hd.
    pose proof (repository_delete_throws id (ReviewsService.db st)) as Ht.
    destruct (ReviewsRepository.delete _ _) as [[e'|[review|]] db'].
    + cbn in *. intros _. rewrite (Ht e' eq_refl). apply state_eta.
    + cbv beta iota. rewrite invalidateCache_run. discriminate.
    + cbn in *. intros _. rewrite (Hd eq_refl). apply state_eta.
Qed.

Lemma throwing_method_changes_nothing_witness :
  snd (ReviewsService.create (RT := Sample.runtime)
         (Sample.create_dto 7453 []) 5 (Sample.state Sample.one_review))
  = Sample.state Sample.one_review.
Proof.
  destruct (throwing_method_changes_nothing (RT := Sample.runtime)
              (Sample.state Sample.one_review) 5
              (BadRequestException "Review with Hostaway ID 7453 already exists"))
    as (_ & Hcreate & _).
  apply Hcreate. vm_compute. reflexivity.
Defined.

(** ** Removal *)

Lemma find_app_none {A} (p : A -> bool) (l l' : list A) :
  Forall (fun x => p x = false) l -> find p (l ++ l') = find p l'.
Proof.
  induction 1 as [|x l Hx Hl IH]; cbn; [reflexivity|]. now rewrite Hx.
Qed.

(** Removing a review that exists returns it and takes exactly that
    document out of the store, the others keeping their order; when primary
    keys are unique, a lookup of the removed key then finds nothing. *)
Theorem remove_takes_one_out (id : string) (st : ReviewsService.State)
    (review : Review.t) :
  ReviewsRepository.findById id (ReviewsService.db st) = Ok (Some review) ->
  exists st' before after,
    ReviewsService.remove id st
    = (Ok {| ReviewsService.remove_message := "Review deleted successfully";
             ReviewsService.deletedReview := review |}, st')
    /\ Model.docs (ReviewsService.db st) = before ++ review :: after
    /\ Model.docs (ReviewsService.db st') = before ++ after
    /\ (List.NoDup (map Review._id (Model.docs (ReviewsService.db st))) ->
        ReviewsRepository.findById id (ReviewsService.db st') = Ok None).
Proof.
  intros Hfind. destruct (findById_cast _ _ _ Hfind) as (key & Hkey & Hfind').
  clear Hfind. rename Hfind' into Hfind.
  unfold ReviewsService.remove. run_service.
  unfold ReviewsRepository.delete, ReviewsRepository.findById in *.
  rewrite Hkey.
  pose proof (remove_first_find (fun r => bool_decide (Review._id r = key))
                (Model.docs (ReviewsService.db st))) as Hf.
  pose proof (remove_first_split (fun r => bool_decide (Review._id r = key))
                (Model.docs (ReviewsService.db st))) as Hs.
  rewrite Hfind in Hs, Hf.
  destruct (ReviewsRepository.remove_first _ _) as [res docs']. cbn in Hf, Hs.
  subst res. destruct Hs as (before & after & Hl & -> & Hb).
  unfold Ok. cbv beta iota. rewrite invalidateCache_run.
  eexists _, before, after. split; [reflexivity|]. split; [exact Hl|].
  split; [reflexivity|].
  intros Hnd. cbn. f_equal. rewrite find_app_none by exact Hb.
  rewrite Hl, map_app in Hnd. cbn in Hnd.
  apply List.NoDup_remove_2 in Hnd.
  destruct (find _ after) as [r|] eqn:E; [|reflexivity].
  exfalso. apply Hnd. rewrite in_app_iff. right.
  pose proof (find_holds _ _ _ E) as Hr. apply bool_decide_eq_true in Hr.
  pose proof (find_holds _ _ _ Hfind) as Hr'. apply bool_decide_eq_true in Hr'.
  rewrite Hr', <- Hr. apply in_map. eapply find_In. exact E.
Qed.

Lemma remove_takes_one_out_witness :
  exists st' before after,
    ReviewsService.remove (ObjectId.toString (Model.ObjectId 0))
      (Sample.state Sample.one_review)
    = (Ok {| ReviewsService.remove_message := "Review deleted successfully";
             ReviewsService.deletedReview :=
               Sample.review 0 7453
                 [ReviewCategory.mk "cleanliness" 10;
                  ReviewCategory.mk "communication" 8] (Some 9) |}, st')
    /\ Model.docs (ReviewsService.db (Sample.state Sample.one_review))
       = before ++ Sample.review 0 7453
                     [ReviewCategory.mk "cleanliness" 10;
                      ReviewCategory.mk "communication" 8] (Some 9) :: after
    /\ Model.docs (ReviewsService.db st') = before ++ after.
Proof.
  destruct (remove_takes_one_out (ObjectId.toString (Model.ObjectId 0))
              (Sample.state Sample.one_review)
              (Sample.review 0 7453
                 [ReviewCategory.mk "cleanliness" 10;
                  ReviewCategory.mk "communication" 8] (Some 9)))
    as (st' & before & after & Hrun & Hl & Hl' & _).
  - reflexivity.
  - exists st', before, after. auto.
Defined.

(** ** Manager actions leave the review itself alone *)

(** What a guest wrote and what is computed from it. *)
Lemma apply_update_content now u r :
  PartialReview.hostawayId u = None ->
  PartialReview.type u = None ->
  PartialReview.status u = None ->
  PartialReview.rating u = None ->
  PartialReview.publicReview u = None ->
  PartialReview.privateReview u = None ->
  PartialReview.reviewCategories u = None ->
  PartialReview.submittedAt u = None ->
  PartialReview.guestName u = None ->
  PartialReview.listingId u = None ->
  PartialReview.listingName u = None ->
  PartialReview.channel u = None ->
  PartialReview.averageCategoryRating u = None ->
  let content x :=
    (Review._id x, Review.hostawayId x, Review.type x, Review.status x,
     Review.rating x, Review.publicReview x, Review.privateReview x,
     Review.reviewCategories x, Review.submittedAt x, Review.guestName x,
     Review.listingId x, Review.listingName x, Review.channel x,
     Review.averageCategoryRating x, Review.createdAt x) in
  content (Model.apply_update now u r) = content r.
Proof.
  intros. subst content. cbn.
  repeat match goal with H : _ = None |- _ => rewrite H; clear H end.
  reflexivity.
Qed.

(** An update, an approval and a bulk approval through the service keep
    every stored review's key, external identifier, texts, ratings,
    categories, computed average, listing, channel and dates of submission
    and creation; only the approval metadata, the manager notes and
    [updatedAt] can change, and no review is added or dropped. *)
Theorem manager_actions_keep_content (st : ReviewsService.State) (now : Z) :
  let content x :=
    (Review._id x, Review.hostawayId x, Review.type x, Review.status x,
     Review.rating x, Review.publicReview x, Review.privateReview x,
     Review.reviewCategories x, Review.submittedAt x, Review.guestName x,
     Review.listingId x, Review.listingName x, Review.channel x,
     Review.averageCategoryRating x, Review.createdAt x) in
  let contents st' := map content (Model.docs (ReviewsService.db st')) in
  (forall id dto, contents (snd (ReviewsService.update id dto now st)) = contents st)
  /\ (forall id approvedBy,
         contents (snd (ReviewsService.approveReview id approvedBy now st))
         = contents st)
  /\ (forall dto,
         contents (snd (ReviewsService.bulkApprove dto now st)) = contents st).
Proof.
  cbn zeta. repeat split.
  - intros id dto. rewrite update_db.
    destruct (ReviewsRepository.findById _ _) as [e|[review|]];
      [reflexivity | | reflexivity].
    apply repository_update_map. intros r.
    destruct (update_updateData_content dto review now)
      as (? & ? & ? & ? & ? & ? & ? & ? & ? & ? & ? & ? & ?).
    now apply apply_update_content.
  - intros id approvedBy. rewrite approveReview_db.
    destruct (if Js.is_numeric id then _ else _) as [e|[review|]];
      [reflexivity | | reflexivity].
    apply repository_update_map. reflexivity.
  - intros dto. rewrite bulkApprove_db.
    destruct (_ =? _)%nat; [reflexivity|].
    apply repository_bulkApprove_map. reflexivity.
Qed.

(** ** Listings *)

Lemma mongo_leb_total (a b : option Q) :
  Mongo.leb a b = true \/ Mongo.leb b a = true.
Proof.
  destruct a as [x|], b as [y|]; cbn; auto.
  rewrite !Qle_bool_iff. destruct (Qlt_le_dec x y); [left | right]; lra.
Qed.

Lemma mongo_leb_trans (a b c : option Q) :
  Mongo.leb a b = true -> Mongo.leb b c = true -> Mongo.leb a c = true.
Proof.
  destruct a as [x|], b as [y|], c as [z|]; cbn; auto; try discriminate.
  rewrite !Qle_bool_iff. lra.
Qed.

Lemma sort_by_sorted {A} (le : A -> A -> bool) (xs : list A) :
  (forall a b, le a b = true \/ le b a = true) ->
  (forall a b c, le a b = true -> le b c = true -> le a c = true) ->
  StronglySorted (Mongo.by_leb le) (Mongo.sort_by le xs).
Proof.
  intros Htotal Htrans. unfold Mongo.sort_by.
  apply (@StronglySorted_merge_sort _ (Mongo.by_leb le) _); [exact Htrans|].
  intros a b. apply Htotal.
Qed.

Lemma sort_by_elements {A} (le : A -> A -> bool) (xs : list A) (x : A) :
  In x (Mongo.sort_by le xs) <-> In x xs.
Proof.
  unfold Mongo.sort_by. rewrite <- !list_elem_of_In.
  now rewrite merge_sort_Permutation.
Qed.

Lemma sort_by_length {A} (le : A -> A -> bool) (xs : list A) :
  length (Mongo.sort_by le xs) = length xs.
Proof.
  unfold Mongo.sort_by. apply Permutation_length, merge_sort_Permutation.
Qed.

Lemma StronglySorted_take {A} (R : relation A) (n : nat) (l : list A) :
  StronglySorted R l -> StronglySorted R (take n l).
Proof.
  intros H. rewrite <- (take_drop n l) in H.
  now apply StronglySorted_app_1_l in H.
Qed.

Lemma StronglySorted_drop {A} (R : relation A) (n : nat) (l : list A) :
  StronglySorted R l -> StronglySorted R (drop n l).
Proof.
  intros H. rewrite <- (take_drop n l) in H.
  now apply StronglySorted_app_1_r in H.
Qed.

Lemma limit_sorted {A} (R : relation A) (n : Z) (l : list A) :
  StronglySorted R l -> StronglySorted R (Mongo.limit n l).
Proof.
  intros H. unfold Mongo.limit. destruct (n =? 0)%Z; [assumption|].
  now apply StronglySorted_take.
Qed.

Lemma limit_In {A} (n : Z) (l : list A) (x : A) :
  In x (Mongo.limit n l) -> In x l.
Proof.
  unfold Mongo.limit. destruct (n =? 0)%Z; [auto|].
  intros H. rewrite <- (take_drop (Z.to_nat (Z.abs n)) l), in_app_iff. now left.
Qed.

Lemma skip_In {A} (n : Z) (l : list A) (x : A) :
  In x (Mongo.skip n l) -> In x l.
Proof.
  unfold Mongo.skip. intros H.
  rewrite <- (take_drop (Z.to_nat n) l), in_app_iff. now right.
Qed.

Lemma limit_length {A} (n : Z) (l : list A) :
  n = 0%Z \/ (length (Mongo.limit n l) <= Z.to_nat (Z.abs n))%nat.
Proof.
  unfold Mongo.limit. destruct (n =? 0)%Z eqn:E; [left; lia | right].
  rewrite length_take. lia.
Qed.

(** The public listing shows only reviews that are approved and published
    (and of the listing asked for, when one is given), newest first, never
    more than [limit] unless [limit] is zero, and never with the approver or
    the manager notes. *)
Theorem findApprovedReviews_public (listingId : option string) (limit : Z)
    (s : Model.Store) :
  let shown := ReviewsRepository.findApprovedReviews listingId limit s in
  Forall
    (fun r =>
       Review.isApprovedForPublic r = true
       /\ Review.status r = "published"
       /\ match listingId with
          | Some (String c l) => Review.listingId r = String c l
          | _ => True
          end
       /\ Review.approvedBy r = None
       /\ Review.managerNotes r = None
       /\ exists stored,
            In stored (Model.docs s) /\ r = Review.without_manager_fields stored)
    shown
  /\ StronglySorted
       (fun a b => (Review.submittedAt b <= Review.submittedAt a)%Z) shown
  /\ (limit = 0%Z \/ (length shown <= Z.to_nat (Z.abs limit))%nat).
Proof.
  cbn zeta. unfold ReviewsRepository.findApprovedReviews.
  set (before := fun a b : Review.t => (_ <=? _)%Z).
  split; [|split].
  - apply Forall_map. apply List.Forall_forall. intros r Hr.
    apply limit_In, sort_by_elements in Hr.
    rewrite <- list_elem_of_In in Hr. apply list_elem_of_filter in Hr.
    destruct Hr as [Hq Hin].
    apply andb_true_iff in Hq. destruct Hq as [Hq Hl].
    apply andb_true_iff in Hq. destruct Hq as [Ha Hp].
    apply bool_decide_eq_true in Hp. cbn.
    split; [exact Ha|]. split; [exact Hp|]. split.
    + destruct listingId as [[|c l]|]; cbn in Hl; auto.
      apply bool_decide_eq_true in Hl. injection Hl as Hl. exact Hl.
    + split; [reflexivity|]. split; [reflexivity|].
      exists r. split; [now apply list_elem_of_In | reflexivity].
  - apply (StronglySorted_fmap Review.without_manager_fields
             (fun a b => (Review.submittedAt b <= Review.submittedAt a)%Z)
             (fun a b => (Review.submittedAt b <= Review.submittedAt a)%Z)).
    { intros a b H. exact H. }
    apply limit_sorted.
    eapply StronglySorted_weaken; [|apply (sort_by_sorted before)].
    + intros a b H. unfold Mongo.by_leb, before in H. now apply Z.leb_le in H.
    + intros a b. unfold before. rewrite !Z.leb_le. lia.
    + intros a b c. unfold before. rewrite !Z.leb_le. lia.
  - rewrite length_map. apply limit_length.
Qed.

(** ** Filtered pages *)

(** Every review on a page is a stored review that meets the filter; in
    particular with [minRating] it has an average of at least that, and with
    [isApprovedForPublic] it has that flag.  A page never holds more than
    [limit] reviews (all of them when [limit] is zero). *)
Theorem findWithFilters_page_content `{RT : Runtime}
    (filters : FilterReviewDto.t) (s : Model.Store) :
  let result := ReviewsRepository.findWithFilters filters s in
  let limit := default 20%Z (FilterReviewDto.limit filters) in
  Forall
    (fun r =>
       In r (Model.docs s)
       /\ ReviewsRepository.matches (ReviewsRepository.buildFilterQuery filters) r
          = true
       /\ match FilterReviewDto.minRating filters with
          | Some m =>
              exists a, Review.averageCategoryRating r = Some a /\ m <= a
          | None => True
          end
       /\ match FilterReviewDto.isApprovedForPublic filters with
          | Some flag => Review.isApprovedForPublic r = flag
          | None => True
          end)
    (ReviewsRepository.data result)
  /\ (limit = 0%Z
      \/ (length (ReviewsRepository.data result) <= Z.to_nat (Z.abs limit))%nat).
Proof.
  cbn zeta. unfold ReviewsRepository.findWithFilters.
  cbn [ReviewsRepository.data]. split; [|apply limit_length].
  apply List.Forall_forall. intros r Hr.
  apply limit_In, skip_In, sort_by_elements in Hr.
  unfold ReviewsRepository.find_query in Hr.
  rewrite <- list_elem_of_In in Hr. apply list_elem_of_filter in Hr.
  destruct Hr as [Hm Hin]. split; [now apply list_elem_of_In|].
  split; [exact Hm|].
  unfold ReviewsRepository.matches in Hm. rewrite !andb_true_iff in Hm.
  destruct Hm as [[[[[[[_ _] _] Hrating] Hflag] _] _] _].
  cbn in Hrating, Hflag. split.
  - destruct (FilterReviewDto.minRating filters) as [m|]; [|exact I].
    cbn in Hrating. unfold Mongo.gte in Hrating. cbn in Hrating.
    destruct (Review.averageCategoryRating r) as [a|]; [|discriminate].
    exists a. split; [reflexivity|]. now apply Qle_bool_iff.
  - destruct (FilterReviewDto.isApprovedForPublic filters) as [flag|]; [|exact I].
    cbn in Hflag. now apply bool_decide_eq_true in Hflag.
Qed.

(** A page is sorted by the field asked for, ascending when [sortOrder] is
    "asc" and descending otherwise; a review without a value for the field
    counts as below every number. *)
Theorem findWithFilters_sorted `{RT : Runtime}
    (filters : FilterReviewDto.t) (s : Model.Store) :
  let key :=
    ReviewsRepository.sort_value
      (default "submittedAt" (FilterReviewDto.sortBy filters)) in
  let page := ReviewsRepository.data (ReviewsRepository.findWithFilters filters s) in
  if bool_decide (default "desc" (FilterReviewDto.sortOrder filters) = "asc")
  then StronglySorted (fun a b => Mongo.leb (key a) (key b) = true) page
  else StronglySorted (fun a b => Mongo.leb (key b) (key a) = true) page.
Proof.
  cbn zeta. unfold ReviewsRepository.findWithFilters.
  cbn [ReviewsRepository.data].
  set (key := ReviewsRepository.sort_value _).
  destruct (bool_decide (default "desc" (FilterReviewDto.sortOrder filters) = "asc"));
    apply limit_sorted; unfold Mongo.skip; apply StronglySorted_drop;
    apply sort_by_sorted.
  - intros a b. apply mongo_leb_total.
  - intros a b c. apply mongo_leb_trans.
  - intros a b. apply mongo_leb_total.
  - intros a b c Hab Hbc. exact (mongo_leb_trans _ _ _ Hbc Hab).
Qed.

(** ** The pages together *)

Lemma chunks_concat {A} (k : nat) (n : nat) (l : list A) :
  (0 < k)%nat -> (length l <= n * k)%nat ->
  concat (map (fun i => take k (drop (i * k) l)) (seq 0 n)) = l.
Proof.
  intros Hk. revert l. induction n as [|n IH]; intros l Hl.
  - destruct l; [reflexivity | cbn in Hl; lia].
  - cbn [seq map concat]. rewrite <- seq_shift, map_map.
    change (0 * k)%nat with 0%nat. cbn [drop].
    transitivity (take k l ++ drop k l); [|apply take_drop].
    f_equal.
    transitivity
      (concat (map (fun i => take k (drop (i * k) (drop k l))) (seq 0 n)));
      [|apply IH; rewrite length_drop; lia].
    f_equal. apply map_ext. intros i. rewrite drop_drop.
    replace (k + i * k)%nat with (S i * k)%nat by lia. reflexivity.
Qed.

Lemma ceil_div_covers (t l : Z) :
  (1 <= l)%Z -> (0 <= t)%Z ->
  (0 <= ReviewsRepository.ceil_div t l)%Z /\ (t <= ReviewsRepository.ceil_div t l * l)%Z.
Proof.
  intros Hl Ht.
  assert (Hnot : (ReviewsRepository.ceil_div t l * l < t)%Z -> False).
  { intros H. apply (lt_ceil_div _ _ _ Hl) in H. apply Z.ltb_lt in H. lia. }
  split; [|lia].
  destruct (Z_lt_le_dec (ReviewsRepository.ceil_div t l) 0) as [Hneg|]; [|assumption].
  exfalso. apply Hnot. nia.
Qed.

(** Two sorted arrangements of the same documents agree when no two of the
    documents tie. *)
Lemma sorted_arrangement_unique {A} (R : A -> A -> Prop) (l1 l2 : list A) :
  (forall a b, In a l1 -> In b l1 -> R a b -> R b a -> a = b) ->
  l1 ≡ₚ l2 ->
  StronglySorted R l1 -> StronglySorted R l2 ->
  l1 = l2.
Proof.
  revert l2. induction l1 as [|x l1 IH]; intros l2 Hanti Hperm H1 H2.
  - apply Permutation_nil_l in Hperm. now subst.
  - destruct l2 as [|y l2]; [now apply Permutation_nil_r in Hperm|].
    apply StronglySorted_inv in H1 as [H1 Hx].
    apply StronglySorted_inv in H2 as [H2 Hy].
    assert (Hxy : x = y).
    { assert (Hin : x ∈ y :: l2) by (rewrite <- Hperm; left).
      apply elem_of_cons in Hin as [Hin | Hin]; [exact Hin|].
      assert (Hyx : R y x).
      { rewrite List.Forall_forall in Hy. apply Hy. now apply list_elem_of_In. }
      assert (Hin' : y ∈ x :: l1) by (rewrite Hperm; left).
      apply elem_of_cons in Hin' as [Hin' | Hin']; [now symmetry|].
      assert (Hxy : R x y).
      { rewrite List.Forall_forall in Hx. apply Hx. now apply list_elem_of_In. }
      apply Hanti; [now left | right; now apply list_elem_of_In | assumption
                   | assumption]. }
    subst y. f_equal. apply IH; [|eapply Permutation_cons_inv; exact Hperm
                                 | assumption | assumption].
    intros a b Ha Hb. apply Hanti; now right.
Qed.

(** The pages of one ordered list of the matching reviews, read one after
    the other, are the list. *)
Lemma findWithFilters_pages_concat `{RT : Runtime}
    (filters : FilterReviewDto.t) (s : Model.Store) :
  let limit := default 20%Z (FilterReviewDto.limit filters) in
  let at_page p :=
    ReviewsRepository.findWithFilters
      {| FilterReviewDto.page := Some p;
         FilterReviewDto.limit := FilterReviewDto.limit filters;
         FilterReviewDto.listingId := FilterReviewDto.listingId filters;
         FilterReviewDto.channel := FilterReviewDto.channel filters;
         FilterReviewDto.status := FilterReviewDto.status filters;
         FilterReviewDto.minRating := FilterReviewDto.minRating filters;
         FilterReviewDto.isApprovedForPublic :=
           FilterReviewDto.isApprovedForPublic filters;
         FilterReviewDto.startDate := FilterReviewDto.startDate filters;
         FilterReviewDto.endDate := FilterReviewDto.endDate filters;
         FilterReviewDto.guestName := FilterReviewDto.guestName filters;
         FilterReviewDto.sortBy := FilterReviewDto.sortBy filters;
         FilterReviewDto.sortOrder := FilterReviewDto.sortOrder filters |} s in
  let totalPages :=
    ReviewsRepository.totalPages (ReviewsRepository.pagination (at_page 1%Z)) in
  let key :=
    ReviewsRepository.sort_value
      (default "submittedAt" (FilterReviewDto.sortBy filters)) in
  let before a b :=
    if bool_decide (default "desc" (FilterReviewDto.sortOrder filters) = "asc")
    then Mongo.leb (key a) (key b) else Mongo.leb (key b) (key a) in
  (1 <= limit)%Z ->
  concat (map (fun i => ReviewsRepository.data (at_page (Z.of_nat i + 1)%Z))
              (seq 0 (Z.to_nat totalPages)))
  = Mongo.sort_by before
      (ReviewsRepository.find_query
         (ReviewsRepository.buildFilterQuery filters) s).
Proof.
  intros limit at_page totalPages key before Hlimit.
  unfold totalPages, at_page, ReviewsRepository.findWithFilters.
  cbn [ReviewsRepository.pagination ReviewsRepository.totalPages
       ReviewsRepository.data FilterReviewDto.page FilterReviewDto.limit
       FilterReviewDto.sortBy FilterReviewDto.sortOrder default].
  fold limit.
  change (ReviewsRepository.buildFilterQuery _)
    with (ReviewsRepository.buildFilterQuery filters).
  set (query := ReviewsRepository.buildFilterQuery filters).
  fold key. fold before.
  set (sorted := Mongo.sort_by before (ReviewsRepository.find_query query s)).
  unfold ReviewsRepository.count. 
  assert (Hlen : length (ReviewsRepository.find_query query s) = length sorted)
    by (symmetry; apply sort_by_length).
  rewrite Hlen.
  destruct (ceil_div_covers (Z.of_nat (length sorted)) limit Hlimit) as [Hn Hc];
    [lia|].
  set (pages := ReviewsRepository.ceil_div (Z.of_nat (length sorted)) limit) in *.
  assert (Hcover : (length sorted <= Z.to_nat pages * Z.to_nat limit)%nat).
  { rewrite <- Z2Nat.inj_mul by lia. lia. }
  transitivity
    (concat (map (fun i => take (Z.to_nat limit) (drop (i * Z.to_nat limit) sorted))
                 (seq 0 (Z.to_nat pages))));
    [|apply chunks_concat; [lia | assumption]].
  f_equal. apply map_ext. intros i.
  unfold Mongo.limit, Mongo.skip.
  destruct (limit =? 0)%Z eqn:E; [lia|].
  rewrite Z.abs_eq by lia. f_equal. f_equal. unfold id.
  replace (Z.of_nat i + 1 - 1)%Z with (Z.of_nat i) by lia.
  rewrite Z2Nat.inj_mul, Nat2Z.id by lia. reflexivity.
Qed.

(** When no two matching reviews have the same value of the sort field,
    there is one way to order them, and pages 1 to [totalPages], read one
    after the other, give every matching review exactly once in that
    order.  (Among reviews with equal values the store fixes no order, and
    the separate queries behind two pages need not agree on one.) *)
Theorem findWithFilters_pages_cover `{RT : Runtime}
    (filters : FilterReviewDto.t) (s : Model.Store) :
  let limit := default 20%Z (FilterReviewDto.limit filters) in
  let at_page p :=
    ReviewsRepository.findWithFilters
      {| FilterReviewDto.page := Some p;
         FilterReviewDto.limit := FilterReviewDto.limit filters;
         FilterReviewDto.listingId := FilterReviewDto.listingId filters;
         FilterReviewDto.channel := FilterReviewDto.channel filters;
         FilterReviewDto.status := FilterReviewDto.status filters;
         FilterReviewDto.minRating := FilterReviewDto.minRating filters;
         FilterReviewDto.isApprovedForPublic :=
           FilterReviewDto.isApprovedForPublic filters;
         FilterReviewDto.startDate := FilterReviewDto.startDate filters;
         FilterReviewDto.endDate := FilterReviewDto.endDate filters;
         FilterReviewDto.guestName := FilterReviewDto.guestName filters;
         FilterReviewDto.sortBy := FilterReviewDto.sortBy filters;
         FilterReviewDto.sortOrder := FilterReviewDto.sortOrder filters |} s in
  let totalPages :=
    ReviewsRepository.totalPages (ReviewsRepository.pagination (at_page 1%Z)) in
  let matching :=
    ReviewsRepository.find_query (ReviewsRepository.buildFilterQuery filters) s in
  let key :=
    ReviewsRepository.sort_value
      (default "submittedAt" (FilterReviewDto.sortBy filters)) in
  let before a b :=
    if bool_decide (default "desc" (FilterReviewDto.sortOrder filters) = "asc")
    then Mongo.leb (key a) (key b) else Mongo.leb (key b) (key a) in
  (1 <= limit)%Z ->
  (forall a b,
      In a matching -> In b matching ->
      Mongo.leb (key a) (key b) = true -> Mongo.leb (key b) (key a) = true ->
      a = b) ->
  forall ordered,
    ordered ≡ₚ matching ->
    StronglySorted (fun a b => before a b = true) ordered ->
    concat (map (fun i => ReviewsRepository.data (at_page (Z.of_nat i + 1)%Z))
                (seq 0 (Z.to_nat totalPages)))
    = ordered.
Proof.
  intros limit at_page totalPages matching key before Hlimit Hties ordered
    Hperm Hsorted.
  unfold totalPages, at_page, limit.
  rewrite (findWithFilters_pages_concat filters s Hlimit).
  fold key before matching. symmetry.
  apply (sorted_arrangement_unique (fun a b => before a b = true)).
  - intros a b Ha Hb Hab Hba.
    assert (Ha' : In a matching)
      by (apply list_elem_of_In; rewrite <- Hperm; now apply list_elem_of_In).
    assert (Hb' : In b matching)
      by (apply list_elem_of_In; rewrite <- Hperm; now apply list_elem_of_In).
    unfold before in Hab, Hba.
    destruct (bool_decide _); [apply Hties | symmetry; apply Hties]; assumption.
  - rewrite Hperm. symmetry. apply merge_sort_Permutation.
  - exact Hsorted.
  - apply sort_by_sorted.
    + intros a b. unfold before.
      destruct (bool_decide _); apply mongo_leb_total.
    + intros a b c. unfold before.
      destruct (bool_decide _).
      * apply mongo_leb_trans.
      * intros Hab Hbc. exact (mongo_leb_trans _ _ _ Hbc Hab).
Qed.

Lemma findWithFilters_pages_cover_witness :
  let filters :=
    FilterReviewDto.mk None (Some 1%Z) None None None (Some 8) None None
      None None (Some "averageCategoryRating") None in
  let s :=
    Sample.store
      [Sample.review 0 1 [] (Some 9); Sample.review 1 2 [] (Some 7);
       Sample.review 2 3 [] (Some 8)] in
  let at_page p :=
    ReviewsRepository.findWithFilters (RT := Sample.runtime)
      (FilterReviewDto.mk (Some p) (Some 1%Z) None None None (Some 8) None None
         None None (Some "averageCategoryRating") None) s in
  ReviewsRepository.totalPages (ReviewsRepository.pagination (at_page 1%Z)) = 2%Z
  /\ ReviewsRepository.data (at_page 1%Z) ++ ReviewsRepository.data (at_page 2%Z)
     = [Sample.review 0 1 [] (Some 9); Sample.review 2 3 [] (Some 8)].
Proof.
  cbn zeta. split; [vm_compute; reflexivity|].
  pose proof (findWithFilters_pages_cover (RT := Sample.runtime)
                (FilterReviewDto.mk None (Some 1%Z) None None None (Some 8) None
                   None None None (Some "averageCategoryRating") None)
                (Sample.store
                   [Sample.review 0 1 [] (Some 9); Sample.review 1 2 [] (Some 7);
                    Sample.review 2 3 [] (Some 8)])) as H.
  cbn zeta in H.
  specialize (H ltac:(cbn; lia)).
  assert (Hmatching :
    ReviewsRepository.find_query (RT := Sample.runtime)
      (ReviewsRepository.buildFilterQuery (RT := Sample.runtime)
         (FilterReviewDto.mk None (Some 1%Z) None None None (Some 8) None
            None None None (Some "averageCategoryRating") None))
      (Sample.store
         [Sample.review 0 1 [] (Some 9); Sample.review 1 2 [] (Some 7);
          Sample.review 2 3 [] (Some 8)])
    = [Sample.review 0 1 [] (Some 9); Sample.review 2 3 [] (Some 8)])
    by (vm_compute; reflexivity).
  rewrite Hmatching in H.
  specialize (H ltac:(
    intros a b [<- | [<- | []]] [<- | [<- | []]] Hab Hba;
    first [reflexivity | vm_compute in Hab; discriminate Hab
          | vm_compute in Hba; discriminate Hba])).
  specialize (H [Sample.review 0 1 [] (Some 9); Sample.review 2 3 [] (Some 8)]
                (reflexivity _)).
  specialize (H ltac:(
    repeat constructor; vm_compute; reflexivity)).
  vm_compute in H |- *. exact H.
Defined.

(** ** Groups *)

Lemma group_insert_sizes {K A} `{EqDecision K} (k : K) (a : A)
    (gs : list (K * list A)) :
  sum_list (map (fun g => length (snd g)) (Mongo.group_insert k a gs))
  = S (sum_list (map (fun g => length (snd g)) gs)).
Proof.
  induction gs as [|[k' xs] gs IH]; cbn; [reflexivity|].
  destruct (decide (k = k')); cbn.
  - rewrite length_app. cbn. lia.
  - rewrite IH. lia.
Qed.

Lemma group_by_snoc {K A} `{EqDecision K} (key : A -> K) (xs : list A) (x : A) :
  Mongo.group_by key (xs ++ [x])
  = Mongo.group_insert (key x) x (Mongo.group_by key xs).
Proof. unfold Mongo.group_by. now rewrite fold_left_app. Qed.

Lemma group_by_sizes {K A} `{EqDecision K} (key : A -> K) (xs : list A) :
  sum_list (map (fun g => length (snd g)) (Mongo.group_by key xs)) = length xs.
Proof.
  induction xs as [|x xs IH] using rev_ind; [reflexivity|].
  rewrite group_by_snoc, group_insert_sizes, IH, length_app. cbn. lia.
Qed.

Lemma group_insert_keys {K A} `{EqDecision K} (k : K) (a : A)
    (gs : list (K * list A)) :
  map fst (Mongo.group_insert k a gs)
  = map fst gs \/ (~ In k (map fst gs)
                   /\ map fst (Mongo.group_insert k a gs) = map fst gs ++ [k]).
Proof.
  induction gs as [|[k' xs] gs IH]; cbn [Mongo.group_insert map fst].
  - right. split; [intros [] | reflexivity].
  - destruct (decide (k = k')) as [->|Hne]; cbn [map fst].
    + now left.
    + destruct IH as [IH | [Hk IH]]; rewrite IH; [now left | right].
      split; [|reflexivity]. intros [E | Hin]; [congruence | contradiction].
Qed.

Lemma group_by_keys_NoDup {K A} `{EqDecision K} (key : A -> K) (xs : list A) :
  List.NoDup (map fst (Mongo.group_by key xs)).
Proof.
  induction xs as [|x xs IH] using rev_ind; [constructor|].
  rewrite group_by_snoc.
  destruct (group_insert_keys (key x) x (Mongo.group_by key xs)) as [E | [Hk E]];
    rewrite E; [assumption | now apply NoDup_snoc].
Qed.

Lemma group_insert_members {K A} `{EqDecision K} (key : A -> K) (a : A)
    (gs : list (K * list A)) :
  Forall (fun g => Forall (fun x => key x = fst g) (snd g)) gs ->
  Forall (fun g => Forall (fun x => key x = fst g) (snd g))
         (Mongo.group_insert (key a) a gs).
Proof.
  induction 1 as [|[k' xs] gs Hx Hgs IH]; cbn [Mongo.group_insert].
  - repeat constructor.
  - destruct (decide (key a = k')) as [E|Hne]; constructor; try assumption.
    cbn [fst snd] in *. apply Forall_app. split; [assumption|].
    constructor; [assumption | constructor].
Qed.

Lemma group_by_members {K A} `{EqDecision K} (key : A -> K) (xs : list A) :
  Forall (fun g => Forall (fun x => key x = fst g) (snd g))
         (Mongo.group_by key xs).
Proof.
  induction xs as [|x xs IH] using rev_ind; [constructor|].
  rewrite group_by_snoc. now apply group_insert_members.
Qed.

Lemma group_insert_from {K A} `{EqDecision K} (k : K) (a : A) (P : A -> Prop)
    (gs : list (K * list A)) :
  P a ->
  Forall (fun g => Forall P (snd g)) gs ->
  Forall (fun g => Forall P (snd g)) (Mongo.group_insert k a gs).
Proof.
  intros Ha. induction 1 as [|[k' xs] gs Hx Hgs IH]; cbn [Mongo.group_insert].
  - repeat constructor. assumption.
  - destruct (decide (k = k')); constructor; try assumption.
    cbn [snd] in *. apply Forall_app. split; [assumption|].
    constructor; [assumption | constructor].
Qed.

Lemma group_by_from {K A} `{EqDecision K} (key : A -> K) (P : A -> Prop)
    (xs : list A) :
  Forall P xs -> Forall (fun g => Forall P (snd g)) (Mongo.group_by key xs).
Proof.
  induction xs as [|x xs IH] using rev_ind; intros H; [constructor|].
  apply Forall_app in H. destruct H as [Hxs Hx]. inversion Hx; subst.
  rewrite group_by_snoc. apply group_insert_from; auto.
Qed.

Lemma group_by_single {A} (xs : list A) :
  Mongo.group_by (fun _ => tt) xs
  = match xs with [] => [] | _ :: _ => [(tt, xs)] end.
Proof.
  induction xs as [|x xs IH] using rev_ind; [reflexivity|].
  rewrite group_by_snoc, IH. destruct xs; cbn; reflexivity.
Qed.

Lemma count_if_split {A} (flag : A -> bool) (xs : list A) :
  (Mongo.count_if flag xs + Mongo.count_if (fun x => negb (flag x)) xs)%nat
  = length xs.
Proof.
  unfold Mongo.count_if. induction xs as [|x xs IH]; [reflexivity|].
  rewrite !filter_cons. destruct (flag x) eqn:E; cbn.
  - rewrite decide_True by reflexivity. rewrite decide_False by discriminate.
    cbn. lia.
  - rewrite decide_False by discriminate. rewrite decide_True by reflexivity.
    cbn. lia.
Qed.

Lemma count_if_le {A} (flag : A -> bool) (xs : list A) :
  (Mongo.count_if flag xs <= Mongo.count xs)%nat.
Proof. unfold Mongo.count. rewrite <- (count_if_split flag xs). lia. Qed.

Lemma sum_list_sort_by {A} (le : A -> A -> bool) (f : A -> nat) (xs : list A) :
  sum_list (map f (Mongo.sort_by le xs)) = sum_list (map f xs).
Proof.
  unfold Mongo.sort_by.
  assert (P : forall l l' : list nat, l ≡ₚ l' -> sum_list l = sum_list l').
  { induction 1; cbn; lia. }
  apply P, Permutation_map, merge_sort_Permutation.
Qed.

(** ** The dashboard statistics *)

(** The statistics that the dashboard shows add up: the overview counts
    every stored review, as approved or as pending; the channels, which are
    distinct and each hold a review, share out all the reviews between
    them, and so do the rating buckets. *)
Theorem statistics_add_up (s : Model.Store) :
  let stats :=
    ReviewsService.transform_statistics (ReviewsRepository.getStatistics s) in
  let overview := ReviewsService.overview stats in
  let n := length (Model.docs s) in
  ReviewsRepository.OverviewGroup.totalReviews overview = n
  /\ (ReviewsRepository.OverviewGroup.approvedCount overview
      + ReviewsRepository.OverviewGroup.pendingCount overview)%nat = n
  /\ ReviewsRepository.OverviewGroup.approvedCount overview
     = length (filter (fun r => Review.isApprovedForPublic r = true) (Model.docs s))
  /\ sum_list (map ReviewsService.ChannelStat.count (ReviewsService.byChannel stats))
     = n
  /\ List.NoDup (map ReviewsService.ChannelStat.channel
                     (ReviewsService.byChannel stats))
  /\ Forall (fun c => (1 <= ReviewsService.ChannelStat.count c)%nat)
            (ReviewsService.byChannel stats)
  /\ sum_list (map ReviewsRepository.Bucket.count
                   (ReviewsService.ratingDistribution stats)) = n.
Proof.
  cbn zeta. unfold ReviewsService.transform_statistics, ReviewsRepository.getStatistics.
  cbn [ReviewsService.overview ReviewsService.byChannel
       ReviewsService.ratingDistribution ReviewsRepository.overview
       ReviewsRepository.byChannel ReviewsRepository.ratingDistribution].
  rewrite group_by_single.
  repeat split.
  - destruct (Model.docs s); reflexivity.
  - destruct (Model.docs s) as [|r l] eqn:E; [reflexivity|].
    cbn [map snd ReviewsRepository.OverviewGroup.approvedCount
         ReviewsRepository.OverviewGroup.pendingCount].
    apply count_if_split.
  - destruct (Model.docs s); reflexivity.
  - rewrite !map_map. cbn [ReviewsService.ChannelStat.count
                           ReviewsRepository.ChannelGroup.count].
    apply group_by_sizes.
  - rewrite !map_map. cbn [ReviewsService.ChannelStat.channel
                           ReviewsRepository.ChannelGroup._id].
    apply group_by_keys_NoDup.
  - rewrite map_map. cbn [ReviewsRepository.ChannelGroup.count].
    apply (groups_counted Review.channel (Model.docs s)
             (fun g => _) ReviewsService.ChannelStat.count).
    reflexivity.
  - rewrite sum_list_sort_by, map_map. cbn [ReviewsRepository.Bucket.count].
    apply group_by_sizes.
Qed.

Lemma toFixed_2_percent (x : Q) : 0 <= x -> x <= 100 ->
  0 <= Js.toFixed 2 x /\ Js.toFixed 2 x <= 100.
Proof.
  intros H0 H100. unfold Js.toFixed. change (Js.pow10 2) with 100.
  destruct (Qlt_le_dec x 0) as [Hneg|_]; [lra|].
  assert (Hlo : (0 <= Qfloor (x * 100 + (1 # 2)))%Z).
  { change 0%Z with (Qfloor 0). apply Qfloor_resp_le. lra. }
  assert (Hhi : (Qfloor (x * 100 + (1 # 2)) <= 10000)%Z).
  { change 10000%Z with (Qfloor (20001 # 2)). apply Qfloor_resp_le. lra. }
  rewrite Zle_Qle in Hlo, Hhi.
  change (inject_Z 0) with 0 in Hlo. change (inject_Z 10000) with 10000 in Hhi.
  split.
  - apply Qle_shift_div_l; lra.
  - apply Qle_shift_div_r; lra.
Qed.

Lemma share_percent (part whole : nat) :
  (1 <= whole)%nat -> (part <= whole)%nat ->
  0 <= Mongo.of_nat part / Mongo.of_nat whole * 100
  /\ Mongo.of_nat part / Mongo.of_nat whole * 100 <= 100.
Proof.
  intros Hw Hp. unfold Mongo.of_nat.
  assert (Hw' : 0 < inject_Z (Z.of_nat whole)).
  { change 0 with (inject_Z 0). rewrite <- Zlt_Qlt. lia. }
  assert (Hp0 : 0 <= inject_Z (Z.of_nat part)).
  { change 0 with (inject_Z 0). rewrite <- Zle_Qle. lia. }
  assert (Hpw : inject_Z (Z.of_nat part) <= inject_Z (Z.of_nat whole)).
  { rewrite <- Zle_Qle. lia. }
  assert (H0 : 0 <= inject_Z (Z.of_nat part) / inject_Z (Z.of_nat whole)).
  { apply Qle_shift_div_l; lra. }
  assert (H1 : inject_Z (Z.of_nat part) / inject_Z (Z.of_nat whole) <= 1).
  { apply Qle_shift_div_r; lra. }
  lra.
Qed.

(** The top properties of the dashboard are at most ten, distinct, with
    the most reviewed first; each has at least one review, no more approved
    reviews than reviews, and an approval rate between 0 and 100. *)
Theorem statistics_top_properties (s : Model.Store) :
  let top :=
    ReviewsService.topProperties
      (ReviewsService.transform_statistics (ReviewsRepository.getStatistics s)) in
  (length top <= 10)%nat
  /\ StronglySorted
       (fun a b => (ReviewsService.TopProperty.reviewCount b
                    <= ReviewsService.TopProperty.reviewCount a)%nat) top
  /\ List.NoDup (map (fun p => (ReviewsService.TopProperty.listingId p,
                                ReviewsService.TopProperty.listingName p)) top)
  /\ Forall
       (fun p =>
          (1 <= ReviewsService.TopProperty.reviewCount p)%nat
          /\ (ReviewsService.TopProperty.approvedCount p
              <= ReviewsService.TopProperty.reviewCount p)%nat
          /\ 0 <= ReviewsService.TopProperty.approvalRate p
          /\ ReviewsService.TopProperty.approvalRate p <= 100)
       top.
Proof.
  cbn zeta. unfold ReviewsService.transform_statistics, ReviewsRepository.getStatistics.
  cbn [ReviewsService.topProperties ReviewsRepository.byProperty].
  set (summary := fun g : (string * string) * list Review.t => _).
  set (groups := Mongo.group_by _ _).
  set (le := fun a b : ReviewsRepository.PropertyGroup.t => _).
  set (entry := fun item : ReviewsRepository.PropertyGroup.t => _).
  assert (Hsummary :
    Forall (fun g => (1 <= ReviewsRepository.PropertyGroup.count g)%nat
                     /\ (ReviewsRepository.PropertyGroup.approvedCount g
                         <= ReviewsRepository.PropertyGroup.count g)%nat)
           (map summary groups)).
  { apply Forall_map. eapply Forall_impl; [apply group_by_nonempty|].
    intros g Hg. cbn. split; [now apply count_positive | apply count_if_le]. }
  split; [|split; [|split]].
  - rewrite length_map. destruct (limit_length 10 (Mongo.sort_by le (map summary groups)))
      as [H|H]; [discriminate | exact H].
  - apply (StronglySorted_fmap entry
             (fun a b => (ReviewsRepository.PropertyGroup.count b
                          <= ReviewsRepository.PropertyGroup.count a)%nat)).
    + intros a b H. exact H.
    + apply limit_sorted.
      eapply StronglySorted_weaken; [|apply sort_by_sorted].
      * intros a b H. unfold le in H. now apply Nat.leb_le in H.
      * intros a b. unfold le. rewrite !Nat.leb_le. lia.
      * intros a b c. unfold le. rewrite !Nat.leb_le. lia.
  - rewrite map_map.
    change (map _ (Mongo.limit 10 (Mongo.sort_by le (map summary groups))))
      with (map (fun g => (ReviewsRepository.PropertyGroup.listingId g,
                           ReviewsRepository.PropertyGroup.listingName g))
                (Mongo.limit 10 (Mongo.sort_by le (map summary groups)))).
    unfold Mongo.limit. cbn [Z.eqb Z.abs Z.to_nat].
    rewrite <- firstn_map. 
    assert (Hnd : List.NoDup
              (map (fun g => (ReviewsRepository.PropertyGroup.listingId g,
                              ReviewsRepository.PropertyGroup.listingName g))
                   (Mongo.sort_by le (map summary groups)))).
    { eapply Permutation_NoDup.
      - apply Permutation_map. symmetry. apply merge_sort_Permutation.
      - rewrite map_map.
        replace (map _ groups) with (map fst groups).
        + apply group_by_keys_NoDup.
        + apply map_ext. intros [[a b] l]. reflexivity. }
    revert Hnd. generalize (map (fun g => (ReviewsRepository.PropertyGroup.listingId g,
                              ReviewsRepository.PropertyGroup.listingName g))
                   (Mongo.sort_by le (map summary groups))).
    intros l Hl. rewrite <- (firstn_skipn (Pos.to_nat 10) l) in Hl.
    apply NoDup_app_remove_r in Hl. exact Hl.
  - apply Forall_map. apply limit_Forall, sort_by_Forall.
    eapply Forall_impl; [exact Hsummary|].
    intros g [H1 H2]. cbn. split; [assumption|]. split; [assumption|].
    apply toFixed_2_percent; now apply share_percent.
Qed.

(** ** Rating buckets *)

Lemma bucket_of_interval (x : option Q) :
  match ReviewsRepository.bucket_of x with
  | Some b =>
      In b [0; 2; 4; 6; 8]%Z
      /\ exists q, x = Some q /\ inject_Z b <= q /\ q < inject_Z b + 2
  | None =>
      match x with
      | Some q => q < 0 \/ 10 <= q
      | None => True
      end
  end.
Proof.
  unfold ReviewsRepository.bucket_of. destruct x as [q|]; [|exact I].
  destruct (Qle_bool 0 q) eqn:E0; cbn [andb].
  - apply Qle_bool_iff in E0. destruct (Qle_bool 10 q) eqn:E10; cbn [negb].
    + apply Qle_bool_iff in E10. now right.
    + assert (H10 : q < 10).
      { apply Qnot_le_lt. intros H. apply Qle_bool_iff in H. congruence. }
      assert (Hlo : (0 <= Qfloor q)%Z).
      { change 0%Z with (Qfloor 0). now apply Qfloor_resp_le. }
      assert (Hhi : (Qfloor q < 10)%Z).
      { apply Z.lt_le_trans with (Qceiling 10); [|reflexivity].
        rewrite Zlt_Qlt. eapply Qle_lt_trans; [apply Qfloor_le|].
        exact H10. }
      pose proof (Qfloor_le q) as Hfl. pose proof (Qlt_floor q) as Hfu.
      rewrite inject_Z_plus in Hfu. change (inject_Z 1) with 1 in Hfu.
      pose proof (Z.div_mod (Qfloor q) 2 ltac:(lia)) as Hdm.
      pose proof (Z.mod_pos_bound (Qfloor q) 2 ltac:(lia)) as Hm.
      set (f := Qfloor q) in *. set (d := (f / 2)%Z) in *.
      assert (Hd : (0 <= d <= 4)%Z) by lia.
      split.
      * assert (d = 0 \/ d = 1 \/ d = 2 \/ d = 3 \/ d = 4)%Z as Hc by lia.
        destruct Hc as [-> | [-> | [-> | [-> | ->]]]]; cbn; tauto.
      * exists q. split; [reflexivity|].
        assert (H2d : (2 * d <= f)%Z) by lia.
        assert (H2u : (f + 1 <= 2 * d + 2)%Z) by lia.
        rewrite Zle_Qle in H2d, H2u.
        rewrite !inject_Z_plus in H2u.
        change (inject_Z 1) with 1 in H2u. change (inject_Z 2) with 2 in H2u.
        lra.
  - left. apply Qnot_le_lt. intros H. apply Qle_bool_iff in H. congruence.
Qed.

(** ** Cached reads *)

Lemma read_through_run {A} (key : string) (ttl : Z) (compute : Model.Store -> A)
    (wrap : A -> ReviewsService.Cached) (st : ReviewsService.State) :
  ReviewsService.sbind (ReviewsService.cache_get key)
    (fun cached =>
       match cached with
       | Some cached => ReviewsService.sret cached
       | None =>
           ReviewsService.sbind (ReviewsService.query compute)
             (fun a =>
                ReviewsService.sbind
                  (ReviewsService.cache_set key (wrap a) ttl)
                  (fun _ => ReviewsService.sret (wrap a)))
       end) st
  = match ReviewsService.cache st !! key with
    | Some entry => (Ok (ReviewsService.value entry), st)
    | None =>
        (Ok (wrap (compute (ReviewsService.db st))),
         {| ReviewsService.db := ReviewsService.db st;
            ReviewsService.cache :=
              <[key := {| ReviewsService.value := wrap (compute (ReviewsService.db st));
                          ReviewsService.ttl := ttl |}]>
                (ReviewsService.cache st) |})
    end.
Proof.
  unfold ReviewsService.sbind, ReviewsService.cache_get, ReviewsService.query,
    ReviewsService.cache_set, ReviewsService.sret, Ok.
  destruct (ReviewsService.cache st !! key) as [entry|]; reflexivity.
Qed.

Lemma read_through_kept {A} (key : string) (ttl : Z)
    (compute compute' : Model.Store -> A)
    (wrap : A -> ReviewsService.Cached) (st later : ReviewsService.State) :
  let read c :=
    ReviewsService.sbind (ReviewsService.cache_get key)
      (fun cached =>
         match cached with
         | Some cached => ReviewsService.sret cached
         | None =>
             ReviewsService.sbind (ReviewsService.query c)
               (fun a =>
                  ReviewsService.sbind
                    (ReviewsService.cache_set key (wrap a) ttl)
                    (fun _ => ReviewsService.sret (wrap a)))
         end) in
  ReviewsService.cache later !! key
  = ReviewsService.cache (snd (read compute st)) !! key ->
  read compute' later = (fst (read compute st), later).
Proof.
  intros read. subst read. cbv beta.
  rewrite (read_through_run key ttl compute wrap st).
  rewrite (read_through_run key ttl compute' wrap later).
  destruct (ReviewsService.cache st !! key) as [entry|] eqn:E.
  - cbn [fst snd ReviewsService.cache]. rewrite E. intros ->. reflexivity.
  - cbn [fst snd ReviewsService.cache]. rewrite lookup_insert_eq.
    intros ->. reflexivity.
Qed.

(** While the entry that a read has found or left under its key is still
    held by the cache (it has not expired, been evicted or been deleted),
    the same read repeated is answered the same way, from the cache and
    without touching cache or store, whatever has become of the store and
    of the other entries in the meantime: the statistics, the approved
    reviews of a listing and the trend are as old as their cache
    entries. *)
Theorem cached_read_repeats `{RT : Runtime} (st later : ReviewsService.State)
    (now now' : Z) (listingId : option string) (limit days : Z) :
  let held (key : string) (read : ReviewsService.SM ReviewsService.Cached) :=
    ReviewsService.cache later !! key
    = ReviewsService.cache (snd (read st)) !! key in
  (held ReviewsService.STATISTICS ReviewsService.getStatistics ->
   ReviewsService.getStatistics later
   = (fst (ReviewsService.getStatistics st), later))
  /\ (held (ReviewsService.getApprovedReviews_cacheKey listingId limit)
           (ReviewsService.getApprovedReviews listingId limit) ->
      ReviewsService.getApprovedReviews listingId limit later
      = (fst (ReviewsService.getApprovedReviews listingId limit st), later))
  /\ (held (ReviewsService.getReviewsTrend_cacheKey days)
           (ReviewsService.getReviewsTrend days now) ->
      ReviewsService.getReviewsTrend days now' later
      = (fst (ReviewsService.getReviewsTrend days now st), later)).
Proof.
  cbn zeta. split; [|split].
  - exact (read_through_kept ReviewsService.STATISTICS 300
             (fun s => ReviewsService.transform_statistics
                         (ReviewsRepository.getStatistics s))
             (fun s => ReviewsService.transform_statistics
                         (ReviewsRepository.getStatistics s))
             ReviewsService.CachedStatistics st later).
  - exact (read_through_kept
             (ReviewsService.getApprovedReviews_cacheKey listingId limit) 600
             (ReviewsRepository.findApprovedReviews listingId limit)
             (ReviewsRepository.findApprovedReviews listingId limit)
             ReviewsService.CachedReviews st later).
  - exact (read_through_kept (ReviewsService.getReviewsTrend_cacheKey days) 600
             (fun s => map _ (ReviewsRepository.getReviewsTrend days now s))
             (fun s => map _ (ReviewsRepository.getReviewsTrend days now' s))
             ReviewsService.CachedTrend st later).
Qed.

Lemma cached_read_repeats_witness :
  let st := Sample.state Sample.one_review in
  let read := snd (ReviewsService.getApprovedReviews None 10 st) in
  let later := snd (ReviewsService.approveReview "7453" None 5 read) in
  ReviewsService.getApprovedReviews None 10 later
  = (Ok (ReviewsService.CachedReviews []), later).
Proof.
  cbn zeta.
  destruct (cached_read_repeats (RT := Sample.runtime)
              (Sample.state Sample.one_review)
              (snd (ReviewsService.approveReview "7453" None 5
                      (snd (ReviewsService.getApprovedReviews None 10
                              (Sample.state Sample.one_review)))))
              0 0 None 10 30)
    as (_ & Hlisting & _).
  rewrite Hlisting; [|vm_compute; reflexivity].
  f_equal.
Defined.

(** ** Statistics after a change *)

Lemma getStatistics_fresh (st : ReviewsService.State) :
  fst (ReviewsService.getStatistics
         {| ReviewsService.db := ReviewsService.db st;
            ReviewsService.cache :=
              ReviewsService.cache (snd (ReviewsService.invalidateCache st)) |})
  = Ok (ReviewsService.CachedStatistics
          (ReviewsService.transform_statistics
             (ReviewsRepository.getStatistics (ReviewsService.db st)))).
Proof.
  unfold ReviewsService.getStatistics.
  rewrite (read_through_run ReviewsService.STATISTICS 300
             (fun s => ReviewsService.transform_statistics
                         (ReviewsRepository.getStatistics s))
             ReviewsService.CachedStatistics).
  cbn [ReviewsService.cache ReviewsService.db].
  rewrite (invalidateCache_removes st ReviewsService.STATISTICS)
    by (unfold ReviewsService.STATISTICS; set_solver).
  reflexivity.
Qed.

(** After a sync, a create, an update, an approval, a bulk approval or a
    removal that returns, the next request for the statistics is computed
    from the store as the method left it, not read from the cache. *)
Theorem statistics_fresh_after_change `{RT : Runtime}
    (st st' : ReviewsService.State) (now : Z) :
  let fresh :=
    fst (ReviewsService.getStatistics st')
    = Ok (ReviewsService.CachedStatistics
            (ReviewsService.transform_statistics
               (ReviewsRepository.getStatistics (ReviewsService.db st')))) in
  (forall reviews result,
      ReviewsService.syncReviews reviews now st = (Ok result, st') -> fresh)
  /\ (forall dto result,
      ReviewsService.create dto now st = (Ok result, st') -> fresh)
  /\ (forall id dto result,
      ReviewsService.update id dto now st = (Ok result, st') -> fresh)
  /\ (forall id approvedBy result,
      ReviewsService.approveReview id approvedBy now st = (Ok result, st') -> fresh)
  /\ (forall dto result,
      ReviewsService.bulkApprove dto now st = (Ok result, st') -> fresh)
  /\ (forall id result,
      ReviewsService.remove id st = (Ok result, st') -> fresh).
Proof.
  cbn zeta.
  assert (Hfresh : forall st0,
    ReviewsService.cache st'
    = ReviewsService.cache (snd (ReviewsService.invalidateCache st0)) ->
    fst (ReviewsService.getStatistics st')
    = Ok (ReviewsService.CachedStatistics
            (ReviewsService.transform_statistics
               (ReviewsRepository.getStatistics (ReviewsService.db st'))))).
  { intros st0 Hc.
    pose proof (getStatistics_fresh
                  {| ReviewsService.db := ReviewsService.db st';
                     ReviewsService.cache := ReviewsService.cache st0 |}) as H.
    cbn [ReviewsService.db] in H.
    replace (ReviewsService.cache (snd (ReviewsService.invalidateCache _)))
      with (ReviewsService.cache st') in H
      by (rewrite Hc, !invalidateCache_run; reflexivity).
    rewrite state_eta in H. exact H. }
  repeat split; intros.
  - eapply Hfresh, syncReviews_invalidates; eassumption.
  - eapply Hfresh, create_invalidates; eassumption.
  - eapply Hfresh, update_invalidates; eassumption.
  - eapply Hfresh, approveReview_invalidates; eassumption.
  - eapply Hfresh, bulkApprove_invalidates; eassumption.
  - eapply Hfresh, remove_invalidates; eassumption.
Qed.

(** ** A created review *)

Lemma repository_create_new (data : PartialReview.t) (now : Z)
    (s s' : Model.Store) (review : Review.t) :
  ReviewsRepository.create data now s = (Ok review, s') ->
  exists r0,
    Model.construct (Model.ObjectId (Model.issued s)) now data = Ok r0
    /\ ReviewsRepository.validate r0 = true
    /\ review = ReviewsRepository.pre_save r0
    /\ ReviewsRepository.findByHostawayId (Review.hostawayId review) s = None
    /\ Model.docs s' = Model.docs s ++ [review].
Proof.
  unfold ReviewsRepository.create.
  destruct (Model.construct _ now data) as [e|r0] eqn:Ec; [discriminate|].
  unfold ReviewsRepository.save.
  destruct (ReviewsRepository.validate r0) eqn:Ev; [|discriminate].
  destruct (ReviewsRepository.findByHostawayId _ s) eqn:Ef; [discriminate|].
  intros [= <- <-]. exists r0. auto.
Qed.

Lemma pre_save_on_scale (r : Review.t) :
  forallb (fun c => ReviewsRepository.in_range (ReviewCategory.rating c))
          (Review.reviewCategories r) = true ->
  match Review.reviewCategories r with
  | [] =>
      Review.averageCategoryRating (ReviewsRepository.pre_save r)
      = Review.averageCategoryRating r
  | _ :: _ =>
      exists a,
        Review.averageCategoryRating (ReviewsRepository.pre_save r) = Some a
        /\ 0 <= a /\ a <= 10
  end.
Proof.
  intros Hv. unfold ReviewsRepository.pre_save.
  destruct (Review.reviewCategories r) as [|c cs] eqn:E; [reflexivity|].
  change (0 <? length (c :: cs))%nat with true. cbv iota.
  eexists. split; [reflexivity|].
  assert (Hall : Forall (fun x => 0 <= ReviewCategory.rating x
                                 /\ ReviewCategory.rating x <= 10) (c :: cs)).
  { apply List.Forall_forall. intros x Hx.
    rewrite forallb_forall in Hv. specialize (Hv x Hx).
    unfold ReviewsRepository.in_range in Hv. apply andb_true_iff in Hv.
    destruct Hv as [H0 H10]. now rewrite !Qle_bool_iff in *. }
  assert (Hne : c :: cs <> []) by discriminate.
  destruct (mean_bounds ReviewCategory.rating (c :: cs) 0 10 Hne Hall) as [Hlo Hhi].
  unfold Mongo.of_nat. rewrite sum_by_map. split; assumption.
Qed.

(** A review that [create] returns is the last document of the store and is
    found again by its Hostaway id; it is not approved and carries no approver,
    approval time or manager notes; when it has category ratings its average
    lies between 0 and 10; and creating a review with the same Hostaway id
    again is refused with a BadRequestException that changes nothing. *)
Theorem created_review_is_stored `{RT : Runtime} (dto : CreateReviewDto.t)
    (now : Z) (st st' : ReviewsService.State) (review : Review.t) :
  ReviewsService.create dto now st = (Ok review, st') ->
  Model.docs (ReviewsService.db st')
  = Model.docs (ReviewsService.db st) ++ [review]
  /\ Review.hostawayId review = CreateReviewDto.hostawayId dto
  /\ ReviewsRepository.findByHostawayId (CreateReviewDto.hostawayId dto)
       (ReviewsService.db st') = Some review
  /\ Review.isApprovedForPublic review = false
  /\ Review.approvedBy review = None
  /\ Review.approvedAt review = None
  /\ Review.managerNotes review = None
  /\ Review.createdAt review = now
  /\ match Review.reviewCategories review with
     | [] => Review.averageCategoryRating review = None
     | _ :: _ =>
         exists a, Review.averageCategoryRating review = Some a
                   /\ 0 <= a /\ a <= 10
     end
  /\ forall (again : CreateReviewDto.t) (later : Z),
       CreateReviewDto.hostawayId again = CreateReviewDto.hostawayId dto ->
       ReviewsService.create again later st'
       = (Throw (BadRequestException
                   ("Review with Hostaway ID "
                    ++ pretty (CreateReviewDto.hostawayId dto)
                    ++ " already exists")), st').
Proof.
  intros Hrun.
  assert (Hrepo :
    ReviewsRepository.findByHostawayId (CreateReviewDto.hostawayId dto)
      (ReviewsService.db st) = None
    /\ ReviewsRepository.create (ReviewsService.transformCreateDtoToEntity dto)
         now (ReviewsService.db st) = (Ok review, ReviewsService.db st')).
  { revert Hrun. unfold ReviewsService.create. run_service.
    destruct (ReviewsRepository.findByHostawayId _ _); [discriminate|].
    destruct (ReviewsRepository.create _ _ _) as [[e|r] db']; [discriminate|].
    cbv beta iota. rewrite invalidateCache_run. unfold Ok.
    intros [= <- <-]. split; reflexivity. }
  destruct Hrepo as [Hnone Hcreate].
  destruct (repository_create_new _ _ _ _ _ Hcreate)
    as (r0 & Hc & Hv & -> & Hfresh & Hdocs).
  assert (Hfields :
    Review.hostawayId r0 = CreateReviewDto.hostawayId dto
    /\ Review.isApprovedForPublic r0 = false
    /\ Review.approvedBy r0 = None /\ Review.approvedAt r0 = None
    /\ Review.managerNotes r0 = None /\ Review.createdAt r0 = now
    /\ Review.averageCategoryRating r0 = None).
  { revert Hc. unfold Model.construct, rbind, Model.required,
      Model.required_string, Ok, Throw.
    cbn [ReviewsService.transformCreateDtoToEntity PartialReview.hostawayId
         PartialReview.type PartialReview.status PartialReview.publicReview
         PartialReview.submittedAt PartialReview.guestName
         PartialReview.listingId PartialReview.listingName].
    repeat case_match; try discriminate. intros [= <-]. cbn. tauto. }
  destruct Hfields as (Hid & Happ & Hby & Hat & Hnotes & Hcreated & Havg).
  assert (Hkeep : forall r,
    Review.hostawayId (ReviewsRepository.pre_save r) = Review.hostawayId r
    /\ Review.isApprovedForPublic (ReviewsRepository.pre_save r)
       = Review.isApprovedForPublic r
    /\ Review.approvedBy (ReviewsRepository.pre_save r) = Review.approvedBy r
    /\ Review.approvedAt (ReviewsRepository.pre_save r) = Review.approvedAt r
    /\ Review.managerNotes (ReviewsRepository.pre_save r) = Review.managerNotes r
    /\ Review.createdAt (ReviewsRepository.pre_save r) = Review.createdAt r).
  { intros r. unfold ReviewsRepository.pre_save.
    destruct (0 <? _)%nat; cbn; tauto. }
  destruct (Hkeep r0) as (K1 & K2 & K3 & K4 & K5 & K6).
  assert (Hfound :
    ReviewsRepository.findByHostawayId (CreateReviewDto.hostawayId dto)
      (ReviewsService.db st') = Some (ReviewsRepository.pre_save r0)).
  { unfold ReviewsRepository.findByHostawayId in *. rewrite Hdocs, find_append.
    rewrite Hnone. cbn. rewrite K1, Hid.
    rewrite bool_decide_eq_true_2 by reflexivity. reflexivity. }
  repeat split; try congruence.
  - assert (Hcats : forallb (fun c => ReviewsRepository.in_range (ReviewCategory.rating c))
                      (Review.reviewCategories r0) = true).
    { unfold ReviewsRepository.validate in Hv. rewrite !andb_true_iff in Hv.
      tauto. }
    pose proof (pre_save_on_scale r0 Hcats) as Hp.
    rewrite pre_save_categories.
    destruct (Review.reviewCategories r0); [congruence | exact Hp].
  - intros again later Hsame. unfold ReviewsService.create. run_service.
    rewrite Hsame, Hfound. reflexivity.
Qed.

Lemma created_review_is_stored_witness :
  exists review st',
    ReviewsService.create (RT := Sample.runtime)
      (Sample.create_dto 7454 [ReviewCategory.mk "cleanliness" 9]) 5
      (Sample.state Sample.one_review) = (Ok review, st')
    /\ ReviewsRepository.findByHostawayId 7454 (ReviewsService.db st')
       = Some review
    /\ Review.isApprovedForPublic review = false.
Proof.
  eexists _, _. split; [vm_compute; reflexivity|].
  match goal with
  | |- ReviewsRepository.findByHostawayId _ (ReviewsService.db ?s) = Some ?r /\ _ =>
      destruct (created_review_is_stored (RT := Sample.runtime)
                  (Sample.create_dto 7454 [ReviewCategory.mk "cleanliness" 9]) 5
                  (Sample.state Sample.one_review) s r)
        as (_ & _ & Hfound & Happroved & _)
  end.
  - vm_compute. reflexivity.
  - split; [exact Hfound | exact Happroved].
Defined.

(** ** The order of date strings *)


(** ** The trend *)


(** ** Rounding to the even hundredth *)

Lemma round2_number_mono (x y : Q) :
  x <= y -> Mongo.round2_number x <= Mongo.round2_number y.
Proof.
  intros Hxy. unfold Mongo.round2_number. cbv zeta.
  assert (H100 : x * 100 <= y * 100) by lra.
  pose proof (Qfloor_resp_le _ _ H100) as Hf.
  pose proof (Qfloor_le (x * 100)) as Hx1. pose proof (Qlt_floor (x * 100)) as Hx2.
  pose proof (Qfloor_le (y * 100)) as Hy1. pose proof (Qlt_floor (y * 100)) as Hy2.
  rewrite inject_Z_plus in Hx2, Hy2. change (inject_Z 1) with 1 in Hx2, Hy2.
  set (fx := Qfloor (x * 100)) in *. set (fy := Qfloor (y * 100)) in *.
  assert (Hdiv : forall a b : Z, (a <= b)%Z -> inject_Z a / 100 <= inject_Z b / 100).
  { intros a b Hab. rewrite Zle_Qle in Hab. unfold Qdiv.
    apply Qmult_le_compat_r; [assumption | discriminate]. }
  apply Hdiv.
  destruct (Z.eq_dec fx fy) as [E|Hne].
  - rewrite <- E in *.
    destruct (Qle_bool (x * 100 - inject_Z fx) (1 # 2)) eqn:A1;
      destruct (Qle_bool (1 # 2) (x * 100 - inject_Z fx)) eqn:A2;
      destruct (Qle_bool (y * 100 - inject_Z fx) (1 # 2)) eqn:B1;
      destruct (Qle_bool (1 # 2) (y * 100 - inject_Z fx)) eqn:B2;
      destruct (Z.even fx);
      try lia;
      try apply Qle_bool_iff in A1; try apply Qle_bool_iff in A2;
      try apply Qle_bool_iff in B1; try apply Qle_bool_iff in B2;
      try (apply not_true_iff_false in A1; rewrite Qle_bool_iff in A1);
      try (apply not_true_iff_false in A2; rewrite Qle_bool_iff in A2);
      try (apply not_true_iff_false in B1; rewrite Qle_bool_iff in B1);
      try (apply not_true_iff_false in B2; rewrite Qle_bool_iff in B2);
      exfalso;
      try (apply A1; lra); try (apply A2; lra);
      try (apply B1; lra); try (apply B2; lra).
  - assert (Hlt : (fx + 1 <= fy)%Z) by lia.
    destruct (Qle_bool (x * 100 - inject_Z fx) (1 # 2));
      destruct (Qle_bool (1 # 2) (x * 100 - inject_Z fx));
      destruct (Qle_bool (y * 100 - inject_Z fy) (1 # 2));
      destruct (Qle_bool (1 # 2) (y * 100 - inject_Z fy));
      destruct (Z.even fx); destruct (Z.even fy); lia.
Qed.

Lemma round2_number_whole (k : Z) : Mongo.round2_number (inject_Z k) == inject_Z k.
Proof.
  unfold Mongo.round2_number. cbv zeta.
  assert (E : inject_Z k * 100 == inject_Z (k * 100)).
  { rewrite inject_Z_mult. reflexivity. }
  assert (Ef : Qfloor (inject_Z k * 100) = (k * 100)%Z).
  { rewrite (Qfloor_comp _ _ E). apply Qfloor_Z. }
  rewrite Ef.
  assert (Ed : inject_Z k * 100 - inject_Z (k * 100) == 0) by (rewrite E; ring).
  assert (H1 : Qle_bool (inject_Z k * 100 - inject_Z (k * 100)) (1 # 2) = true).
  { apply Qle_bool_iff. rewrite Ed. discriminate. }
  assert (H2 : Qle_bool (1 # 2) (inject_Z k * 100 - inject_Z (k * 100)) = false).
  { apply not_true_iff_false. rewrite Qle_bool_iff, Ed. intros H. now apply H. }
  rewrite H1, H2. rewrite inject_Z_mult. field.
Qed.

Lemma round2_percent (x : Q) : 0 <= x -> x <= 100 ->
  0 <= Mongo.round2_number x /\ Mongo.round2_number x <= 100.
Proof.
  intros H0 H100. split.
  - rewrite <- (round2_number_whole 0). now apply round2_number_mono.
  - rewrite <- (round2_number_whole 100). now apply round2_number_mono.
Qed.

Lemma percentage_bounds (part whole : nat) (rate : Q) :
  (part <= whole)%nat ->
  AnalyticsService.percentage part whole = Ok rate ->
  0 <= rate /\ rate <= 100.
Proof.
  intros Hp. unfold AnalyticsService.percentage, Mongo.divide.
  destruct (Qeq_bool (Mongo.of_nat whole) 0) eqn:E; [discriminate|].
  cbn. intros [= <-].
  assert (Hw : (1 <= whole)%nat).
  { destruct whole; [|lia]. discriminate E. }
  apply round2_percent; now apply share_percent.
Qed.

(** ** Smallest, mean and largest *)

Lemma fold_min_below (qs : list Q) (q : Q) :
  let m := fold_left (fun m x => if Qle_bool x m then x else m) qs q in
  m <= q /\ Forall (fun x => m <= x) qs.
Proof.
  revert q. induction qs as [|x qs IH]; intros q; cbn.
  - split; [lra | constructor].
  - destruct (IH (if Qle_bool x q then x else q)) as [Hm Hall].
    destruct (Qle_bool x q) eqn:E.
    + apply Qle_bool_iff in E. split; [lra|]. constructor; assumption.
    + assert (q < x).
      { apply Qnot_le_lt. intros H. apply Qle_bool_iff in H. congruence. }
      split; [assumption|]. constructor; [lra | assumption].
Qed.

Lemma fold_max_above (qs : list Q) (q : Q) :
  let m := fold_left (fun m x => if Qle_bool m x then x else m) qs q in
  q <= m /\ Forall (fun x => x <= m) qs.
Proof.
  revert q. induction qs as [|x qs IH]; intros q; cbn.
  - split; [lra | constructor].
  - destruct (IH (if Qle_bool q x then x else q)) as [Hm Hall].
    destruct (Qle_bool q x) eqn:E.
    + apply Qle_bool_iff in E. split; [lra|]. constructor; assumption.
    + assert (x < q).
      { apply Qnot_le_lt. intros H. apply Qle_bool_iff in H. congruence. }
      split; [assumption|]. constructor; [lra | assumption].
Qed.

Lemma min_avg_max {A} (f : A -> option Q) (xs : list A) :
  match Mongo.min f xs, Mongo.avg f xs, Mongo.max f xs with
  | Some lo, Some a, Some hi => lo <= a /\ a <= hi
  | None, None, None => Mongo.numbers f xs = []
  | _, _, _ => False
  end.
Proof.
  unfold Mongo.min, Mongo.avg, Mongo.max.
  destruct (Mongo.numbers f xs) as [|q qs]; [reflexivity|].
  destruct (fold_min_below qs q) as [Hlo Hlos].
  destruct (fold_max_above qs q) as [Hhi Hhis].
  set (lo := fold_left (fun m x => if Qle_bool x m then x else m) qs q) in *.
  set (hi := fold_left (fun m x => if Qle_bool m x then x else m) qs q) in *.
  assert (Hall : Forall (fun x => lo <= id x /\ id x <= hi) (q :: qs)).
  { unfold id. constructor; [split; assumption|].
    rewrite List.Forall_forall in *. intros x Hx. split; auto. }
  assert (Hne : q :: qs <> []) by discriminate.
  destruct (mean_bounds id (q :: qs) lo hi Hne Hall) as [H1 H2].
  rewrite map_id in H1, H2.
  assert (E : fold_left Qplus (q :: qs) 0 == fold_right Qplus 0 (q :: qs)).
  { rewrite <- (map_id (q :: qs)) at 2.
    rewrite <- (sum_by_map id (q :: qs)). reflexivity. }
  unfold Mongo.of_nat. rewrite E. split; assumption.
Qed.

Lemma round2_min_avg_max {A} (f : A -> option Q) (xs : list A) :
  match Mongo.round2 (Mongo.min f xs), Mongo.round2 (Mongo.avg f xs),
        Mongo.round2 (Mongo.max f xs) with
  | Some lo, Some a, Some hi => lo <= a /\ a <= hi
  | None, None, None => Mongo.numbers f xs = []
  | _, _, _ => False
  end.
Proof.
  pose proof (min_avg_max f xs) as H.
  destruct (Mongo.min f xs), (Mongo.avg f xs), (Mongo.max f xs); cbn;
    try contradiction; [|assumption].
  destruct H. split; now apply round2_number_mono.
Qed.

Lemma remove_dups_shorter {A} `{EqDecision A} (l : list A) :
  (length (remove_dups l) <= length l)%nat.
Proof.
  induction l as [|x l IH]; cbn; [lia|].
  destruct (decide_rel elem_of x l); cbn; lia.
Qed.

Lemma remove_dups_cons_nonempty {A} `{EqDecision A} (x : A) (l : list A) :
  (1 <= length (remove_dups (x :: l)))%nat.
Proof.
  assert (H : x ∈ remove_dups (x :: l)) by (apply elem_of_remove_dups; left).
  destruct (remove_dups (x :: l)); [inversion H | cbn; lia].
Qed.

(** ** The analytics overview *)

(** The analytics overview never fails.  It counts the reviews that meet the
    date filter, each as approved or as pending; its approval rate lies
    between 0 and 100; and its number of properties is at least one when
    there is a review and never more than the number of reviews. *)
Theorem getOverviewStats_consistent `{RT : Runtime}
    (dateFilter : ReviewsRepository.FilterQuery) (s : Model.Store) :
  exists overview,
    AnalyticsService.getOverviewStats dateFilter s = Ok overview
    /\ AnalyticsService.Overview.totalReviews overview
       = length (ReviewsRepository.find_query dateFilter s)
    /\ (AnalyticsService.Overview.approvedCount overview
        + AnalyticsService.Overview.pendingCount overview)%nat
       = AnalyticsService.Overview.totalReviews overview
    /\ 0 <= AnalyticsService.Overview.approvalRate overview
    /\ AnalyticsService.Overview.approvalRate overview <= 100
    /\ (AnalyticsService.Overview.uniquePropertiesCount overview
        <= AnalyticsService.Overview.totalReviews overview)%nat
    /\ (AnalyticsService.Overview.totalReviews overview = 0%nat
        \/ (1 <= AnalyticsService.Overview.uniquePropertiesCount overview)%nat).
Proof.
  unfold AnalyticsService.getOverviewStats, AnalyticsService.overview_groups.
  rewrite group_by_single.
  destruct (ReviewsRepository.find_query dateFilter s) as [|r rs].
  - exists AnalyticsService.overview_fallback. cbn.
    split; [reflexivity|]. split; [reflexivity|]. split; [reflexivity|].
    split; [discriminate|]. split; [discriminate|]. split; [lia | now left].
  - cbn [map rmap]. unfold AnalyticsService.overview_project.
    cbn [AnalyticsService.overview_group snd
         AnalyticsService.OverviewGroup.approvedCount
         AnalyticsService.OverviewGroup.totalReviews].
    destruct (percentage_defined
                (Mongo.count_if Review.isApprovedForPublic (r :: rs))
                (Mongo.count (r :: rs))) as [rate Hrate]; [cbn; lia|].
    rewrite Hrate.
    destruct (percentage_bounds _ _ rate (count_if_le _ _) Hrate) as [H0 H100].
    eexists. split; [reflexivity|].
    cbn [AnalyticsService.Overview.totalReviews
         AnalyticsService.Overview.approvedCount
         AnalyticsService.Overview.pendingCount
         AnalyticsService.Overview.approvalRate
         AnalyticsService.Overview.uniquePropertiesCount
         AnalyticsService.OverviewGroup.pendingCount
         AnalyticsService.OverviewGroup.approvedCount
         AnalyticsService.OverviewGroup.totalReviews
         AnalyticsService.OverviewGroup.uniqueProperties].
    split; [reflexivity|]. split; [apply count_if_split|].
    split; [assumption|]. split; [assumption|]. split.
    + unfold Mongo.count. rewrite <- (length_map Review.listingId (r :: rs)).
      apply remove_dups_shorter.
    + right. cbn [map]. apply remove_dups_cons_nonempty.
Qed.

(** ** The analytics breakdowns *)

Lemma Forall2_map_eq {A B C} (R : A -> B -> Prop) (f : A -> C) (g : B -> C)
    (xs : list A) (ys : list B) :
  (forall x y, R x y -> f x = g y) ->
  Forall2 R xs ys -> map f xs = map g ys.
Proof.
  intros H. induction 1 as [|x y xs ys Hxy Hrest IH]; cbn; [reflexivity|].
  now rewrite (H x y Hxy), IH.
Qed.

Lemma channel_project_fields (g : AnalyticsService.ChannelGroup.t)
    (e : AnalyticsService.Channel.t) :
  AnalyticsService.channel_project g = Ok e ->
  AnalyticsService.Channel._id e = AnalyticsService.ChannelGroup._id g
  /\ AnalyticsService.Channel.channel e = AnalyticsService.ChannelGroup._id g
  /\ AnalyticsService.Channel.count e = AnalyticsService.ChannelGroup.count g
  /\ AnalyticsService.Channel.approvedCount e
     = AnalyticsService.ChannelGroup.approvedCount g
  /\ AnalyticsService.percentage (AnalyticsService.ChannelGroup.approvedCount g)
       (AnalyticsService.ChannelGroup.count g)
     = Ok (AnalyticsService.Channel.approvalRate e).
Proof.
  unfold AnalyticsService.channel_project.
  destruct (AnalyticsService.percentage _ _) as [err|rate]; [discriminate|].
  cbn. intros [= <-]. cbn. auto.
Qed.

(** The channel breakdown never fails.  Its channels are distinct, the most
    reviewed first, each with at least one review, no more approved reviews
    than reviews and an approval rate between 0 and 100; together they count
    exactly the reviews that meet the date filter. *)
Theorem getChannelBreakdown_consistent `{RT : Runtime}
    (dateFilter : ReviewsRepository.FilterQuery) (s : Model.Store) :
  exists channels,
    AnalyticsService.getChannelBreakdown dateFilter s = Ok channels
    /\ StronglySorted
         (fun a b => (AnalyticsService.Channel.count b
                      <= AnalyticsService.Channel.count a)%nat) channels
    /\ List.NoDup (map AnalyticsService.Channel.channel channels)
    /\ sum_list (map AnalyticsService.Channel.count channels)
       = length (ReviewsRepository.find_query dateFilter s)
    /\ Forall
         (fun c =>
            (1 <= AnalyticsService.Channel.count c)%nat
            /\ (AnalyticsService.Channel.approvedCount c
                <= AnalyticsService.Channel.count c)%nat
            /\ 0 <= AnalyticsService.Channel.approvalRate c
            /\ AnalyticsService.Channel.approvalRate c <= 100)
         channels.
Proof.
  unfold AnalyticsService.getChannelBreakdown.
  destruct (rmap_defined AnalyticsService.channel_project
              (AnalyticsService.channel_groups dateFilter s))
    as (projected & Hr & Hf).
  { eapply Forall_impl; [apply channel_groups_counted|].
    intros g Hg. unfold AnalyticsService.channel_project.
    destruct (percentage_defined (AnalyticsService.ChannelGroup.approvedCount g)
                _ Hg) as [rate ->].
    cbn. eauto. }
  rewrite Hr. eexists. split; [reflexivity|].
  set (le := fun a b : AnalyticsService.Channel.t => _).
  assert (Hids : map AnalyticsService.Channel.channel projected
                 = map fst (Mongo.group_by Review.channel
                              (ReviewsRepository.find_query dateFilter s))).
  { symmetry. unfold AnalyticsService.channel_groups in Hf.
    rewrite <- (map_map AnalyticsService.channel_group
                  AnalyticsService.ChannelGroup._id).
    eapply Forall2_map_eq; [|exact Hf].
    intros g e He. destruct (channel_project_fields g e He) as (_ & -> & _).
    reflexivity. }
  assert (Hcounts : map AnalyticsService.Channel.count projected
                    = map (fun g => length (snd g))
                          (Mongo.group_by Review.channel
                             (ReviewsRepository.find_query dateFilter s))).
  { symmetry. unfold AnalyticsService.channel_groups in Hf.
    rewrite <- (map_map AnalyticsService.channel_group
                  AnalyticsService.ChannelGroup.count).
    eapply Forall2_map_eq; [|exact Hf].
    intros g e He. destruct (channel_project_fields g e He) as (_ & _ & -> & _).
    reflexivity. }
  split; [|split; [|split]].
  - eapply StronglySorted_weaken; [|apply sort_by_sorted].
    + intros a b H. unfold Mongo.by_leb, le in H. now apply Nat.leb_le in H.
    + intros a b. unfold le. rewrite !Nat.leb_le. lia.
    + intros a b c. unfold le. rewrite !Nat.leb_le. lia.
  - eapply Permutation_NoDup.
    + apply Permutation_map. symmetry. apply merge_sort_Permutation.
    + rewrite Hids. apply group_by_keys_NoDup.
  - rewrite sum_list_sort_by, Hcounts. apply group_by_sizes.
  - apply sort_by_Forall. apply Forall2_sources in Hf.
    eapply Forall_impl; [exact Hf|].
    intros e (g & Hin & He).
    destruct (channel_project_fields g e He) as (_ & _ & Hc & Ha & Hrate).
    unfold AnalyticsService.channel_groups in Hin.
    apply in_map_iff in Hin. destruct Hin as (grp & <- & Hgrp).
    pose proof (group_by_nonempty Review.channel
                  (ReviewsRepository.find_query dateFilter s)) as Hne.
    rewrite List.Forall_forall in Hne. specialize (Hne grp Hgrp).
    cbn in Hc, Ha, Hrate. rewrite Hc, Ha.
    split; [now apply count_positive|]. split; [apply count_if_le|].
    eapply percentage_bounds; [|exact Hrate]. apply count_if_le.
Qed.

Lemma property_project_all (g : AnalyticsService.PropertyGroup.t)
    (e : AnalyticsService.Property.t) :
  AnalyticsService.property_project g = Ok e ->
  e = {| AnalyticsService.Property._id := AnalyticsService.PropertyGroup._id g;
         AnalyticsService.Property.listingId :=
           fst (AnalyticsService.PropertyGroup._id g);
         AnalyticsService.Property.listingName :=
           snd (AnalyticsService.PropertyGroup._id g);
         AnalyticsService.Property.totalReviews :=
           AnalyticsService.PropertyGroup.totalReviews g;
         AnalyticsService.Property.approvedReviews :=
           AnalyticsService.PropertyGroup.approvedReviews g;
         AnalyticsService.Property.pendingReviews :=
           AnalyticsService.PropertyGroup.pendingReviews g;
         AnalyticsService.Property.avgRating :=
           Mongo.round2 (AnalyticsService.PropertyGroup.avgRating g);
         AnalyticsService.Property.minRating :=
           Mongo.round2 (AnalyticsService.PropertyGroup.minRating g);
         AnalyticsService.Property.maxRating :=
           Mongo.round2 (AnalyticsService.PropertyGroup.maxRating g);
         AnalyticsService.Property.approvalRate :=
           AnalyticsService.Property.approvalRate e;
         AnalyticsService.Property.latestReviewDate :=
           AnalyticsService.PropertyGroup.latestReviewDate g;
         AnalyticsService.Property.performance :=
           AnalyticsService.performance_of
             (AnalyticsService.PropertyGroup.avgRating g) |}
  /\ AnalyticsService.percentage
       (AnalyticsService.PropertyGroup.approvedReviews g)
       (AnalyticsService.PropertyGroup.totalReviews g)
     = Ok (AnalyticsService.Property.approvalRate e).
Proof.
  unfold AnalyticsService.property_project.
  destruct (AnalyticsService.percentage _ _) as [err|rate]; [discriminate|].
  cbn. intros [= <-]. cbn. auto.
Qed.

Lemma latest_is_newest (xs : list Review.t) :
  match AnalyticsService.latest xs with
  | Some t =>
      Forall (fun r => (Review.submittedAt r <= t)%Z) xs
      /\ exists r, In r xs /\ Review.submittedAt r = t
  | None => xs = []
  end.
Proof.
  unfold AnalyticsService.latest. destruct xs as [|r rest]; [reflexivity|].
  assert (G : forall l m,
    (m <= fold_left (fun m x => Z.max m (Review.submittedAt x)) l m)%Z
    /\ Forall (fun x => (Review.submittedAt x
                         <= fold_left (fun m x => Z.max m (Review.submittedAt x)) l m)%Z) l
    /\ (fold_left (fun m x => Z.max m (Review.submittedAt x)) l m = m
        \/ exists x, In x l
             /\ Review.submittedAt x
                = fold_left (fun m x => Z.max m (Review.submittedAt x)) l m)).
  { induction l as [|x l IH]; intros m; cbn.
    - split; [lia|]. split; [constructor | now left].
    - destruct (IH (Z.max m (Review.submittedAt x))) as (H1 & H2 & H3).
      split; [lia|]. split; [constructor; [lia | assumption]|].
      destruct H3 as [H3 | (y & Hy & Ey)].
      + destruct (Z.max_spec m (Review.submittedAt x)) as [[_ E] | [_ E]].
        * right. exists x. split; [now left | congruence].
        * left. congruence.
      + right. exists y. split; [now right | assumption]. }
  destruct (G rest (Review.submittedAt r)) as (H1 & H2 & H3).
  split; [constructor; assumption|].
  destruct H3 as [H3 | (y & Hy & Ey)].
  - exists r. split; [now left | congruence].
  - exists y. split; [now right | assumption].
Qed.

(** The property breakdown never fails and reports the number of entries it
    lists.  Its properties are distinct; each has at least one review, every
    one approved or pending, an approval rate between 0 and 100, the
    submission time of its newest review as the latest review date, and
    either no rating at all or a lowest, an average and a highest rating in
    that order. *)
Theorem getPropertyBreakdown_consistent `{RT : Runtime}
    (filters : AnalyticsFilterDto.t) (now : Z) (s : Model.Store) :
  exists breakdown,
    AnalyticsService.getPropertyBreakdown filters now s = Ok breakdown
    /\ AnalyticsService.totalProperties breakdown
       = length (AnalyticsService.properties breakdown)
    /\ AnalyticsService.generatedAt breakdown = now
    /\ List.NoDup (map (fun e => (AnalyticsService.Property.listingId e,
                                  AnalyticsService.Property.listingName e))
                       (AnalyticsService.properties breakdown))
    /\ Forall
         (fun e =>
            (1 <= AnalyticsService.Property.totalReviews e)%nat
            /\ (AnalyticsService.Property.approvedReviews e
                + AnalyticsService.Property.pendingReviews e)%nat
               = AnalyticsService.Property.totalReviews e
            /\ 0 <= AnalyticsService.Property.approvalRate e
            /\ AnalyticsService.Property.approvalRate e <= 100
            /\ (exists r,
                  In r (Model.docs s)
                  /\ Review.listingId r = AnalyticsService.Property.listingId e
                  /\ AnalyticsService.Property.latestReviewDate e
                     = Some (Review.submittedAt r))
            /\ match AnalyticsService.Property.minRating e,
                     AnalyticsService.Property.avgRating e,
                     AnalyticsService.Property.maxRating e with
               | Some lo, Some a, Some hi => lo <= a /\ a <= hi
               | None, None, None => True
               | _, _, _ => False
               end)
         (AnalyticsService.properties breakdown).
Proof.
  destruct (getPropertyBreakdown_run filters now s) as (projected & Hf & Hrun).
  eexists. split; [exact Hrun|].
  cbn [AnalyticsService.properties AnalyticsService.totalProperties
       AnalyticsService.generatedAt].
  split; [reflexivity|]. split; [reflexivity|].
  unfold AnalyticsService.property_groups in Hf.
  set (matched := ReviewsRepository.find_query _ s) in Hf.
  set (key := fun r : Review.t => (Review.listingId r, Review.listingName r)) in Hf.
  split.
  - eapply Permutation_NoDup.
    + apply Permutation_map. symmetry. apply merge_sort_Permutation.
    + replace (map _ projected) with (map fst (Mongo.group_by key matched)).
      * apply group_by_keys_NoDup.
      * rewrite <- (map_map AnalyticsService.property_group
                      AnalyticsService.PropertyGroup._id).
        eapply Forall2_map_eq; [|exact Hf].
        intros g e He. destruct (property_project_all g e He) as (-> & _).
        cbn. now destruct (AnalyticsService.PropertyGroup._id g).
  - apply sort_by_Forall. apply Forall2_sources in Hf.
    eapply Forall_impl; [exact Hf|].
    intros e (g & Hin & He).
    destruct (property_project_all g e He) as (-> & Hrate).
    apply in_map_iff in Hin. destruct Hin as (grp & <- & Hgrp).
    pose proof (group_by_nonempty key matched) as Hne.
    pose proof (group_by_members key matched) as Hkey.
    assert (Hmatched : Forall (fun r => In r (Model.docs s)) matched).
    { apply List.Forall_forall. intros r Hr. unfold matched in Hr.
      unfold ReviewsRepository.find_query in Hr.
      rewrite <- list_elem_of_In in Hr. apply list_elem_of_filter in Hr.
      apply list_elem_of_In. tauto. }
    pose proof (group_by_from key _ matched Hmatched) as Hfrom.
    rewrite List.Forall_forall in Hne, Hkey, Hfrom.
    specialize (Hne grp Hgrp). specialize (Hkey grp Hgrp).
    specialize (Hfrom grp Hgrp).
    cbn in Hrate |- *.
    split; [now apply count_positive|]. split; [apply count_if_split|].
    destruct (percentage_bounds _ _ _ (count_if_le _ _) Hrate) as [H0 H100].
    split; [assumption|]. split; [assumption|]. split.
    + pose proof (latest_is_newest (snd grp)) as Hl.
      destruct (AnalyticsService.latest (snd grp)) as [t|]; [|contradiction].
      destruct Hl as (_ & r & Hr & Et).
      rewrite List.Forall_forall in Hkey, Hfrom.
      exists r. split; [now apply Hfrom|]. split; [|now rewrite Et].
      specialize (Hkey r Hr). unfold key in Hkey. rewrite <- Hkey. reflexivity.
    + pose proof (round2_min_avg_max Review.averageCategoryRating (snd grp)) as H.
      destruct (Mongo.round2 (Mongo.min Review.averageCategoryRating (snd grp))),
        (Mongo.round2 (Mongo.avg Review.averageCategoryRating (snd grp))),
        (Mongo.round2 (Mongo.max Review.averageCategoryRating (snd grp)));
        try contradiction; auto.
Qed.

(** ** The analytics summary *)



Lemma limit_10_length {A} (l : list A) :
  length (Mongo.limit 10 l) = Nat.min 10 (length l).
Proof. unfold Mongo.limit. cbn [Z.eqb Z.abs]. now rewrite length_take. Qed.


(** ** Recent activity *)


(** ** What a group holds *)

Lemma collect_absent {K A} `{EqDecision K} (k : K) (gs : list (K * list A)) :
  ~ In k (map fst gs) ->
  flat_map (fun g => if decide (fst g = k) then snd g else []) gs = [].
Proof.
  induction gs as [|[k' ys] gs IH]; cbn; [reflexivity|]. intros Hk.
  destruct (decide (k' = k)) as [->|_]; [exfalso; apply Hk; now left|].
  apply IH. intros H. apply Hk. now right.
Qed.

Lemma collect_insert {K A} `{EqDecision K} (k k' : K) (a : A)
    (gs : list (K * list A)) :
  List.NoDup (map fst gs) ->
  flat_map (fun g => if decide (fst g = k) then snd g else [])
           (Mongo.group_insert k' a gs)
  = flat_map (fun g => if decide (fst g = k) then snd g else []) gs
    ++ (if decide (k' = k) then [a] else []).
Proof.
  induction gs as [|[k'' ys] gs IH]; intros Hnd; cbn.
  - now rewrite app_nil_r.
  - inversion Hnd as [|? ? Hnotin Hnd']; subst.
    destruct (decide (k' = k'')) as [->|Hne]; cbn.
    + destruct (decide (k'' = k)) as [->|Hne'].
      * rewrite (collect_absent k gs Hnotin), !app_nil_r. reflexivity.
      * now rewrite app_nil_r.
    + rewrite (IH Hnd'). now rewrite app_assoc.
Qed.

Lemma collect_own {K A} `{EqDecision K} (g : K * list A)
    (gs : list (K * list A)) :
  List.NoDup (map fst gs) -> In g gs ->
  flat_map (fun g' => if decide (fst g' = fst g) then snd g' else []) gs = snd g.
Proof.
  induction gs as [|g0 gs IH]; intros Hnd Hin; [destruct Hin|].
  inversion Hnd as [|? ? Hnotin Hnd']; subst. cbn.
  destruct Hin as [->|Hin].
  - rewrite decide_True by reflexivity.
    rewrite (collect_absent _ gs Hnotin). apply app_nil_r.
  - rewrite decide_False.
    + cbn. now apply IH.
    + intros E. apply Hnotin. rewrite E. now apply in_map.
Qed.

Lemma group_by_collect {K A} `{EqDecision K} (key : A -> K) (k : K)
    (xs : list A) :
  flat_map (fun g => if decide (fst g = k) then snd g else [])
           (Mongo.group_by key xs)
  = filter (fun x => key x = k) xs.
Proof.
  induction xs as [|x xs IH] using rev_ind; [reflexivity|].
  rewrite group_by_snoc.
  rewrite collect_insert by apply group_by_keys_NoDup.
  rewrite IH, filter_app. reflexivity.
Qed.

Lemma group_by_group {K A} `{EqDecision K} (key : A -> K) (xs : list A)
    (g : K * list A) :
  In g (Mongo.group_by key xs) ->
  snd g = filter (fun x => key x = fst g) xs.
Proof.
  intros Hin. rewrite <- group_by_collect.
  symmetry. apply collect_own; [apply group_by_keys_NoDup | exact Hin].
Qed.

(** ** Orders on two keys *)

Lemma lowest_first_total (a b : Review.t) :
  AnalyticsService.lowest_first a b = true
  \/ AnalyticsService.lowest_first b a = true.
Proof.
  unfold AnalyticsService.lowest_first.
  destruct (Mongo.leb (Review.averageCategoryRating a)
                      (Review.averageCategoryRating b)) eqn:Eab;
    destruct (Mongo.leb (Review.averageCategoryRating b)
                        (Review.averageCategoryRating a)) eqn:Eba; cbn; auto.
  - rewrite !Z.leb_le. lia.
  - destruct (mongo_leb_total (Review.averageCategoryRating a)
                (Review.averageCategoryRating b)); congruence.
Qed.

Lemma lowest_first_trans (a b c : Review.t) :
  AnalyticsService.lowest_first a b = true ->
  AnalyticsService.lowest_first b c = true ->
  AnalyticsService.lowest_first a c = true.
Proof.
  unfold AnalyticsService.lowest_first.
  rewrite !andb_true_iff, !orb_true_iff, !negb_true_iff, !Z.leb_le.
  intros [Hab Tab] [Hbc Tbc].
  split; [eapply mongo_leb_trans; eassumption|].
  destruct (Mongo.leb (Review.averageCategoryRating c)
                      (Review.averageCategoryRating a)) eqn:Eca; [right | now left].
  assert (Hba : Mongo.leb (Review.averageCategoryRating b)
                          (Review.averageCategoryRating a) = true)
    by (eapply mongo_leb_trans; eassumption).
  assert (Hcb : Mongo.leb (Review.averageCategoryRating c)
                          (Review.averageCategoryRating b) = true)
    by (eapply mongo_leb_trans; eassumption).
  destruct Tab as [Tab|Tab]; [congruence|].
  destruct Tbc as [Tbc|Tbc]; [congruence|]. lia.
Qed.

Lemma highest_first_total (a b : Review.t) :
  AnalyticsService.highest_first a b = true
  \/ AnalyticsService.highest_first b a = true.
Proof.
  unfold AnalyticsService.highest_first.
  destruct (Mongo.leb (Review.averageCategoryRating a)
                      (Review.averageCategoryRating b)) eqn:Eab;
    destruct (Mongo.leb (Review.averageCategoryRating b)
                        (Review.averageCategoryRating a)) eqn:Eba; cbn; auto.
  - rewrite !Z.leb_le. lia.
  - destruct (mongo_leb_total (Review.averageCategoryRating a)
                (Review.averageCategoryRating b)); congruence.
Qed.

Lemma highest_first_trans (a b c : Review.t) :
  AnalyticsService.highest_first a b = true ->
  AnalyticsService.highest_first b c = true ->
  AnalyticsService.highest_first a c = true.
Proof.
  unfold AnalyticsService.highest_first.
  rewrite !andb_true_iff, !orb_true_iff, !negb_true_iff, !Z.leb_le.
  intros [Hab Tab] [Hbc Tbc].
  split; [eapply mongo_leb_trans; eassumption|].
  destruct (Mongo.leb (Review.averageCategoryRating a)
                      (Review.averageCategoryRating c)) eqn:Eac; [right | now left].
  assert (Hba : Mongo.leb (Review.averageCategoryRating a)
                          (Review.averageCategoryRating b) = true)
    by (eapply mongo_leb_trans; eassumption).
  assert (Hcb : Mongo.leb (Review.averageCategoryRating b)
                          (Review.averageCategoryRating c) = true)
    by (eapply mongo_leb_trans; eassumption).
  destruct Tab as [Tab|Tab]; [congruence|].
  destruct Tbc as [Tbc|Tbc]; [congruence|]. lia.
Qed.

Lemma StronglySorted_take_5 {A} (R : relation A) (l : list A) :
  StronglySorted R l -> StronglySorted R (take 5 l).
Proof. apply StronglySorted_take. Qed.

(** ** The reviews of the insights *)

(** The insights show five low-rated and five high-rated reviews at most.
    Every low-rated one is a stored review with an average below 7, and
    they come lowest average first; every high-rated one is a stored review
    with an average of 9 or more, and they come highest average first; in
    both lists the newer of two reviews with the same average comes
    first. *)
Theorem getInsights_rated_reviews `{RT : Runtime}
    (filters : AnalyticsFilterDto.t) (s : Model.Store) :
  let insights := AnalyticsService.getInsights filters s in
  let low := AnalyticsService.Insights.lowRatedReviews insights in
  let high := AnalyticsService.Insights.highRatedReviews insights in
  let average := AnalyticsService.Rated.averageCategoryRating in
  let submitted := AnalyticsService.Rated.submittedAt in
  let stored (x : AnalyticsService.Rated.t) :=
    exists r, In r (Model.docs s)
              /\ ReviewsRepository.matches
                   (AnalyticsService.buildDateFilter filters) r = true
              /\ AnalyticsService.Rated._id x = Review._id r
              /\ average x = Review.averageCategoryRating r in
  (length low <= 5)%nat
  /\ Forall (fun x => stored x /\ exists a, average x = Some a /\ a < 7) low
  /\ StronglySorted
       (fun x y => Mongo.leb (average x) (average y) = true
                   /\ (Mongo.leb (average y) (average x) = true ->
                       (submitted y <= submitted x)%Z)) low
  /\ (length high <= 5)%nat
  /\ Forall (fun x => stored x /\ exists a, average x = Some a /\ 9 <= a) high
  /\ StronglySorted
       (fun x y => Mongo.leb (average y) (average x) = true
                   /\ (Mongo.leb (average x) (average y) = true ->
                       (submitted y <= submitted x)%Z)) high.
Proof.
  cbn zeta. unfold AnalyticsService.getInsights.
  cbn [AnalyticsService.Insights.lowRatedReviews
       AnalyticsService.Insights.highRatedReviews].
  set (dateFilter := AnalyticsService.buildDateFilter filters).
  split; [rewrite length_take; lia|].
  split; [|split; [|split; [rewrite length_take; lia|split]]].
  - apply Forall_take. unfold AnalyticsService.getLowRatedReviews.
    apply Forall_map, limit_Forall, sort_by_Forall.
    apply List.Forall_forall. intros r Hr.
    rewrite <- list_elem_of_In in Hr. apply list_elem_of_filter in Hr.
    destruct Hr as [Hq Hin]. apply andb_true_iff in Hq.
    destruct Hq as [Hlt Hm]. cbn in Hlt.
    cbn [AnalyticsService.Rated.averageCategoryRating AnalyticsService.Rated._id].
    split.
    + exists r. split; [now apply list_elem_of_In|]. auto.
    + unfold AnalyticsService.field_lt in Hlt.
      destruct (Review.averageCategoryRating r) as [a|]; [|discriminate].
      exists a. split; [reflexivity|]. apply negb_true_iff in Hlt.
      apply Qnot_le_lt. intros H. apply Qle_bool_iff in H. congruence.
  - apply StronglySorted_take. unfold AnalyticsService.getLowRatedReviews.
    apply (StronglySorted_fmap _
             (fun x y => Mongo.leb (Review.averageCategoryRating x)
                                   (Review.averageCategoryRating y) = true
                         /\ (Mongo.leb (Review.averageCategoryRating y)
                                       (Review.averageCategoryRating x) = true ->
                             (Review.submittedAt y <= Review.submittedAt x)%Z))).
    + intros a b H. exact H.
    + apply limit_sorted.
      eapply StronglySorted_weaken; [|apply sort_by_sorted].
      * intros a b H. unfold Mongo.by_leb, AnalyticsService.lowest_first in H.
        rewrite andb_true_iff, orb_true_iff, negb_true_iff, Z.leb_le in H.
        destruct H as [H1 H2]. split; [assumption|].
        intros H3. destruct H2; [congruence | assumption].
      * apply lowest_first_total.
      * apply lowest_first_trans.
  - apply Forall_take. unfold AnalyticsService.getHighRatedReviews.
    apply Forall_map, limit_Forall, sort_by_Forall.
    apply List.Forall_forall. intros r Hr.
    unfold ReviewsRepository.find_query in Hr.
    rewrite <- list_elem_of_In in Hr. apply list_elem_of_filter in Hr.
    destruct Hr as [Hq Hin].
    unfold ReviewsRepository.matches in Hq. rewrite !andb_true_iff in Hq.
    destruct Hq as [[[[[[[H1 H2] H3] H4] H5] H6] H7] H8].
    cbn in H1, H2, H3, H4, H5, H8.
    cbn [AnalyticsService.Rated.averageCategoryRating AnalyticsService.Rated._id].
    split.
    + exists r. split; [now apply list_elem_of_In|]. split; [|auto].
      unfold ReviewsRepository.matches. rewrite !andb_true_iff.
      cbn [AnalyticsService.high_query ReviewsRepository.q_submittedAt_gte
           ReviewsRepository.q_submittedAt_lte] in H6, H7.
      repeat split; try reflexivity; assumption.
    + unfold Mongo.gte in H4. cbn in H4.
      destruct (Review.averageCategoryRating r) as [a|]; [|discriminate].
      exists a. split; [reflexivity|]. now apply Qle_bool_iff.
  - apply StronglySorted_take. unfold AnalyticsService.getHighRatedReviews.
    apply (StronglySorted_fmap _
             (fun x y => Mongo.leb (Review.averageCategoryRating y)
                                   (Review.averageCategoryRating x) = true
                         /\ (Mongo.leb (Review.averageCategoryRating x)
                                       (Review.averageCategoryRating y) = true ->
                             (Review.submittedAt y <= Review.submittedAt x)%Z))).
    + intros a b H. exact H.
    + apply limit_sorted.
      eapply StronglySorted_weaken; [|apply sort_by_sorted].
      * intros a b H. unfold Mongo.by_leb, AnalyticsService.highest_first in H.
        rewrite andb_true_iff, orb_true_iff, negb_true_iff, Z.leb_le in H.
        destruct H as [H1 H2]. split; [assumption|].
        intros H3. destruct H2; [congruence | assumption].
      * apply highest_first_total.
      * apply highest_first_trans.
Qed.

(** ** Alerts and recommendations *)

(** The alert on low-rated reviews is raised exactly when a stored review
    that meets the date filter has an average below 7, and it is then the
    first alert; the number it reports is the number of such reviews up to
    ten, and ten when there are more.  The only other alert is the one on
    categories. *)
Theorem getInsights_alert_counts_ten_at_most `{RT : Runtime}
    (filters : AnalyticsFilterDto.t) (s : Model.Store) :
  let low (r : Review.t) :=
    ReviewsRepository.matches (AnalyticsService.buildDateFilter filters) r
    && match Review.averageCategoryRating r with
       | Some a => negb (Qle_bool 7 a)
       | None => false
       end in
  let n := length (filter (fun r => low r = true) (Model.docs s)) in
  let alerts :=
    AnalyticsService.Insights.alerts (AnalyticsService.getInsights filters s) in
  match n with
  | O =>
      Forall (fun a => AnalyticsService.Alert.title a = "Category Performance Issues")
             alerts
      /\ (length alerts <= 1)%nat
  | S _ =>
      exists rest,
        alerts
        = {| AnalyticsService.Alert.type := "warning";
             AnalyticsService.Alert.title := "Low-Rated Reviews Detected";
             AnalyticsService.Alert.message :=
               pretty (Nat.min 10 n)
               ++ " reviews with ratings below 7.0 require attention";
             AnalyticsService.Alert.priority := "high" |} :: rest
        /\ Forall (fun a => AnalyticsService.Alert.title a
                            = "Category Performance Issues") rest
        /\ (length rest <= 1)%nat
  end.
Proof.
  cbn zeta. unfold AnalyticsService.getInsights.
  cbn [AnalyticsService.Insights.alerts].
  set (dateFilter := AnalyticsService.buildDateFilter filters).
  set (categories := AnalyticsService.getCategoryInsights dateFilter s).
  assert (Hlen :
    length (AnalyticsService.getLowRatedReviews dateFilter s)
    = Nat.min 10
        (length (filter
                   (fun r => ReviewsRepository.matches dateFilter r
                             && match Review.averageCategoryRating r with
                                | Some a => negb (Qle_bool 7 a)
                                | None => false
                                end = true) (Model.docs s)))).
  { unfold AnalyticsService.getLowRatedReviews.
    rewrite length_map, limit_10_length, sort_by_length. f_equal. f_equal.
    apply list_filter_iff. intros r. cbn.
    unfold AnalyticsService.field_lt. rewrite !andb_true_iff. tauto. }
  unfold AnalyticsService.generateAlerts.
  rewrite Hlen.
  set (n := length (filter _ (Model.docs s))).
  set (lowCategories := List.filter _ categories).
  destruct n as [|n'].
  - change (0 <? Nat.min 10 0)%nat with false. cbv iota.
    destruct (0 <? length lowCategories)%nat; cbn [app length].
    + split; [repeat constructor | lia].
    + split; [constructor | lia].
  - assert (Hpos : (0 <? Nat.min 10 (S n'))%nat = true)
      by (apply Nat.ltb_lt; lia).
    rewrite Hpos. cbn [app].
    destruct (0 <? length lowCategories)%nat; cbn [app]; eexists;
      (split; [reflexivity|]).
    + split; [repeat constructor | cbn; lia].
    + split; [constructor | cbn; lia].
Qed.

Lemma numbers_none {A} (f : A -> option Q) (xs : list A) :
  Mongo.numbers f xs = [] <-> Forall (fun x => f x = None) xs.
Proof.
  unfold Mongo.numbers. induction xs as [|x xs IH]; cbn.
  - split; [constructor | reflexivity].
  - destruct (f x) eqn:E; cbn.
    + split; [discriminate|]. intros H. inversion H; congruence.
    + rewrite IH. split; [now constructor|]. intros H. now inversion H.
Qed.

Lemma avg_none {A} (f : A -> option Q) (xs : list A) :
  Mongo.avg f xs = None <-> Forall (fun x => f x = None) xs.
Proof.
  rewrite <- numbers_none. unfold Mongo.avg.
  destruct (Mongo.numbers f xs); split; congruence.
Qed.

(** Each of the, at most five, properties of the insights stands for a
    listing with at least one review that meets the date filter.  When none
    of these reviews has an average the property has no rating, and it is
    recommended for inspection all the same, with no current rating; a
    property with a rating is recommended exactly when the rating is below
    7. *)
Theorem getInsights_recommends_unrated_properties `{RT : Runtime}
    (filters : AnalyticsFilterDto.t) (s : Model.Store) :
  let dateFilter := AnalyticsService.buildDateFilter filters in
  let properties := AnalyticsService.getPropertyInsights dateFilter s in
  let recommended name rating :=
    In (AnalyticsService.Recommendation.for_property name rating
          "Schedule property inspection and address common issues"
          "Improve property rating to 8+")
       (AnalyticsService.Insights.recommendations
          (AnalyticsService.getInsights filters s)) in
  (length properties <= 5)%nat
  /\ Forall
       (fun p =>
          let reviews :=
            filter (fun r => Review.listingId r
                             = AnalyticsService.PropertyInsight.listingId p)
                   (ReviewsRepository.find_query dateFilter s) in
          reviews <> []
          /\ AnalyticsService.PropertyInsight.count p = length reviews
          /\ match AnalyticsService.PropertyInsight.avgRating p with
             | None =>
                 Forall (fun r => Review.averageCategoryRating r = None) reviews
                 /\ recommended (AnalyticsService.PropertyInsight.listingName p) None
             | Some a =>
                 a < 7
                 <-> recommended (AnalyticsService.PropertyInsight.listingName p)
                                 (Some a)
             end)
       properties.
Proof.
  cbn zeta. unfold AnalyticsService.getInsights.
  cbn [AnalyticsService.Insights.recommendations].
  set (dateFilter := AnalyticsService.buildDateFilter filters).
  set (categories := AnalyticsService.getCategoryInsights dateFilter s).
  split.
  { unfold AnalyticsService.getPropertyInsights, Mongo.limit.
    cbn [Z.eqb Z.abs]. rewrite length_take. lia. }
  assert (Hrec : forall p,
    In p (AnalyticsService.getPropertyInsights dateFilter s) ->
    AnalyticsService.js_lt (AnalyticsService.PropertyInsight.avgRating p) 7 = true ->
    In (AnalyticsService.Recommendation.for_property
          (AnalyticsService.PropertyInsight.listingName p)
          (AnalyticsService.PropertyInsight.avgRating p)
          "Schedule property inspection and address common issues"
          "Improve property rating to 8+")
       (AnalyticsService.generateRecommendations categories
          (AnalyticsService.getPropertyInsights dateFilter s))).
  { intros p Hp Hlt. unfold AnalyticsService.generateRecommendations.
    apply in_or_app. right. apply in_map_iff. exists p.
    split; [reflexivity|]. apply List.filter_In. auto. }
  assert (Hinv : forall name a,
    In (AnalyticsService.Recommendation.for_property name (Some a)
          "Schedule property inspection and address common issues"
          "Improve property rating to 8+")
       (AnalyticsService.generateRecommendations categories
          (AnalyticsService.getPropertyInsights dateFilter s)) ->
    a < 7).
  { intros name a Hin. unfold AnalyticsService.generateRecommendations in Hin.
    apply in_app_or in Hin. destruct Hin as [Hin|Hin].
    - apply in_map_iff in Hin. destruct Hin as (c & Hc & _). discriminate.
    - apply in_map_iff in Hin. destruct Hin as (p & Hp & Hin).
      apply List.filter_In in Hin. destruct Hin as [_ Hlt].
      injection Hp as _ Hrating. rewrite Hrating in Hlt.
      unfold AnalyticsService.js_lt in Hlt. cbn in Hlt.
      apply negb_true_iff in Hlt.
      apply Qnot_le_lt. intros H. apply Qle_bool_iff in H. congruence. }
  apply List.Forall_forall. intros p Hp.
  pose proof Hp as Hp0.
  unfold AnalyticsService.getPropertyInsights in Hp.
  apply limit_In, sort_by_elements, in_map_iff in Hp.
  destruct Hp as (g & Hg & Hin).
  pose proof (group_by_group Review.listingId _ g Hin) as Hgroup.
  pose proof (group_by_nonempty Review.listingId
                (ReviewsRepository.find_query dateFilter s)) as Hne.
  rewrite List.Forall_forall in Hne. specialize (Hne g Hin).
  assert (Eid : AnalyticsService.PropertyInsight.listingId p = fst g)
    by (now rewrite <- Hg).
  assert (Eavg : AnalyticsService.PropertyInsight.avgRating p
                 = Mongo.round2 (Mongo.avg Review.averageCategoryRating (snd g)))
    by (now rewrite <- Hg).
  assert (Ecount : AnalyticsService.PropertyInsight.count p = length (snd g))
    by (now rewrite <- Hg).
  rewrite Eid, <- Hgroup. split; [assumption|]. split; [assumption|].
  destruct (AnalyticsService.PropertyInsight.avgRating p) as [a|] eqn:Ea.
  - split; [|apply Hinv].
    intros Hlt. rewrite <- Ea. apply Hrec; [assumption|].
    rewrite Ea. unfold AnalyticsService.js_lt. cbn.
    apply negb_true_iff, not_true_iff_false. rewrite Qle_bool_iff. lra.
  - split.
    + apply avg_none.
      destruct (Mongo.avg Review.averageCategoryRating (snd g)); [discriminate|].
      reflexivity.
    + rewrite <- Ea. apply Hrec; [assumption|]. rewrite Ea. reflexivity.
Qed.

(** ** Category insights *)

(** The category insights have one entry for each category that a review
    meeting the date filter rates: the categories are distinct, the lowest
    average comes first, every entry has an average and counts the ratings
    of its category, and together the entries count every rating. *)
Theorem getCategoryInsights_counts `{RT : Runtime}
    (dateFilter : ReviewsRepository.FilterQuery) (s : Model.Store) :
  let insights := AnalyticsService.getCategoryInsights dateFilter s in
  let ratings :=
    flat_map Review.reviewCategories (ReviewsRepository.find_query dateFilter s) in
  List.NoDup (map AnalyticsService.CategoryInsight.category insights)
  /\ sum_list (map AnalyticsService.CategoryInsight.count insights)
     = length ratings
  /\ StronglySorted
       (fun a b => Mongo.leb (AnalyticsService.CategoryInsight.avgRating a)
                             (AnalyticsService.CategoryInsight.avgRating b) = true)
       insights
  /\ Forall
       (fun c =>
          AnalyticsService.CategoryInsight.count c
          = length (filter (fun x => ReviewCategory.category x
                                     = AnalyticsService.CategoryInsight.category c)
                           ratings)
          /\ (1 <= AnalyticsService.CategoryInsight.count c)%nat
          /\ exists a, AnalyticsService.CategoryInsight.avgRating c = Some a)
       insights.
Proof.
  cbn zeta. unfold AnalyticsService.getCategoryInsights.
  set (ratings := flat_map _ _).
  set (summary := fun g : string * list ReviewCategory.t => _).
  set (le := fun a b : AnalyticsService.CategoryInsight.t => _).
  split; [|split; [|split]].
  - eapply Permutation_NoDup.
    + apply Permutation_map. symmetry. apply merge_sort_Permutation.
    + rewrite map_map.
      replace (map _ (Mongo.group_by ReviewCategory.category ratings))
        with (map fst (Mongo.group_by ReviewCategory.category ratings))
        by reflexivity.
      apply group_by_keys_NoDup.
  - rewrite sum_list_sort_by, map_map.
    cbn [AnalyticsService.CategoryInsight.count summary].
    apply group_by_sizes.
  - apply sort_by_sorted.
    + intros a b. apply mongo_leb_total.
    + intros a b c. apply mongo_leb_trans.
  - apply sort_by_Forall, Forall_map. apply List.Forall_forall. intros g Hg.
    pose proof (group_by_group ReviewCategory.category ratings g Hg) as Hgroup.
    pose proof (group_by_nonempty ReviewCategory.category ratings) as Hne.
    rewrite List.Forall_forall in Hne. specialize (Hne g Hg).
    cbn. rewrite <- Hgroup. split; [reflexivity|].
    split; [now apply count_positive|].
    unfold Mongo.avg, Mongo.numbers.
    destruct (snd g) as [|c cs]; [congruence|]. cbn. eauto.
Qed.

(** ** Instances *)

Lemma statistics_fresh_after_change_witness :
  exists result st',
    ReviewsService.approveReview "7453" None 5
      (Sample.state Sample.one_review) = (Ok result, st')
    /\ fst (ReviewsService.getStatistics st')
       = Ok (ReviewsService.CachedStatistics
               (ReviewsService.transform_statistics
                  (ReviewsRepository.getStatistics (ReviewsService.db st')))).
Proof.
  eexists _, _. split; [vm_compute; reflexivity|].
  match goal with
  | |- fst (ReviewsService.getStatistics ?s) = _ =>
      destruct (statistics_fresh_after_change (RT := Sample.runtime)
                  (Sample.state Sample.one_review) s 5)
        as (_ & _ & _ & Happrove & _)
  end.
  eapply (Happrove "7453" None). vm_compute. reflexivity.
Defined.

(** ** The rating distribution *)

Lemma bucket_of_other (x : option Q) :
  ReviewsRepository.bucket_of x = None
  <-> match x with
      | Some q => Qle_bool 0 q && negb (Qle_bool 10 q)
      | None => false
      end = false.
Proof.
  unfold ReviewsRepository.bucket_of. destruct x as [q|]; [|tauto].
  destruct (Qle_bool 0 q && negb (Qle_bool 10 q)); split; congruence.
Qed.

Lemma bucket_of_boundary (x : option Q) (b : Z) :
  In b [0; 2; 4; 6; 8]%Z ->
  ReviewsRepository.bucket_of x = Some b
  <-> match x with
      | Some q => Qle_bool (inject_Z b) q && negb (Qle_bool (inject_Z b + 2) q)
      | None => false
      end = true.
Proof.
  intros Hb. split.
  - intros H. pose proof (bucket_of_interval x) as Hi. rewrite H in Hi.
    destruct Hi as (_ & q & -> & Hlo & Hhi).
    apply andb_true_iff. split; [now apply Qle_bool_iff|].
    apply negb_true_iff, not_true_iff_false. rewrite Qle_bool_iff. lra.
  - destruct x as [q|]; [|discriminate]. intros H.
    apply andb_true_iff in H. destruct H as [Hlo Hhi].
    apply Qle_bool_iff in Hlo. apply negb_true_iff in Hhi.
    assert (Hlt : q < inject_Z b + 2).
    { apply Qnot_le_lt. intros G. apply Qle_bool_iff in G. congruence. }
    assert (Hb' : (0 <= b <= 8)%Z).
    { cbn in Hb. lia. }
    assert (H0 : 0 <= inject_Z b).
    { change 0 with (inject_Z 0). rewrite <- Zle_Qle. lia. }
    assert (H8 : inject_Z b <= 8).
    { change 8 with (inject_Z 8). rewrite <- Zle_Qle. lia. }
    unfold ReviewsRepository.bucket_of.
    assert (E0 : Qle_bool 0 q = true) by (apply Qle_bool_iff; lra).
    assert (E10 : Qle_bool 10 q = false).
    { apply not_true_iff_false. rewrite Qle_bool_iff. lra. }
    rewrite E0, E10. cbn [andb negb]. f_equal.
    assert (Hf1 : (b <= Qfloor q)%Z).
    { rewrite <- (Qfloor_Z b). now apply Qfloor_resp_le. }
    assert (Hf2 : (Qfloor q < b + 2)%Z).
    { rewrite Zlt_Qlt. eapply Qle_lt_trans; [apply Qfloor_le|].
      rewrite inject_Z_plus. exact Hlt. }
    set (f := Qfloor q) in *. clearbody f. cbn in Hb.
    assert (Hcase : (f = b \/ f = b + 1)%Z) by lia.
    destruct Hb as [<- | [<- | [<- | [<- | [<- | []]]]]];
      destruct Hcase as [-> | ->]; reflexivity.
Qed.

Lemma bucket_leb_total (a b : ReviewsRepository.Bucket.t) :
  ReviewsRepository.bucket_leb a b = true
  \/ ReviewsRepository.bucket_leb b a = true.
Proof.
  unfold ReviewsRepository.bucket_leb.
  destruct (ReviewsRepository.Bucket._id a), (ReviewsRepository.Bucket._id b);
    auto.
  rewrite !Z.leb_le. lia.
Qed.

Lemma bucket_leb_trans (a b c : ReviewsRepository.Bucket.t) :
  ReviewsRepository.bucket_leb a b = true ->
  ReviewsRepository.bucket_leb b c = true ->
  ReviewsRepository.bucket_leb a c = true.
Proof.
  unfold ReviewsRepository.bucket_leb.
  destruct (ReviewsRepository.Bucket._id a), (ReviewsRepository.Bucket._id b),
    (ReviewsRepository.Bucket._id c); auto; try discriminate.
  rewrite !Z.leb_le. lia.
Qed.

(** The rating distribution of the dashboard has distinct buckets, by
    ascending boundary with 'Other' last, and none of them empty.  The bucket
    of a boundary b, one of 0, 2, 4, 6 and 8, counts the stored reviews with
    an average from b up to but not including b + 2; 'Other' counts the
    reviews without an average, with a negative one, or with an average of
    10 or more. *)
Theorem ratingDistribution_buckets (s : Model.Store) :
  let distribution :=
    ReviewsService.ratingDistribution
      (ReviewsService.transform_statistics (ReviewsRepository.getStatistics s)) in
  let rated (lo hi : Q) (r : Review.t) :=
    match Review.averageCategoryRating r with
    | Some q => Qle_bool lo q && negb (Qle_bool hi q)
    | None => false
    end in
  List.NoDup (map ReviewsRepository.Bucket._id distribution)
  /\ StronglySorted
       (fun a b =>
          match ReviewsRepository.Bucket._id a, ReviewsRepository.Bucket._id b with
          | Some x, Some y => (x <= y)%Z
          | _, None => True
          | None, Some _ => False
          end) distribution
  /\ Forall
       (fun bucket =>
          (1 <= ReviewsRepository.Bucket.count bucket)%nat
          /\ match ReviewsRepository.Bucket._id bucket with
             | Some b =>
                 In b [0; 2; 4; 6; 8]%Z
                 /\ ReviewsRepository.Bucket.count bucket
                    = length (filter (fun r => rated (inject_Z b) (inject_Z b + 2) r
                                               = true) (Model.docs s))
             | None =>
                 ReviewsRepository.Bucket.count bucket
                 = length (filter (fun r => rated 0 10 r = false) (Model.docs s))
             end)
       distribution.
Proof.
  cbn zeta. unfold ReviewsService.transform_statistics, ReviewsRepository.getStatistics.
  cbn [ReviewsService.ratingDistribution ReviewsRepository.ratingDistribution].
  set (key := fun r : Review.t =>
                ReviewsRepository.bucket_of (Review.averageCategoryRating r)).
  set (summary := fun g : option Z * list Review.t => _).
  split; [|split].
  - eapply Permutation_NoDup.
    + apply Permutation_map. symmetry. apply merge_sort_Permutation.
    + rewrite map_map.
      replace (map _ (Mongo.group_by key (Model.docs s)))
        with (map fst (Mongo.group_by key (Model.docs s))) by reflexivity.
      apply group_by_keys_NoDup.
  - eapply StronglySorted_weaken; [|apply sort_by_sorted].
    + intros a b H. unfold Mongo.by_leb, ReviewsRepository.bucket_leb in H.
      destruct (ReviewsRepository.Bucket._id a), (ReviewsRepository.Bucket._id b);
        try discriminate; auto.
      now apply Z.leb_le in H.
    + apply bucket_leb_total.
    + apply bucket_leb_trans.
  - apply sort_by_Forall, Forall_map. apply List.Forall_forall. intros g Hg.
    pose proof (group_by_group key (Model.docs s) g Hg) as Hgroup.
    pose proof (group_by_nonempty key (Model.docs s)) as Hne.
    pose proof (group_by_members key (Model.docs s)) as Hkey.
    rewrite List.Forall_forall in Hne, Hkey.
    specialize (Hne g Hg). specialize (Hkey g Hg).
    cbn. split; [now apply count_positive|].
    unfold Mongo.count. rewrite Hgroup.
    destruct (fst g) as [b|] eqn:Eb.
    + assert (Hb : In b [0; 2; 4; 6; 8]%Z).
      { destruct (snd g) as [|r rs]; [congruence|].
        inversion Hkey as [|? ? Hr _]; subst. unfold key in Hr.
        pose proof (bucket_of_interval (Review.averageCategoryRating r)) as Hi.
        rewrite Hr in Hi. tauto. }
      split; [exact Hb|]. f_equal. apply list_filter_iff. intros r.
      unfold key. now apply bucket_of_boundary.
    + f_equal. apply list_filter_iff. intros r. unfold key.
      apply bucket_of_other.
Qed.

(** ** A second sync *)

Lemma find_hostawayId_in (h : Z) (l : list Review.t) :
  In h (map Review.hostawayId l) ->
  exists r, find (fun r => bool_decide (Review.hostawayId r = h)) l = Some r.
Proof.
  induction l as [|r l IH]; cbn; [tauto|].
  destruct (bool_decide (Review.hostawayId r = h)) eqn:E; [eauto|].
  apply bool_decide_eq_false in E. intros [H | H]; [congruence | now apply IH].
Qed.

Lemma upsert_one_ids now acc n :
  let h := NormalizedReview.hostawayId n in
  let ids s := map Review.hostawayId (Model.docs s) in
  let next := ReviewsRepository.upsert_one now acc n in
  (In h (ids (snd acc)) ->
   ids (snd next) = ids (snd acc)
   /\ ReviewsRepository.upsertedCount (fst next)
      = ReviewsRepository.upsertedCount (fst acc))
  /\ (~ In h (ids (snd acc)) ->
      ids (snd next) = ids (snd acc) ++ [h]
      /\ ReviewsRepository.upsertedCount (fst next)
         = S (ReviewsRepository.upsertedCount (fst acc))).
Proof.
  destruct acc as [res s]. cbn zeta. cbn [fst snd].
  unfold ReviewsRepository.upsert_one.
  set (p := fun r => bool_decide (Review.hostawayId r = NormalizedReview.hostawayId n)).
  set (f := Model.apply_update now (PartialReview.of_normalized n)).
  pose proof (update_first_find p f (Model.docs s)) as Hf.
  pose proof (update_first_map Review.hostawayId p f (Model.docs s)) as Hm.
  destruct (ReviewsRepository.update_first p f (Model.docs s))
    as [[[before after]|] docs']; cbn in Hf, Hm |- *.
  - assert (Hin : In (NormalizedReview.hostawayId n)
                     (map Review.hostawayId (Model.docs s))).
    { destruct (find p (Model.docs s)) as [r|] eqn:E; [|discriminate].
      apply find_some in E. destruct E as [Hr Hp].
      unfold p in Hp. apply bool_decide_eq_true in Hp. rewrite <- Hp.
      now apply in_map. }
    split; [|tauto]. intros _. split; [|reflexivity].
    apply Hm. intros r Hr. unfold p in Hr. apply bool_decide_eq_true in Hr.
    unfold f. cbn. now rewrite Hr.
  - assert (Hout : ~ In (NormalizedReview.hostawayId n)
                        (map Review.hostawayId (Model.docs s))).
    { apply find_none_not_in.
      destruct (find p (Model.docs s)) eqn:E; [discriminate | exact E]. }
    split; [tauto|]. intros _. rewrite map_app. split; reflexivity.
Qed.

Lemma bulkUpsert_fold_present now reviews acc :
  let ids s := map Review.hostawayId (Model.docs s) in
  let final := fold_left (ReviewsRepository.upsert_one now) reviews acc in
  Forall (fun n => In (NormalizedReview.hostawayId n) (ids (snd final))) reviews
  /\ (forall h, In h (ids (snd acc)) -> In h (ids (snd final)))
  /\ (Forall (fun n => In (NormalizedReview.hostawayId n) (ids (snd acc))) reviews ->
      ids (snd final) = ids (snd acc)
      /\ ReviewsRepository.upsertedCount (fst final)
         = ReviewsRepository.upsertedCount (fst acc)).
Proof.
  cbn zeta. revert acc. induction reviews as [|n ns IH]; intros acc.
  - cbn. split; [constructor|]. split; [auto|]. auto.
  - cbn [fold_left].
    destruct (IH (ReviewsRepository.upsert_one now acc n)) as (IH1 & IH2 & IH3).
    destruct (upsert_one_ids now acc n) as [Hin Hout].
    assert (Hgrow : forall h,
      In h (map Review.hostawayId (Model.docs (snd acc))) ->
      In h (map Review.hostawayId
              (Model.docs (snd (ReviewsRepository.upsert_one now acc n))))).
    { intros h Hh.
      destruct (in_dec Z.eq_dec (NormalizedReview.hostawayId n)
                  (map Review.hostawayId (Model.docs (snd acc)))) as [Hp|Hp].
      - destruct (Hin Hp) as [-> _]. exact Hh.
      - destruct (Hout Hp) as [-> _]. apply in_or_app. now left. }
    assert (Hself :
      In (NormalizedReview.hostawayId n)
         (map Review.hostawayId
            (Model.docs (snd (ReviewsRepository.upsert_one now acc n))))).
    { destruct (in_dec Z.eq_dec (NormalizedReview.hostawayId n)
                  (map Review.hostawayId (Model.docs (snd acc)))) as [Hp|Hp].
      - destruct (Hin Hp) as [-> _]. exact Hp.
      - destruct (Hout Hp) as [-> _]. apply in_or_app. right. now left. }
    split; [constructor; [now apply IH2 | exact IH1]|].
    split; [intros h Hh; now apply IH2, Hgrow|].
    intros Hall. inversion Hall as [|? ? Hn Hns]; subst.
    destruct (Hin Hn) as [Eids Ecount].
    destruct IH3 as [E1 E2].
    + rewrite Eids. exact Hns.
    + rewrite E1, E2, Eids, Ecount. split; reflexivity.
Qed.

Lemma bulkUpsert_growth (reviews : list NormalizedReview.t) (now : Z)
    (s : Model.Store) :
  length (Model.docs (snd (ReviewsRepository.bulkUpsert reviews now s)))
  = (length (Model.docs s)
     + ReviewsRepository.inserted (fst (ReviewsRepository.bulkUpsert reviews now s)))%nat.
Proof.
  unfold ReviewsRepository.bulkUpsert.
  assert (G : forall reviews acc,
    let final := fold_left (ReviewsRepository.upsert_one now) reviews acc in
    (length (Model.docs (snd final)) + ReviewsRepository.upsertedCount (fst acc))%nat
    = (length (Model.docs (snd acc))
       + ReviewsRepository.upsertedCount (fst final))%nat).
  { clear reviews. induction reviews as [|n ns IH]; intros acc; cbn zeta.
    - reflexivity.
    - cbn [fold_left]. specialize (IH (ReviewsRepository.upsert_one now acc n)).
      cbn zeta in IH.
      destruct (upsert_one_ids now acc n) as [Hin Hout].
      destruct (in_dec Z.eq_dec (NormalizedReview.hostawayId n)
                  (map Review.hostawayId (Model.docs (snd acc)))) as [Hp|Hp].
      + destruct (Hin Hp) as [Eids Ecount].
        apply (f_equal (@length Z)) in Eids. rewrite !length_map in Eids. lia.
      + destruct (Hout Hp) as [Eids Ecount].
        apply (f_equal (@length Z)) in Eids.
        rewrite length_app, !length_map in Eids. cbn in Eids. lia. }
  specialize (G reviews ({| ReviewsRepository.upsertedCount := 0;
                            ReviewsRepository.modifiedCount := 0 |}, s)).
  cbn zeta in G.
  destruct (fold_left _ _ _) as [result s']. cbn in *. lia.
Qed.

(** After a sync every review of the batch is in the store, found by its
    Hostaway id, and the store has grown by the number of reviews the sync
    reports as inserted.  A second sync of the same batch inserts nothing
    and leaves the number of stored reviews as it is. *)
Theorem sync_again_inserts_nothing (reviews : list NormalizedReview.t)
    (now later : Z) (s : Model.Store) :
  let first := ReviewsRepository.bulkUpsert reviews now s in
  let second := ReviewsRepository.bulkUpsert reviews later (snd first) in
  Forall (fun n => exists stored,
            ReviewsRepository.findByHostawayId (NormalizedReview.hostawayId n)
              (snd first) = Some stored) reviews
  /\ length (Model.docs (snd first))
     = (length (Model.docs s) + ReviewsRepository.inserted (fst first))%nat
  /\ ReviewsRepository.inserted (fst second) = 0%nat
  /\ length (Model.docs (snd second)) = length (Model.docs (snd first)).
Proof.
  cbn zeta.
  pose proof (bulkUpsert_growth reviews now s) as Hgrowth.
  unfold ReviewsRepository.bulkUpsert in *.
  pose proof (bulkUpsert_fold_present now reviews
                ({| ReviewsRepository.upsertedCount := 0;
                    ReviewsRepository.modifiedCount := 0 |}, s)) as H1.
  cbn zeta in H1. destruct H1 as (Hpresent & _ & _).
  destruct (fold_left (ReviewsRepository.upsert_one now) reviews _)
    as [result1 s1] eqn:E1.
  cbn [fst snd ReviewsRepository.inserted] in *.
  pose proof (bulkUpsert_fold_present later reviews
                ({| ReviewsRepository.upsertedCount := 0;
                    ReviewsRepository.modifiedCount := 0 |}, s1)) as H2.
  cbn zeta in H2. destruct H2 as (_ & _ & Hsame).
  destruct (fold_left (ReviewsRepository.upsert_one later) reviews _)
    as [result2 s2] eqn:E2.
  cbn [fst snd ReviewsRepository.inserted ReviewsRepository.upsertedCount] in *.
  destruct (Hsame Hpresent) as [Eids Ecount].
  split; [|split; [exact Hgrowth|split; [exact Ecount|]]].
  - eapply Forall_impl; [exact Hpresent|].
    intros n Hn. cbn in Hn. apply find_hostawayId_in in Hn.
    destruct Hn as [r Hr]. exists r. exact Hr.
  - rewrite <- (length_map Review.hostawayId (Model.docs s2)), Eids.
    apply length_map.
Qed.
